(** * ETL pipeline: validator, loader, transformer and reporting manager

    A shallow embedding of the data-processing core of the repository
    ([src/validation.py], [src/data_processing/loader.py],
    [src/data_processing/transformer.py], [src/database/manager.py]) and the
    properties its specification states about it.

    Conventions of the embedding:
    - a Python [str] is a [string]; text is ASCII (code points below 128);
    - [None] / NaN cells of a frame are [None] of an [option];
    - a function that can raise returns an [outcome]: [Returned v] or
      [Raised e];
    - a database table with a primary key is a [gmap] from the key to the row;
    - a pandas frame is the list of its rows, each with its index label. *)

From Stdlib Require Import ZArith NArith Ascii String Lia.
From Stdlib Require QArith.
From stdpp Require Import gmap strings list fin_maps pretty sorting.

Local Open Scope string_scope.
Local Open Scope list_scope.

(** ** Python strings and exceptions *)

Module Py.

Definition isspace (c : ascii) : bool :=
  let n := nat_of_ascii c in
  ((9 <=? n)%nat && (n <=? 13)%nat) || ((28 <=? n)%nat && (n <=? 32)%nat).

Definition isdigit (c : ascii) : bool :=
  let n := nat_of_ascii c in (48 <=? n)%nat && (n <=? 57)%nat.

Definition isupper (c : ascii) : bool :=
  let n := nat_of_ascii c in (65 <=? n)%nat && (n <=? 90)%nat.

Definition islower (c : ascii) : bool :=
  let n := nat_of_ascii c in (97 <=? n)%nat && (n <=? 122)%nat.

Definition isalpha (c : ascii) : bool := isupper c || islower c.

Definition lower_char (c : ascii) : ascii :=
  if isupper c then ascii_of_nat (nat_of_ascii c + 32) else c.

Definition upper_char (c : ascii) : ascii :=
  if islower c then ascii_of_nat (nat_of_ascii c - 32) else c.

(** [s.lower()] *)
Fixpoint lower (s : string) : string :=
  match s with
  | EmptyString => EmptyString
  | String c r => String (lower_char c) (lower r)
  end.

Fixpoint lstrip (s : string) : string :=
  match s with
  | EmptyString => EmptyString
  | String c r => if isspace c then lstrip r else s
  end.

Fixpoint rstrip (s : string) : string :=
  match s with
  | EmptyString => EmptyString
  | String c r =>
      match rstrip r with
      | EmptyString => if isspace c then EmptyString else String c EmptyString
      | r' => String c r'
      end
  end.

(** [s.strip()] *)
Definition strip (s : string) : string := rstrip (lstrip s).

(** [s[:n]] *)
Fixpoint take (n : nat) (s : string) : string :=
  match n, s with
  | S k, String c r => String c (take k r)
  | _, _ => EmptyString
  end.

(** Truth value of a string: [bool(s)]. *)
Definition truthy (s : string) : bool :=
  match s with EmptyString => false | _ => true end.

(** Truth value of an optional string cell: [None] and [''] are false. *)
Definition truthy_opt (o : option string) : bool :=
  match o with Some s => truthy s | None => false end.

(** [re.sub(r'\s+', ' ', s)]: every maximal run of whitespace becomes one
    space. [in_run] tells that the previous character was whitespace. *)
Fixpoint collapse_ws (in_run : bool) (s : string) : string :=
  match s with
  | EmptyString => EmptyString
  | String c r =>
      if isspace c
      then (if in_run then collapse_ws true r else String " " (collapse_ws true r))
      else String c (collapse_ws false r)
  end.

(** [s.title()]: a letter that follows a letter is lowercased, any other
    letter is uppercased. *)
Fixpoint title_from (prev_cased : bool) (s : string) : string :=
  match s with
  | EmptyString => EmptyString
  | String c r =>
      String (if prev_cased then lower_char c else upper_char c)
             (title_from (isalpha c) r)
  end.

Definition title (s : string) : string := title_from false s.

(** [s.replace("_", "")] *)
Fixpoint remove_underscores (s : string) : string :=
  match s with
  | EmptyString => EmptyString
  | String c r =>
      if (c =? "_")%char then remove_underscores r
      else String c (remove_underscores r)
  end.

(** Membership of a string in a collection of strings ([x in S]). *)
Definition str_in (x : string) (l : list string) : bool :=
  existsb (String.eqb x) l.

(** Reasons carried by [InvalidAmountError]. *)
Inductive amount_reason :=
| CannotBeNegative
| CannotBeZero
| InvalidAmountFormat.

(** The exceptions the modelled code raises. *)
Inductive exn :=
| InvalidAmountError (reason : amount_reason)
| InvalidStatusError (status : string)
| TypeError
| KeyError (key : string)
| ValueError
| SQLAlchemyError
| DatabaseTransactionError.

Inductive outcome (A : Type) :=
| Returned (a : A)
| Raised (e : exn).
Arguments Returned {A} a.
Arguments Raised {A} e.

#[global] Instance outcome_ret : MRet outcome := fun A a => Returned a.

#[global] Instance outcome_bind : MBind outcome := fun A B k m =>
  match m with
  | Returned a => k a
  | Raised e => Raised e
  end.

End Py.

(** ** [decimal.Decimal] *)

Module PyDecimal.
Import Py.

(** A decimal is a sign, a coefficient and an exponent, or a special value.
    The payload of a NaN plays no role here and is left out. *)
Inductive Decimal :=
| Finite (sign : bool) (coeff : N) (exp : Z)
| Infinity (sign : bool)
| NaN (signaling : bool).

Fixpoint span_digits (s : string) : string * string :=
  match s with
  | EmptyString => (EmptyString, EmptyString)
  | String c r =>
      if isdigit c
      then let '(d, r') := span_digits r in (String c d, r')
      else (EmptyString, s)
  end.

Definition digit_value (c : ascii) : N := (N_of_ascii c - 48)%N.

Fixpoint int_of_digits_from (acc : N) (s : string) : N :=
  match s with
  | EmptyString => acc
  | String c r => int_of_digits_from (acc * 10 + digit_value c)%N r
  end.

(** [int(s)] for a string of digits ([int('')] is not called: the empty
    coefficient is excluded before). *)
Definition int_of_digits (s : string) : N := int_of_digits_from 0%N s.

Definition parse_sign (s : string) : bool * string :=
  match s with
  | String "-" r => (true, r)
  | String "+" r => (false, r)
  | _ => (false, s)
  end.

(** The exponent part: nothing, or [E] followed by an optional sign and at
    least one digit, up to the end of the string. *)
Definition parse_exponent (s : string) : option Z :=
  match s with
  | EmptyString => Some 0%Z
  | String c r =>
      if (lower_char c =? "e")%char then
        let '(neg, r1) := parse_sign r in
        let '(ds, r2) := span_digits r1 in
        match ds, r2 with
        | String _ _, EmptyString =>
            let v := Z.of_N (int_of_digits ds) in
            Some (if neg then (- v)%Z else v)
        | _, _ => None
        end
      else None
  end.

(** [decimal.MAX_EMAX] and [decimal.MIN_ETINY] of the C implementation on
    a 64-bit platform: the largest adjusted exponent and the smallest
    exponent of a decimal. *)
Definition MAX_EMAX : Z := 999999999999999999%Z.
Definition MIN_ETINY : Z := (-1999999999999999997)%Z.

Fixpoint strip_zeros (s : string) : string :=
  match s with
  | String "0" r => strip_zeros r
  | _ => s
  end.

(** The number of digits of the coefficient written [digits]: leading
    zeros do not count, and zero has one digit. *)
Definition coefficient_length (digits : string) : Z :=
  Z.max 1 (Z.of_nat (String.length (strip_zeros digits))).

(** The exponent and the adjusted exponent are within the limits. *)
Definition representable (digits : string) (exp : Z) : bool :=
  (MIN_ETINY <=? exp)%Z
  && (exp + coefficient_length digits - 1 <=? MAX_EMAX)%Z.

(** A number: digits with an optional fractional part, at least one digit
    in all, and an optional exponent. The conversion is exact: a number
    outside the limits is refused. *)
Definition parse_finite (sign : bool) (s : string) : option Decimal :=
  let '(ip, r1) := span_digits s in
  let '(fp, r2) :=
    match r1 with
    | String "." r => span_digits r
    | _ => (EmptyString, r1)
    end in
  match (ip ++ fp)%string with
  | EmptyString => None
  | digits =>
      match parse_exponent r2 with
      | Some e =>
          let exp := (e - Z.of_nat (String.length fp))%Z in
          if representable digits exp
          then Some (Finite sign (int_of_digits digits) exp)
          else None
      | None => None
      end
  end.

Definition all_digits (s : string) : bool :=
  match span_digits s with (_, EmptyString) => true | _ => false end.

(** [Inf], [Infinity], [NaN] and [sNaN] (with optional diagnostic digits),
    in any letter case. *)
Definition parse_special (sign : bool) (s : string) : option Decimal :=
  let l := lower s in
  if (l =? "inf")%string || (l =? "infinity")%string then Some (Infinity sign)
  else
    match l with
    | String "n" (String "a" (String "n" r)) =>
        if all_digits r then Some (NaN false) else None
    | String "s" (String "n" (String "a" (String "n" r))) =>
        if all_digits r then Some (NaN true) else None
    | _ => None
    end.

(** [Decimal(s)]: [None] stands for [InvalidOperation]. Surrounding
    whitespace is stripped and underscores are dropped before parsing. *)
Definition of_string (s : string) : option Decimal :=
  let '(sign, r) := parse_sign (remove_underscores (strip s)) in
  match parse_finite sign r with
  | Some d => Some d
  | None => parse_special sign r
  end.

(** The signed coefficient of a finite decimal at exponent [m <= exp]. *)
Definition scaled (sign : bool) (coeff : N) (exp m : Z) : Z :=
  let v := (Z.of_N coeff * 10 ^ (exp - m))%Z in
  if sign then (- v)%Z else v.

(** [a < b]; [None] stands for [InvalidOperation], which an ordering
    comparison with a NaN signals. *)
Definition lt (a b : Decimal) : option bool :=
  match a, b with
  | NaN _, _ | _, NaN _ => None
  | Infinity sa, Infinity sb => Some (sa && negb sb)
  | Infinity sa, Finite _ _ _ => Some sa
  | Finite _ _ _, Infinity sb => Some (negb sb)
  | Finite sa ca ea, Finite sb cb eb =>
      let m := Z.min ea eb in
      Some (scaled sa ca ea m <? scaled sb cb eb m)%Z
  end.

Definition zero : Decimal := Finite false 0%N 0%Z.

(** [d == 0] *)
Definition is_zero (d : Decimal) : bool :=
  match d with
  | Finite _ c _ => (c =? 0)%N
  | _ => false
  end.

(** [True] when the decimal representation of the positive coefficient [c]
    has more than [k] digits. *)
Definition more_digits_than (c : N) (k : Z) : bool :=
  if (k <? 0)%Z then true else (10 ^ Z.to_N k <=? c)%N.

(** Precision of the default context. *)
Definition prec : Z := 28%Z.

(** The coefficient of [c * 10^e] brought to the exponent [q], rounding
    half to even when digits are dropped. *)
Definition rescale (c : N) (e q : Z) : N :=
  if (q <=? e)%Z then (c * 10 ^ Z.to_N (e - q))%N
  else
    let p := (10 ^ Z.to_N (q - e))%N in
    let quo := (c / p)%N in
    let rem := (c mod p)%N in
    if (p <? 2 * rem)%N then (quo + 1)%N
    else if (2 * rem =? p)%N && N.odd quo then (quo + 1)%N
    else quo.

(** [d.quantize(Decimal(1).scaleb(q))] in the default context (28 digits,
    ROUND_HALF_EVEN) for a finite [d]; [None] stands for
    [InvalidOperation], raised when the result needs more than 28 digits. *)
Definition quantize (d : Decimal) (q : Z) : option Decimal :=
  match d with
  | Finite s c e =>
      if (c =? 0)%N then Some (Finite s 0%N q)
      else if more_digits_than c (prec + q - e) then None
      else
        let c' := rescale c e q in
        if more_digits_than c' prec then None
        else Some (Finite s c' q)
  | _ => None
  end.

(** [Decimal('0.01')] *)
Definition cent : Decimal := Finite false 1%N (-2)%Z.

End PyDecimal.

(** ** [src/validation.py] *)

Module Validation.
Import Py PyDecimal.

(** [ValidationResult]: the cleaned value is a decimal for an amount and a
    string for a status, hence the parameter. *)
Record ValidationResult (A : Type) := mkResult {
  is_valid : bool;
  errors : list string;
  warnings : list string;
  cleaned_value : option A
}.
Arguments mkResult {A}.
Arguments is_valid {A}.
Arguments errors {A}.
Arguments warnings {A}.
Arguments cleaned_value {A}.

(** [ValidationResult()] *)
Definition new_result {A : Type} : ValidationResult A :=
  mkResult true [] [] None.

Definition add_error {A : Type} (error : string) (r : ValidationResult A)
  : ValidationResult A :=
  mkResult false (errors r ++ [error]) (warnings r) (cleaned_value r).

Definition add_warning {A : Type} (warning : string) (r : ValidationResult A)
  : ValidationResult A :=
  mkResult (is_valid r) (errors r) (warnings r ++ [warning]) (cleaned_value r).

Definition set_cleaned_value {A : Type} (value : A) (r : ValidationResult A)
  : ValidationResult A :=
  mkResult (is_valid r) (errors r) (warnings r) (Some value).

Definition VALID_STATUSES : list string :=
  ["paid"; "pending_payment"; "voided"; "refunded"; "pre_authorized";
   "charged_back"].

Definition rounded_warning : string :=
  "Amount has more than 2 decimal places, will be rounded".

(** [InputValidator.validate_amount(amount, allow_zero)]. The argument is
    [None] or the text [str(amount)] of the value passed. The [raise]
    statements of the body leave the function: [InvalidAmountError] is not
    among the exceptions its [except] clause catches. *)
Definition validate_amount (amount : option string) (allow_zero : bool)
  : outcome (ValidationResult Decimal) :=
  match amount with
  | None => Returned (add_error "Amount is required" new_result)
  | Some s =>
      match of_string s with
      | None => Raised (InvalidAmountError InvalidAmountFormat)
      | Some d =>
          match lt d zero with
          | None => Raised (InvalidAmountError InvalidAmountFormat)
          | Some true => Raised (InvalidAmountError CannotBeNegative)
          | Some false =>
              if negb allow_zero && is_zero d
              then Raised (InvalidAmountError CannotBeZero)
              else
                match d with
                | Finite _ _ e =>
                    if (e <? -2)%Z then
                      match quantize d (-2) with
                      | Some q =>
                          Returned (set_cleaned_value q
                                      (add_warning rounded_warning new_result))
                      | None => Raised (InvalidAmountError InvalidAmountFormat)
                      end
                    else Returned (set_cleaned_value d new_result)
                | _ => Raised TypeError
                end
          end
      end
  end.

(** [InputValidator.validate_status(status)] *)
Definition validate_status (status : option string)
  : outcome (ValidationResult string) :=
  match status with
  | None | Some EmptyString =>
      Returned (add_error "Status is required and must be a string" new_result)
  | Some s =>
      let cleaned_status := lower (strip s) in
      if negb (truthy cleaned_status)
      then Returned (add_error "Status cannot be empty" new_result)
      else if negb (str_in cleaned_status VALID_STATUSES)
      then Raised (InvalidStatusError s)
      else Returned (set_cleaned_value cleaned_status new_result)
  end.

End Validation.

(** ** [src/database/models.py] *)

(** A naive [datetime]; the order is the lexicographic one on its fields. *)
Module Datetime.

Record datetime := mk {
  year : nat; month : nat; day : nat;
  hour : nat; minute : nat; second : nat; microsecond : nat
}.

Definition fields (t : datetime) : list nat :=
  [year t; month t; day t; hour t; minute t; second t; microsecond t].

Fixpoint lex_ltb (a b : list nat) : bool :=
  match a, b with
  | x :: a', y :: b' => (x <? y)%nat || ((x =? y)%nat && lex_ltb a' b')
  | [], _ :: _ => true
  | _, [] => false
  end.

(** [a < b] *)
Definition ltb (a b : datetime) : bool := lex_ltb (fields a) (fields b).

End Datetime.

(** A cell of a date column of a frame: null, the raw text that was read,
    or a parsed [datetime]. *)
Inductive DateCell :=
| DNull
| DRaw (s : string)
| DParsed (t : Datetime.datetime).

Module RawTransaction.
Record t := mk {
  id : option string;
  name : option string;
  company_id : option string;
  amount : option PyDecimal.Decimal;
  status : option string;
  created_at : option string;
  paid_at : option string
}.
End RawTransaction.

Module Company.
Record t := mk {
  company_id : option string;
  company_name : option string;
  created_at : Datetime.datetime;
  updated_at : DateCell
}.
End Company.

Module Charge.
Record t := mk {
  id : option string;
  company_id : option string;
  amount : option PyDecimal.Decimal;
  status : option string;
  created_at : DateCell;
  updated_at : DateCell
}.
End Charge.

(** The three tables. The normalized tables are keyed by their primary key;
    the staging table keeps the order in which its rows were inserted. *)
Record Database := mkDatabase {
  raw_transactions : list RawTransaction.t;
  companies : gmap string Company.t;
  charges : gmap string Charge.t
}.

(** ** [src/database/manager.py] *)

Module Manager.

(** Charges whose company is not in the companies table. *)
Definition orphaned_charges (db : Database) : nat :=
  length (List.filter
            (fun ch : Charge.t =>
               match Charge.company_id ch with
               | Some k => negb (bool_decide (is_Some (companies db !! k)))
               | None => true
               end)
            (map snd (map_to_list (charges db)))).

(** Companies that no charge refers to. *)
Definition companies_without_charges (db : Database) : nat :=
  length (List.filter
            (fun kc : string * Company.t =>
               negb (existsb
                       (fun ch : Charge.t =>
                          bool_decide (Charge.company_id ch = Some (fst kc)))
                       (map snd (map_to_list (charges db)))))
            (map_to_list (companies db))).

(** The [integrity_score] entry of [get_data_distribution_statistics]. *)
Definition integrity_score (orphaned companies_without : nat) : Z :=
  (100 - (Z.of_nat orphaned * 10) - (Z.of_nat companies_without * 5))%Z.

Record data_integrity := mkIntegrity {
  di_orphaned_charges : nat;
  di_companies_without_charges : nat;
  di_integrity_score : Z
}.

(** The [data_integrity] part of [get_data_distribution_statistics]. *)
Definition get_data_integrity (db : Database) : data_integrity :=
  let orphaned := orphaned_charges db in
  let without := companies_without_charges db in
  mkIntegrity orphaned without (integrity_score orphaned without).

End Manager.

(** ** [src/database/connection.py] *)

Module Connection.
Import Py.

(** [with db_connection.get_transaction() as session: block]: when the
    block completes the transaction is committed and the value of the
    block is the value of the statement; when the block raises, the
    transaction is rolled back and a [DatabaseTransactionError] that
    carries the text of the exception is raised in its place. The engine
    is taken to be reachable: no [OperationalError]. *)
Definition get_transaction {A : Type} (block : outcome A) : outcome A :=
  match block with
  | Returned a => Returned a
  | Raised _ => Raised DatabaseTransactionError
  end.

End Connection.

(** ** [src/data_processing/loader.py] *)

(** A row of the frame read from the CSV file: every cell is text or null. *)
Module CsvRow.
Record t := mk {
  id : option string;
  name : option string;
  company_id : option string;
  amount : option string;
  status : option string;
  created_at : option string;
  paid_at : option string
}.
End CsvRow.

(** An entry of [ValidationReport.errors]. *)
Module ValidationError.
Record t := mk {
  type : string;
  field : string;
  row : nat
}.
End ValidationError.

(** An entry of [LoadingReport.loading_errors]. *)
Module LoadingError.
Record t := mk {
  type : string;
  row : nat
}.
End LoadingError.

Module Loader.
Import Py PyDecimal.

Record ValidationReport := mkValidationReport {
  total_rows : nat;
  valid_rows : nat;
  invalid_rows : nat;
  errors : list ValidationError.t;
  warnings : list (string * nat);
  duplicates : nat
}.

(** [ValidationReport.success_rate]; the quotient is kept exact. *)
Definition success_rate (r : ValidationReport) : QArith_base.Q :=
  if (total_rows r =? 0)%nat then QArith_base.Qmake 0 1
  else QArith_base.Qmake (Z.of_nat (valid_rows r) * 100)
                         (Pos.of_nat (total_rows r)).

Definition VALID_STATUSES : list string :=
  ["paid"; "pending_payment"; "voided"; "refunded"; "pre_authorized";
   "charged_back"].

Definition MAX_LENGTHS : list (string * nat) :=
  [("id", 64); ("name", 130); ("company_id", 64); ("status", 50);
   ("created_at", 50); ("paid_at", 50)]%nat.

(** [row[field]] for the fields [MAX_LENGTHS] lists. *)
Definition cell (r : CsvRow.t) (field : string) : option string :=
  if (field =? "id")%string then CsvRow.id r
  else if (field =? "name")%string then CsvRow.name r
  else if (field =? "company_id")%string then CsvRow.company_id r
  else if (field =? "status")%string then CsvRow.status r
  else if (field =? "created_at")%string then CsvRow.created_at r
  else if (field =? "paid_at")%string then CsvRow.paid_at r
  else CsvRow.amount r.

(** A frame: its rows in order, each with its index label. *)
Definition DataFrame : Type := list (nat * CsvRow.t).

(** [df.duplicated(subset=['id']).sum()]: the rows whose id was seen in an
    earlier row. *)
Fixpoint duplicated_count (seen : list (option string)) (df : DataFrame) : nat :=
  match df with
  | [] => 0
  | (_, r) :: rest =>
      (if bool_decide (CsvRow.id r ∈ seen) then 1 else 0)
      + duplicated_count (CsvRow.id r :: seen) rest
  end.

Section WithPandas.

(** [pd.to_datetime(s, errors='raise')]; [None] when it raises. *)
Variable to_datetime : string -> option Datetime.datetime.

(** [DataLoader._is_valid_date_format] *)
Definition _is_valid_date_format (date_str : option string) : bool :=
  match date_str with
  | None => true
  | Some s =>
      if negb (truthy s) then true
      else match to_datetime s with Some _ => true | None => false end
  end.

Definition length_errors (row : CsvRow.t) (row_index : nat)
  : list ValidationError.t :=
  flat_map
    (fun '(field, max_length) =>
       match cell row field with
       | Some v =>
           if truthy v && (max_length <? String.length v)%nat
           then [ValidationError.mk "field_too_long" field row_index]
           else []
       | None => []
       end)
    MAX_LENGTHS.

Definition amount_errors (row : CsvRow.t) (row_index : nat)
  : list ValidationError.t :=
  match CsvRow.amount row with
  | Some s =>
      if truthy s then
        match of_string s with
        | Some d =>
            match lt d zero with
            | Some true => [ValidationError.mk "invalid_amount" "amount" row_index]
            | Some false => []
            | None =>
                [ValidationError.mk "invalid_amount_format" "amount" row_index]
            end
        | None => [ValidationError.mk "invalid_amount_format" "amount" row_index]
        end
      else []
  | None => []
  end.

(** The status check of [_validate_row]:
    [if row['status'] and row['status'] not in self.VALID_STATUSES]. *)
Definition status_errors (row : CsvRow.t) (row_index : nat)
  : list ValidationError.t :=
  match CsvRow.status row with
  | Some s =>
      if truthy s && negb (str_in s VALID_STATUSES)
      then [ValidationError.mk "invalid_status" "status" row_index]
      else []
  | None => []
  end.

Definition date_errors (row : CsvRow.t) (row_index : nat)
  : list ValidationError.t :=
  flat_map
    (fun date_field =>
       if truthy_opt (cell row date_field)
          && negb (_is_valid_date_format (cell row date_field))
       then [ValidationError.mk "invalid_date_format" date_field row_index]
       else [])
    ["created_at"; "paid_at"].

Definition required_errors (row : CsvRow.t) (row_index : nat)
  : list ValidationError.t :=
  (if negb (truthy_opt (CsvRow.id row))
   then [ValidationError.mk "missing_required_field" "id" row_index]
   else [])
  ++ (if negb (truthy_opt (CsvRow.company_id row))
      then [ValidationError.mk "missing_required_field" "company_id" row_index]
      else []).

(** [DataLoader._validate_row(row, row_index)] *)
Definition _validate_row (row : CsvRow.t) (row_index : nat)
  : list ValidationError.t :=
  required_errors row row_index
  ++ length_errors row row_index
  ++ amount_errors row row_index
  ++ status_errors row row_index
  ++ date_errors row row_index.

(** The loop of [validate_data_integrity]: the errors collected and the
    number of rows without any. *)
Fixpoint validate_rows (df : DataFrame) : list ValidationError.t * nat :=
  match df with
  | [] => ([], 0)
  | (idx, row) :: rest =>
      let '(errs, valid) := validate_rows rest in
      match _validate_row row idx with
      | [] => (errs, S valid)
      | row_errors => (row_errors ++ errs, valid)
      end
  end.

(** [DataLoader.validate_data_integrity(df)] *)
Definition validate_data_integrity (df : DataFrame) : ValidationReport :=
  let dups := duplicated_count [] df in
  let '(errs, valid) := validate_rows df in
  mkValidationReport (length df) valid (length df - valid) errs
    (if (0 <? dups)%nat then [("duplicates", dups)] else []) dups.

End WithPandas.

(** [DataLoader._row_to_raw_transaction(row)]: a cell that is null or empty
    becomes [None]; an amount that does not parse raises [ValueError]. *)
Definition keep (o : option string) : option string :=
  if truthy_opt o then o else None.

Definition _row_to_raw_transaction (row : CsvRow.t) : outcome RawTransaction.t :=
  amount ←
    (if truthy_opt (CsvRow.amount row) then
       match of_string (default "" (CsvRow.amount row)) with
       | Some d => Returned (Some d)
       | None => Raised ValueError
       end
     else Returned None);
  mret (RawTransaction.mk
          (keep (CsvRow.id row)) (keep (CsvRow.name row))
          (keep (CsvRow.company_id row)) amount (keep (CsvRow.status row))
          (keep (CsvRow.created_at row)) (keep (CsvRow.paid_at row))).

(** The session over the staging table: the rows committed before the
    transaction began, the rows the transaction has inserted and not yet
    committed, and the objects added and not yet flushed. *)
Record Session := mkSession {
  committed : list RawTransaction.t;
  flushed : list RawTransaction.t;
  pending : list RawTransaction.t
}.

Section WithEngine.

(** The checks of the database engine on the columns of one row (widths,
    numeric precision); the primary key is handled by [accepts]. *)
Variable column_check : RawTransaction.t -> bool.

(** The table accepts a row when its primary key is not null and not taken
    and the engine takes its columns. *)
Definition accepts (visible : list RawTransaction.t) (x : RawTransaction.t)
  : bool :=
  match RawTransaction.id x with
  | Some i =>
      negb (existsb (fun y => bool_decide (RawTransaction.id y = Some i)) visible)
      && column_check x
  | None => false
  end.

Fixpoint insert_all (visible pending : list RawTransaction.t)
  : option (list RawTransaction.t) :=
  match pending with
  | [] => Some visible
  | x :: rest =>
      if accepts visible x then insert_all (visible ++ [x]) rest else None
  end.

(** [session.add(x)] *)
Definition add (x : RawTransaction.t) (s : Session) : Session :=
  mkSession (committed s) (flushed s) (pending s ++ [x]).

(** [session.flush()]: inserts what is pending, or raises. *)
Definition flush (s : Session) : outcome Session :=
  match insert_all (committed s ++ flushed s) (pending s) with
  | Some _ => Returned (mkSession (committed s) (flushed s ++ pending s) [])
  | None => Raised SQLAlchemyError
  end.

(** [session.rollback()]: what the transaction has not committed is gone. *)
Definition rollback (s : Session) : Session :=
  mkSession (committed s) [] [].

(** [DataLoader._load_rows_individually]: the loop, with its two
    accumulators. Only [SQLAlchemyError] is caught; the [ValueError] of a
    row that does not convert leaves the function. *)
Fixpoint individually_loop (session : Session) (rows : DataFrame)
    (batch_start_idx rows_loaded : nat) (individual_errors : list LoadingError.t)
  : outcome (nat * list LoadingError.t * Session) :=
  match rows with
  | [] => Returned (rows_loaded, individual_errors, session)
  | (idx, row) :: rest =>
      raw_transaction ← _row_to_raw_transaction row;
      match flush (add raw_transaction session) with
      | Returned session' =>
          individually_loop session' rest batch_start_idx (S rows_loaded)
            individual_errors
      | Raised _ =>
          individually_loop (rollback (add raw_transaction session)) rest
            batch_start_idx rows_loaded
            (individual_errors
             ++ [LoadingError.mk "individual_row_error" (batch_start_idx + idx)])
      end
  end.

Definition _load_rows_individually (session : Session) (batch_df : DataFrame)
    (batch_start_idx : nat)
  : outcome (nat * list LoadingError.t * Session) :=
  individually_loop session batch_df batch_start_idx 0 [].

(** The first loop of [_load_batch_to_database]: every row that converts
    is added to the session; any exception is recorded. *)
Fixpoint add_batch (session : Session) (rows : DataFrame)
    (batch_start_idx rows_loaded : nat) (batch_errors : list LoadingError.t)
  : nat * list LoadingError.t * Session :=
  match rows with
  | [] => (rows_loaded, batch_errors, session)
  | (idx, row) :: rest =>
      match _row_to_raw_transaction row with
      | Returned raw_transaction =>
          add_batch (add raw_transaction session) rest batch_start_idx
            (S rows_loaded) batch_errors
      | Raised _ =>
          add_batch session rest batch_start_idx rows_loaded
            (batch_errors
             ++ [LoadingError.mk "row_conversion_error" (batch_start_idx + idx)])
      end
  end.

(** [DataLoader._load_batch_to_database] *)
Definition _load_batch_to_database (session : Session) (batch_df : DataFrame)
    (batch_start_idx : nat)
  : outcome (nat * list LoadingError.t * Session) :=
  let '(rows_loaded, batch_errors, session1) :=
    add_batch session batch_df batch_start_idx 0 [] in
  match flush session1 with
  | Returned session2 => Returned (rows_loaded, batch_errors, session2)
  | Raised _ =>
      '(individual_loaded, individual_errors, session3) ←
        _load_rows_individually (rollback session1) batch_df batch_start_idx;
      mret (individual_loaded, batch_errors ++ individual_errors, session3)
  end.

(** [df.iloc[start:end]]: the rows at the positions, with the index labels
    they have in [df]. [_load_dataframe_to_database] calls
    [_load_batch_to_database(session, df.iloc[start_idx:end_idx], start_idx)]
    for [start_idx] in [range(0, len(df), batch_size)] and
    [end_idx = min(start_idx + batch_size, len(df))]. *)
Definition iloc (df : DataFrame) (start_idx end_idx : nat) : DataFrame :=
  firstn (end_idx - start_idx) (skipn start_idx df).

End WithEngine.

(** The frame [pd.read_csv] builds: the rows labelled 0, 1, 2, ... *)
Definition frame_of_rows (rows : list CsvRow.t) : DataFrame :=
  imap (fun i r => (i, r)) rows.

End Loader.

(** ** [src/data_processing/transformer.py] *)

(** A row of the frame the transformer works on. *)
Module Row.
Record t := mk {
  id : option string;
  name : option string;
  company_id : option string;
  amount : option PyDecimal.Decimal;
  status : option string;
  created_at : DateCell;
  paid_at : DateCell;
  updated_at : DateCell
}.

Definition set_id (v : option string) (r : t) : t :=
  mk v (name r) (company_id r) (amount r) (status r) (created_at r)
     (paid_at r) (updated_at r).
Definition set_name (v : option string) (r : t) : t :=
  mk (id r) v (company_id r) (amount r) (status r) (created_at r)
     (paid_at r) (updated_at r).
Definition set_company_id (v : option string) (r : t) : t :=
  mk (id r) (name r) v (amount r) (status r) (created_at r)
     (paid_at r) (updated_at r).
Definition set_amount (v : option PyDecimal.Decimal) (r : t) : t :=
  mk (id r) (name r) (company_id r) v (status r) (created_at r)
     (paid_at r) (updated_at r).
Definition set_status (v : option string) (r : t) : t :=
  mk (id r) (name r) (company_id r) (amount r) v (created_at r)
     (paid_at r) (updated_at r).
Definition set_created_at (v : DateCell) (r : t) : t :=
  mk (id r) (name r) (company_id r) (amount r) (status r) v
     (paid_at r) (updated_at r).
Definition set_paid_at (v : DateCell) (r : t) : t :=
  mk (id r) (name r) (company_id r) (amount r) (status r) (created_at r)
     v (updated_at r).
Definition set_updated_at (v : DateCell) (r : t) : t :=
  mk (id r) (name r) (company_id r) (amount r) (status r) (created_at r)
     (paid_at r) v.
End Row.

(** An entry of [data_quality_issues]: a row that validation excluded,
    or the record a business rule leaves. *)
Module Issue.
Inductive t :=
| validation_error (row_index : nat) (errors warnings : list string)
                   (original_data : Row.t)
| business_rule (type : string) (count : nat).

Definition type (i : t) : string :=
  match i with
  | validation_error _ _ _ _ => "validation_error"
  | business_rule ty _ => ty
  end.
End Issue.

Module Transformer.
Import Py PyDecimal.
Import Validation (ValidationResult, mkResult, is_valid, errors, warnings,
                   cleaned_value, add_error, add_warning, set_cleaned_value).

Record TransformationReport := mkReport {
  total_raw_rows : nat;
  transformed_rows : nat;
  skipped_rows : nat;
  companies_created : nat;
  charges_created : nat;
  transformation_errors : list Issue.t;
  data_quality_issues : list Issue.t
}.

(** [TransformationReport.transformation_success_rate]; the quotient is
    kept exact. *)
Definition transformation_success_rate (r : TransformationReport)
  : QArith_base.Q :=
  if (total_raw_rows r =? 0)%nat then QArith_base.Qmake 100 1
  else QArith_base.Qmake (Z.of_nat (transformed_rows r) * 100)
                         (Pos.of_nat (total_raw_rows r)).

Definition TARGET_SCHEMA_LENGTHS_id : nat := 24.
Definition TARGET_SCHEMA_LENGTHS_company_name : nat := 130.
Definition TARGET_SCHEMA_LENGTHS_company_id : nat := 24.
Definition TARGET_SCHEMA_LENGTHS_status : nat := 30.

Definition VALID_STATUSES : list string :=
  ["paid"; "pending_payment"; "voided"; "refunded"; "pre_authorized";
   "charged_back"].

Definition DATE_PATTERNS : list string :=
  ["%Y-%m-%d"; "%Y-%m-%d %H:%M:%S"; "%Y/%m/%d"; "%Y/%m/%d %H:%M:%S";
   "%d-%m-%Y"; "%d/%m/%Y"; "%m/%d/%Y"; "%Y-%m-%dT%H:%M:%S";
   "%Y-%m-%dT%H:%M:%SZ"].

(** A frame: the names of its columns and its rows in order, each with
    its index label. A cell of a row whose column the frame does not have
    is not part of the frame. *)
Record DataFrame := mkFrame {
  columns : list string;
  rows : list (nat * Row.t)
}.

(** [pd.DataFrame()] *)
Definition empty_frame : DataFrame := mkFrame [] [].

Definition has_column (df : DataFrame) (c : string) : bool :=
  str_in c (columns df).

(** [df.empty]: the frame has no row or no column. *)
Definition empty (df : DataFrame) : bool :=
  match rows df, columns df with
  | [], _ | _, [] => true
  | _, _ => false
  end.

(** The first of the names that is not a column of the frame. *)
Definition missing_column (df : DataFrame) (names : list string)
  : option string :=
  List.find (fun c => negb (has_column df c)) names.

(** Fails with [KeyError] when one of the columns is missing. *)
Definition require (df : DataFrame) (names : list string) : outcome unit :=
  match missing_column df names with
  | Some c => Raised (KeyError c)
  | None => Returned tt
  end.

(** The check of [df.drop_duplicates(subset=names)]: an empty frame is
    returned at once, as a copy; otherwise a name that is not a column
    raises [KeyError]. *)
Definition check_subset (df : DataFrame) (names : list string)
  : outcome unit :=
  if empty df then Returned tt else require df names.

Definition raw_columns : list string :=
  ["id"; "name"; "company_id"; "amount"; "status"; "created_at"; "paid_at"].

Definition date_cell (o : option string) : DateCell :=
  match o with Some s => DRaw s | None => DNull end.

Definition row_of_raw (raw_tx : RawTransaction.t) : Row.t :=
  Row.mk (RawTransaction.id raw_tx) (RawTransaction.name raw_tx)
         (RawTransaction.company_id raw_tx) (RawTransaction.amount raw_tx)
         (RawTransaction.status raw_tx)
         (date_cell (RawTransaction.created_at raw_tx))
         (date_cell (RawTransaction.paid_at raw_tx)) DNull.

(** Rows labelled 0, 1, 2, ... *)
Definition reindex (l : list Row.t) : list (nat * Row.t) :=
  imap (fun i r => (i, r)) l.

(** [DataTransformer._raw_data_to_dataframe] *)
Definition _raw_data_to_dataframe (raw_data : list RawTransaction.t)
  : DataFrame :=
  match raw_data with
  | [] => empty_frame
  | _ => mkFrame raw_columns (reindex (map row_of_raw raw_data))
  end.

(** [pd.isna(v) or not str(v).strip()] for a text cell *)
Definition blank (o : option string) : bool :=
  match o with
  | Some s => negb (truthy (strip s))
  | None => true
  end.

Definition is_null (c : DateCell) : bool :=
  match c with DNull => true | _ => false end.

Section WithParsers.

(** [datetime.strptime(date_str, pattern)]; [None] when it raises
    [ValueError]. *)
Variable strptime : string -> string -> option Datetime.datetime.

(** [pd.to_datetime(date_str, errors='raise').to_pydatetime()]; [None]
    when it raises. *)
Variable to_datetime : string -> option Datetime.datetime.

(** [str(t)] for a [datetime]. *)
Variable str_of_datetime : Datetime.datetime -> string.

(** [str(v)] for a cell of a date column that is not null. *)
Definition date_text (c : DateCell) : option string :=
  match c with
  | DNull => None
  | DRaw s => Some s
  | DParsed t => Some (str_of_datetime t)
  end.

(** The loop over [DATE_PATTERNS]: the first pattern that parses. *)
Fixpoint try_patterns (date_str : string) (patterns : list string)
  : option Datetime.datetime :=
  match patterns with
  | [] => None
  | pattern :: rest =>
      match strptime date_str pattern with
      | Some parsed_date => Some parsed_date
      | None => try_patterns date_str rest
      end
  end.

(** [DataTransformer._parse_and_validate_date(date_value, field_name)] *)
Definition _parse_and_validate_date (date_value : DateCell)
    (field_name : string) : ValidationResult Datetime.datetime :=
  let result := Validation.new_result in
  if blank (date_text date_value) then
    if (field_name =? "created_at")%string
    then add_error (field_name ++ " is required")%string result
    else result
  else
    let date_str := strip (default "" (date_text date_value)) in
    match try_patterns date_str DATE_PATTERNS with
    | Some parsed_date => set_cleaned_value parsed_date result
    | None =>
        match to_datetime date_str with
        | Some parsed_date =>
            add_warning (field_name ++ " parsed with fallback method")%string
              (set_cleaned_value parsed_date result)
        | None =>
            add_error
              ("Unable to parse " ++ field_name ++ ": " ++ date_str)%string
              result
        end
    end.

(** The state of [_validate_row_for_transformation]: [result] and
    [cleaned_row]. *)
Definition vstate : Type := ValidationResult Row.t * Row.t.

Definition check_id (row : Row.t) (st : vstate) : vstate :=
  let '(result, cleaned_row) := st in
  if blank (Row.id row) then (add_error "ID is required" result, cleaned_row)
  else
    let cleaned_id := strip (default "" (Row.id row)) in
    if (TARGET_SCHEMA_LENGTHS_id <? String.length cleaned_id)%nat
    then (add_warning "ID truncated to 24 characters" result,
          Row.set_id (Some (take TARGET_SCHEMA_LENGTHS_id cleaned_id)) cleaned_row)
    else (result, Row.set_id (Some cleaned_id) cleaned_row).

Definition check_company_id (row : Row.t) (st : vstate) : vstate :=
  let '(result, cleaned_row) := st in
  if blank (Row.company_id row)
  then (add_error "Company ID is required" result, cleaned_row)
  else
    let cleaned_company_id := strip (default "" (Row.company_id row)) in
    if (TARGET_SCHEMA_LENGTHS_company_id <? String.length cleaned_company_id)%nat
    then (add_warning "Company ID truncated to 24 characters" result,
          Row.set_company_id
            (Some (take TARGET_SCHEMA_LENGTHS_company_id cleaned_company_id))
            cleaned_row)
    else (result, Row.set_company_id (Some cleaned_company_id) cleaned_row).

Definition check_name (row : Row.t) (st : vstate) : vstate :=
  let '(result, cleaned_row) := st in
  if blank (Row.name row)
  then (add_warning "Company name is missing" result,
        Row.set_name (Some "Unknown Company") cleaned_row)
  else
    let cleaned_name := strip (default "" (Row.name row)) in
    if (TARGET_SCHEMA_LENGTHS_company_name <? String.length cleaned_name)%nat
    then (add_warning "Company name truncated to 130 characters" result,
          Row.set_name
            (Some (take TARGET_SCHEMA_LENGTHS_company_name cleaned_name))
            cleaned_row)
    else (result, Row.set_name (Some cleaned_name) cleaned_row).

(** The amount of a row is a [Decimal] read from the staging table, or
    null; [pd.isna] holds of a decimal NaN as well. [Decimal(str(d))] is
    [d] again. *)
Definition check_amount (row : Row.t) (st : vstate) : vstate :=
  let '(result, cleaned_row) := st in
  match Row.amount row with
  | None | Some (NaN _) => (add_error "Amount is required" result, cleaned_row)
  | Some amount =>
      match lt amount zero with
      | Some true => (add_error "Amount cannot be negative" result, cleaned_row)
      | _ => (result, Row.set_amount (Some amount) cleaned_row)
      end
  end.

(** The message of an invalid status ends with the listing of the valid
    ones, which is left out. *)
Definition check_status (row : Row.t) (st : vstate) : vstate :=
  let '(result, cleaned_row) := st in
  if blank (Row.status row) then (add_error "Status is required" result, cleaned_row)
  else
    let cleaned_status := lower (strip (default "" (Row.status row))) in
    if negb (str_in cleaned_status VALID_STATUSES)
    then (add_error ("Invalid status: " ++ cleaned_status)%string result,
          cleaned_row)
    else if (TARGET_SCHEMA_LENGTHS_status <? String.length cleaned_status)%nat
    then (add_warning "Status truncated to 30 characters" result,
          Row.set_status
            (Some (take TARGET_SCHEMA_LENGTHS_status cleaned_status)) cleaned_row)
    else (result, Row.set_status (Some cleaned_status) cleaned_row).

Definition parsed_cell (o : option Datetime.datetime) : DateCell :=
  match o with Some t => DParsed t | None => DNull end.

(** [result.errors.extend(created_at_result.errors)]: the errors are
    appended to the list; [is_valid] is not assigned. *)
Definition check_created_at (row : Row.t) (st : vstate) : vstate :=
  let '(result, cleaned_row) := st in
  let created_at_result :=
    _parse_and_validate_date (Row.created_at row) "created_at" in
  if negb (is_valid created_at_result)
  then (mkResult (is_valid result) (errors result ++ errors created_at_result)
                 (warnings result) (cleaned_value result),
        cleaned_row)
  else (result,
        Row.set_created_at (parsed_cell (cleaned_value created_at_result))
                           cleaned_row).

Definition check_paid_at (row : Row.t) (st : vstate) : vstate :=
  let '(result, cleaned_row) := st in
  if negb (blank (date_text (Row.paid_at row))) then
    let paid_at_result := _parse_and_validate_date (Row.paid_at row) "paid_at" in
    if negb (is_valid paid_at_result)
    then (mkResult (is_valid result) (errors result)
                   (warnings result
                    ++ map (fun error => ("paid_at: " ++ error)%string)
                           (errors paid_at_result))
                   (cleaned_value result),
          Row.set_paid_at DNull cleaned_row)
    else (result,
          Row.set_paid_at (parsed_cell (cleaned_value paid_at_result))
                          cleaned_row)
  else (result, Row.set_paid_at DNull cleaned_row).

(** [DataTransformer._validate_row_for_transformation(row, row_index)] *)
Definition _validate_row_for_transformation (row : Row.t) (row_index : nat)
  : ValidationResult Row.t :=
  let st0 : vstate := (Validation.new_result, row) in
  let '(result, cleaned_row) :=
    check_paid_at row
      (check_created_at row
         (check_status row
            (check_amount row
               (check_name row
                  (check_company_id row
                     (check_id row st0)))))) in
  if is_valid result then set_cleaned_value cleaned_row result else result.

(** The loop of [_validate_transformed_data]: the rows kept and the
    issues recorded. *)
Fixpoint validate_loop (rows : list (nat * Row.t))
  : list Row.t * list Issue.t :=
  match rows with
  | [] => ([], [])
  | (idx, row) :: rest =>
      let '(valid_rows, validation_issues) := validate_loop rest in
      let validation_result := _validate_row_for_transformation row idx in
      if is_valid validation_result then
        (default row (cleaned_value validation_result) :: valid_rows,
         validation_issues)
      else
        (valid_rows,
         Issue.validation_error idx (errors validation_result)
           (warnings validation_result) row :: validation_issues)
  end.

(** [DataTransformer._validate_transformed_data(df)] *)
Definition _validate_transformed_data (df : DataFrame)
  : outcome (DataFrame * list Issue.t) :=
  match rows df with
  | [] => Returned (empty_frame, [])
  | _ =>
      _ ← require df ["id"; "company_id"; "name"; "amount"; "status";
                      "created_at"; "paid_at"];
      let '(valid_rows, validation_issues) := validate_loop (rows df) in
      match valid_rows with
      | [] => Returned (empty_frame, validation_issues)
      | _ => Returned (mkFrame (columns df) (reindex valid_rows),
                       validation_issues)
      end
  end.

End WithParsers.

(** [df.drop_duplicates(subset=[key], keep='first')]: a row is dropped
    when an earlier row has the same key; null keys are equal. *)
Fixpoint drop_duplicates {A : Type} (key : A -> option string)
    (seen : list (option string)) (l : list A) : list A :=
  match l with
  | [] => []
  | x :: rest =>
      if bool_decide (key x ∈ seen) then drop_duplicates key seen rest
      else x :: drop_duplicates key (key x :: seen) rest
  end.

(** [DataTransformer._standardize_company_name] *)
Definition _standardize_company_name (company_name : option string)
  : option string :=
  if blank company_name then Some "Unknown Company"
  else Some (title (collapse_ws false (strip (default "" company_name)))).

(** One entry of [cleaned_df['amount'] < Decimal('0.01')]; a null entry
    compares false. *)
Definition is_small_amount (r : Row.t) : bool :=
  match Row.amount r with
  | Some (NaN _) | None => false
  | Some d => default false (lt d cent)
  end.

(** One entry of [cleaned_df['status'] == 'paid'] *)
Definition is_paid (r : Row.t) : bool :=
  bool_decide (Row.status r = Some "paid").

(** The comparison [a < b] of two cells that are not null: datetimes
    compare as datetimes, texts as texts, and a datetime does not compare
    with a text. *)
Definition cell_lt (a b : DateCell) : outcome bool :=
  match a, b with
  | DParsed x, DParsed y => Returned (Datetime.ltb x y)
  | DRaw x, DRaw y => Returned (String.ltb x y)
  | _, _ => Raised TypeError
  end.

Fixpoint compare_dates (l : list (nat * Row.t)) : outcome (list bool) :=
  match l with
  | [] => Returned []
  | (_, r) :: rest =>
      b ← cell_lt (Row.paid_at r) (Row.created_at r);
      bs ← compare_dates rest;
      mret (b :: bs)
  end.

Definition count_true (l : list bool) : nat :=
  length (List.filter (fun b => b) l).

(** [DataTransformer._validate_date_consistency(df)] *)
Definition _validate_date_consistency (df : DataFrame)
  : outcome (list Issue.t) :=
  _ ← require df ["status"];
  let paid_df := List.filter (fun ir => is_paid (snd ir)) (rows df) in
  match paid_df with
  | [] => Returned []
  | _ =>
      _ ← require df ["created_at"; "paid_at"];
      let both_dates :=
        List.filter
          (fun ir => negb (is_null (Row.created_at (snd ir)))
                     && negb (is_null (Row.paid_at (snd ir))))
          paid_df in
      match both_dates with
      | [] => Returned []
      | _ =>
          inconsistent ← compare_dates both_dates;
          if existsb (fun b => b) inconsistent
          then Returned [Issue.business_rule "date_consistency_error"
                           (count_true inconsistent)]
          else Returned []
      end
  end.

(** Business rule 4: [updated_at] of the paid rows, taken from the column
    [source]; the other rows keep what the column [updated_at] holds, or
    are null when the assignment creates the column. *)
Definition set_updated_at_for_paid (df : DataFrame)
    (source : Row.t -> DateCell) : DataFrame :=
  let had := has_column df "updated_at" in
  mkFrame
    (if had then columns df else columns df ++ ["updated_at"])
    (map (fun ir : nat * Row.t =>
            let r := snd ir in
            (fst ir,
             Row.set_updated_at
               (if is_paid r then source r
                else if had then Row.updated_at r else DNull)
               r))
         (rows df)).

(** [DataTransformer._apply_business_rules(df)] *)
Definition _apply_business_rules (df : DataFrame)
  : outcome (DataFrame * list Issue.t) :=
  (* Business Rule 1: Remove duplicate transactions *)
  _ ← check_subset df ["id"];
  let initial_count := length (rows df) in
  let rows1 := drop_duplicates (fun ir : nat * Row.t => Row.id (snd ir)) []
                               (rows df) in
  let duplicates_removed := initial_count - length rows1 in
  let issues1 :=
    if (0 <? duplicates_removed)%nat
    then [Issue.business_rule "duplicates_removed" duplicates_removed]
    else [] in
  (* Business Rule 2: Standardize company names *)
  _ ← require df ["name"];
  let rows2 :=
    map (fun ir : nat * Row.t =>
           (fst ir,
            Row.set_name (_standardize_company_name (Row.name (snd ir)))
                         (snd ir)))
        rows1 in
  (* Business Rule 3: Handle edge cases for amounts *)
  _ ← require df ["amount"];
  let count := length (List.filter (fun ir => is_small_amount (snd ir)) rows2) in
  let rows3 :=
    map (fun ir : nat * Row.t =>
           (fst ir,
            if is_small_amount (snd ir)
            then Row.set_amount (Some cent) (snd ir) else snd ir))
        rows2 in
  let issues3 :=
    if (0 <? count)%nat
    then [Issue.business_rule "small_amounts_adjusted" count] else [] in
  (* Business Rule 4: Set updated_at for paid transactions *)
  _ ← require df ["status"];
  let df3 := mkFrame (columns df) rows3 in
  df4 ←
    (if has_column df3 "paid_at"
     then Returned (set_updated_at_for_paid df3 Row.paid_at)
     else
       _ ← require df3 ["created_at"];
       Returned (set_updated_at_for_paid df3 Row.created_at));
  (* Business Rule 5: Validate date consistency *)
  date_issues ← _validate_date_consistency df4;
  Returned (df4, issues1 ++ issues3 ++ date_issues).

(** The rows on which the comparison of rule 5 is defined: a paid row
    does not hold a datetime in one of its two date cells and a text in
    the other. *)
Definition comparable_dates (r : Row.t) : bool :=
  match Row.paid_at r, Row.created_at r with
  | DParsed _, DRaw _ | DRaw _, DParsed _ => negb (is_paid r)
  | _, _ => true
  end.

(** The frame has every column of the staging table. *)
Definition has_raw_columns (df : DataFrame) : bool :=
  forallb (has_column df) raw_columns.

(** [DataTransformer._extract_companies(df)]; [now] is [datetime.now()].
    The rows of the result are the arguments of the [Company] objects
    [_load_companies] builds from them. *)
Definition _extract_companies (df : DataFrame) (now : Datetime.datetime)
  : outcome (list Company.t) :=
  _ ← require df ["company_id"; "name"];
  Returned
    (map (fun ir : nat * Row.t =>
            Company.mk (Row.company_id (snd ir)) (Row.name (snd ir)) now DNull)
         (drop_duplicates (fun ir : nat * Row.t => Row.company_id (snd ir)) []
                          (rows df))).

(** [DataTransformer._transform_charges(df)]. A null cell of [updated_at]
    is kept as [None]; the form pandas gives it in a column that also
    holds datetimes ([NaT]) is not told apart. *)
Definition _transform_charges (df : DataFrame) : outcome (list Charge.t) :=
  _ ← require df ["id"; "company_id"; "amount"; "status"; "created_at";
                  "updated_at"];
  Returned
    (map (fun ir : nat * Row.t =>
            let r := snd ir in
            Charge.mk (Row.id r) (Row.company_id r) (Row.amount r)
                      (Row.status r) (Row.created_at r)
                      (if negb (is_null (Row.updated_at r))
                       then Row.updated_at r else DNull))
         (rows df)).

Section WithEngine.

(** The checks of the database engine on the columns of one row (widths,
    types, numeric precision); keys and null constraints are handled by
    the flush functions. *)
Variable company_check : Company.t -> bool.
Variable charge_check : Charge.t -> bool.

(** [session.query(Company).filter(Company.company_id == k).first()] is
    not [None]. The session does not flush before a query, so it sees the
    table only. *)
Definition company_exists (db : Database) (k : option string) : bool :=
  match k with
  | Some k => bool_decide (is_Some (companies db !! k))
  | None => false
  end.

Definition charge_exists (db : Database) (k : option string) : bool :=
  match k with
  | Some k => bool_decide (is_Some (charges db !! k))
  | None => false
  end.

(** [session.flush()] of the companies added: each is inserted, unless
    its key is null or taken, its name is null, or the engine refuses it. *)
Fixpoint flush_companies (db : Database) (pending : list Company.t)
  : outcome Database :=
  match pending with
  | [] => Returned db
  | c :: rest =>
      match Company.company_id c with
      | Some k =>
          if negb (company_exists db (Some k))
             && bool_decide (is_Some (Company.company_name c))
             && company_check c
          then flush_companies
                 (mkDatabase (raw_transactions db) (<[k := c]> (companies db))
                             (charges db))
                 rest
          else Raised SQLAlchemyError
      | None => Raised SQLAlchemyError
      end
  end.

(** [session.flush()] of the charges added: each is inserted, unless its
    key is null or taken, its company is null or not in the companies
    table, a required column is null, or the engine refuses it. *)
Fixpoint flush_charges (db : Database) (pending : list Charge.t)
  : outcome Database :=
  match pending with
  | [] => Returned db
  | c :: rest =>
      match Charge.id c with
      | Some k =>
          if negb (charge_exists db (Some k))
             && company_exists db (Charge.company_id c)
             && bool_decide (is_Some (Charge.amount c))
             && bool_decide (is_Some (Charge.status c))
             && negb (is_null (Charge.created_at c))
             && charge_check c
          then flush_charges
                 (mkDatabase (raw_transactions db) (companies db)
                             (<[k := c]> (charges db)))
                 rest
          else Raised SQLAlchemyError
      | None => Raised SQLAlchemyError
      end
  end.

(** The loop of [_load_companies]: the objects added to the session and
    their count. *)
Fixpoint companies_loop (db : Database) (companies_df : list Company.t)
    (pending : list Company.t) (companies_created : nat)
  : list Company.t * nat :=
  match companies_df with
  | [] => (pending, companies_created)
  | row :: rest =>
      if company_exists db (Company.company_id row)
      then companies_loop db rest pending companies_created
      else companies_loop db rest (pending ++ [row]) (S companies_created)
  end.

(** [DataTransformer._load_companies(session, companies_df)] *)
Definition _load_companies (db : Database) (companies_df : list Company.t)
  : outcome (nat * Database) :=
  let '(pending, companies_created) := companies_loop db companies_df [] 0 in
  db' ← flush_companies db pending;
  Returned (companies_created, db').

Fixpoint charges_loop (db : Database) (charges_df : list Charge.t)
    (pending : list Charge.t) (charges_created : nat)
  : list Charge.t * nat :=
  match charges_df with
  | [] => (pending, charges_created)
  | row :: rest =>
      if charge_exists db (Charge.id row)
      then charges_loop db rest pending charges_created
      else charges_loop db rest (pending ++ [row]) (S charges_created)
  end.

(** [DataTransformer._load_charges(session, charges_df)] *)
Definition _load_charges (db : Database) (charges_df : list Charge.t)
  : outcome (nat * Database) :=
  let '(pending, charges_created) := charges_loop db charges_df [] 0 in
  db' ← flush_charges db pending;
  Returned (charges_created, db').

Variable strptime : string -> string -> option Datetime.datetime.
Variable to_datetime : string -> option Datetime.datetime.
Variable str_of_datetime : Datetime.datetime -> string.

(** [DataTransformer.transform_to_schema]: the report and the database
    the transaction commits. The whole body runs in
    [with self.db_connection.get_transaction() as session]; when it
    raises, the transaction is rolled back, the database is the one it
    started from, and the error that reaches the caller is the
    [DatabaseTransactionError] of [get_transaction], which the outer
    [except Exception] logs and raises again. *)
Definition transform_to_schema (db : Database)
    (validate_data apply_business_rules : bool) (now : Datetime.datetime)
  : outcome (TransformationReport * Database) :=
  Connection.get_transaction
    (let raw_data := raw_transactions db in
     let total_raw_rows := length raw_data in
     if (total_raw_rows =? 0)%nat
     then Returned (mkReport 0 0 0 0 0 [] [], db)
     else
       let df := _raw_data_to_dataframe raw_data in
       '(df1, validation_issues) ←
         (if validate_data
          then _validate_transformed_data strptime to_datetime
                 str_of_datetime df
          else Returned (df, []));
       '(df2, business_rule_issues) ←
         (if apply_business_rules then _apply_business_rules df1
          else Returned (df1, []));
       companies_df ← _extract_companies df2 now;
       '(companies_created, db1) ← _load_companies db companies_df;
       charges_df ← _transform_charges df2;
       '(charges_created, db2) ← _load_charges db1 charges_df;
       let transformed_rows := length charges_df in
       Returned
         (mkReport total_raw_rows transformed_rows
                   (total_raw_rows - transformed_rows)
                   companies_created charges_created []
                   (validation_issues ++ business_rule_issues),
          db2)).

End WithEngine.

End Transformer.

(** ** Instances and sample data

    The parsers and the engine checks are parameters of the embedding. The
    instances below are used to run it on concrete inputs: a [strptime]
    that knows the pattern [%Y-%m-%d] on zero-padded dates (on which it
    agrees with Python's), no fallback parser, and an engine that takes
    every row. *)

Module Examples.
Import Py PyDecimal.

Definition number (s : string) : option nat :=
  match s with
  | EmptyString => None
  | _ =>
      if all_digits s then Some (N.to_nat (int_of_digits s)) else None
  end.

Definition strptime_ymd (date_str pattern : string)
  : option Datetime.datetime :=
  if (pattern =? "%Y-%m-%d")%string then
    match date_str with
    | String y1 (String y2 (String y3 (String y4 (String "-"
        (String m1 (String m2 (String "-"
          (String d1 (String d2 EmptyString))))))))) =>
        match number (String y1 (String y2 (String y3 (String y4 EmptyString)))),
              number (String m1 (String m2 EmptyString)),
              number (String d1 (String d2 EmptyString)) with
        | Some y, Some m, Some d =>
            if (1 <=? m)%nat && (m <=? 12)%nat && (1 <=? d)%nat && (d <=? 28)%nat
            then Some (Datetime.mk y m d 0 0 0 0)
            else None
        | _, _, _ => None
        end
    | _ => None
    end
  else None.

Definition no_fallback (date_str : string) : option Datetime.datetime := None.

(** A stand-in for [pd.to_datetime] that reads the same dates. *)
Definition to_datetime_ymd (date_str : string) : option Datetime.datetime :=
  strptime_ymd date_str "%Y-%m-%d".

Definition two_digits (n : nat) : string :=
  if (n <? 10)%nat then ("0" ++ pretty n)%string else pretty n.

(** [str(t)] for a datetime without microseconds. *)
Definition str_of_datetime (t : Datetime.datetime) : string :=
  (pretty (Datetime.year t) ++ "-" ++ two_digits (Datetime.month t) ++ "-"
   ++ two_digits (Datetime.day t) ++ " " ++ two_digits (Datetime.hour t) ++ ":"
   ++ two_digits (Datetime.minute t) ++ ":"
   ++ two_digits (Datetime.second t))%string.

Definition any_raw (x : RawTransaction.t) : bool := true.
Definition any_company (c : Company.t) : bool := true.
Definition any_charge (c : Charge.t) : bool := true.

Definition date (y m d : nat) : Datetime.datetime := Datetime.mk y m d 0 0 0 0.

(** A CSV file of three rows, the last one without an id. *)
Definition csv_a : CsvRow.t :=
  CsvRow.mk (Some "a") (Some "Acme") (Some "c1") (Some "10.00") (Some "paid")
            (Some "2020-01-01") (Some "2020-01-01").
Definition csv_b : CsvRow.t :=
  CsvRow.mk (Some "b") (Some "Acme") (Some "c1") (Some "5.00") (Some "voided")
            (Some "2020-01-02") None.
Definition csv_no_id : CsvRow.t :=
  CsvRow.mk None (Some "Acme") (Some "c1") (Some "7.00") (Some "paid")
            (Some "2020-01-03") None.
Definition csv_three : Loader.DataFrame :=
  Loader.frame_of_rows [csv_a; csv_b; csv_no_id].

(** A row whose amount is not a number. *)
Definition csv_bad_amount : CsvRow.t :=
  CsvRow.mk (Some "d") (Some "Acme") (Some "c1") (Some "ten") (Some "paid")
            (Some "2020-01-04") None.

(** A row whose status is written in capitals. *)
Definition csv_upper : CsvRow.t :=
  CsvRow.mk (Some "a") (Some "Acme") (Some "c1") (Some "10.00") (Some "PAID")
            (Some "2020-01-01") None.

Definition empty_session : Loader.Session := Loader.mkSession [] [] [].

(** Rows of the transformer's frame. *)
Definition ten : Decimal := Finite false 1000 (-2).

Definition paid_row (id : string) (created paid : DateCell) : Row.t :=
  Row.mk (Some id) (Some "Acme") (Some "c1") (Some ten) (Some "paid")
         created paid DNull.

(** A paid row that was never given a payment date. *)
Definition paid_without_date : Row.t :=
  paid_row "a1" (DParsed (date 2020 1 1)) DNull.

(** A paid row whose payment date precedes its creation date. *)
Definition paid_too_early : Row.t :=
  paid_row "a1" (DParsed (date 2020 1 2)) (DParsed (date 2020 1 1)).

Definition paid_in_order : Row.t :=
  paid_row "a1" (DParsed (date 2020 1 2)) (DParsed (date 2020 1 3)).

Definition frame_of (l : list Row.t) : Transformer.DataFrame :=
  Transformer.mkFrame Transformer.raw_columns (Transformer.reindex l).

(** Staging rows. *)
Definition raw (id : string) (created paid : option string)
  : RawTransaction.t :=
  RawTransaction.mk (Some id) (Some "acme") (Some "c1") (Some ten)
                    (Some "paid") created paid.

Definition raw_bad_created : RawTransaction.t :=
  raw "a1" (Some "not-a-date") None.

Definition raw_bad_paid : RawTransaction.t :=
  raw "a1" (Some "2020-01-01") (Some "not-a-date").

Definition db_of (l : list RawTransaction.t) : Database :=
  mkDatabase l ∅ ∅.

(** Two staging rows whose ids differ by a trailing space only. *)
Definition db_same_clean_id : Database :=
  db_of [raw "a1" (Some "2020-01-02") (Some "2020-01-03");
         raw "a1 " (Some "2020-01-02") (Some "2020-01-01")].

Definition db_one_early : Database :=
  db_of [raw "a1" (Some "2020-01-02") (Some "2020-01-01")].

Definition transform (db : Database) :=
  Transformer.transform_to_schema any_company any_charge strptime_ymd
    no_fallback str_of_datetime db true true (date 2024 1 1).

End Examples.

(** ** [src/exceptions.py]: the errors of the number set *)

Module NumberSetError.

Inductive t :=
| NumberOutOfRangeError (number min_value max_value : Z)
| NumberAlreadyExtractedError (number : Z)
| NoNumbersExtractedError
| MultipleNumbersExtractedError (extracted_count : nat)
| ValueError.

(** The outcome of a call that can raise one of them. *)
Inductive outcome (A : Type) :=
| Returned (a : A)
| Raised (e : t).
Arguments Returned {A} a.
Arguments Raised {A} e.

#[global] Instance number_set_ret : MRet outcome := fun A a => Returned a.

#[global] Instance number_set_bind : MBind outcome := fun A B k m =>
  match m with
  | Returned a => k a
  | Raised e => Raised e
  end.

End NumberSetError.

(** ** [src/validation.py]: the other methods of [InputValidator]

    The value passed for a text field is [None] or a [str], the value
    passed for a date is [None], a [str] or a [datetime], and a number is an
    [int]: the branches for values of another type are left out. *)

Module InputValidator.
Import Py PyDecimal.
Import Validation (ValidationResult, mkResult, is_valid, errors, warnings,
                   cleaned_value, new_result, add_error, add_warning,
                   set_cleaned_value).

Definition MAX_LENGTHS : list (string * nat) :=
  [("id", 24); ("company_id", 24); ("company_name", 130); ("status", 30)]%nat.

Definition DATE_PATTERNS : list string :=
  ["%Y-%m-%d"; "%Y-%m-%d %H:%M:%S"; "%Y/%m/%d"; "%Y/%m/%d %H:%M:%S";
   "%d-%m-%Y"; "%d/%m/%Y"; "%m/%d/%Y"; "%Y-%m-%dT%H:%M:%S";
   "%Y-%m-%dT%H:%M:%SZ"].

(** [MAX_LENGTHS.get(key, default)] *)
Definition max_length_get (key : string) (default : nat) : nat :=
  match List.find (fun kv : string * nat => (fst kv =? key)%string) MAX_LENGTHS with
  | Some kv => snd kv
  | None => default
  end.

(** [InputValidator.validate_number_range(number, min_value, max_value)] *)
Definition validate_number_range (number min_value max_value : Z)
  : NumberSetError.outcome (ValidationResult Z) :=
  if (number <? min_value)%Z || (max_value <? number)%Z
  then NumberSetError.Raised
         (NumberSetError.NumberOutOfRangeError number min_value max_value)
  else NumberSetError.Returned (set_cleaned_value number new_result).

(** [InputValidator.validate_string_field(value, field_name, required,
    max_length, min_length)]. [set_cleaned_value(None)] leaves the cleaned
    value as it is in a new result; a [max_length] of zero is false and
    sets no limit. *)
Definition validate_string_field (value : option string) (field_name : string)
    (required : bool) (max_length : option nat) (min_length : nat)
  : ValidationResult string :=
  let result := new_result in
  if match value with Some s => negb (truthy (strip s)) | None => true end
  then
    if required
    then add_error (field_name ++ " is required")%string result
    else result
  else
    let cleaned_value := strip (default "" value) in
    if (String.length cleaned_value <? min_length)%nat
    then add_error
           (field_name ++ " must be at least " ++ pretty min_length
            ++ " characters long")%string
           result
    else
      match max_length with
      | Some m =>
          if (0 <? m)%nat && (m <? String.length cleaned_value)%nat
          then set_cleaned_value (take m cleaned_value)
                 (add_warning
                    (field_name ++ " exceeds maximum length of " ++ pretty m
                     ++ ", will be truncated")%string
                    result)
          else set_cleaned_value cleaned_value result
      | None => set_cleaned_value cleaned_value result
      end.

(** [InputValidator.validate_id_field(value, field_name)] *)
Definition validate_id_field (value : option string) (field_name : string)
  : ValidationResult string :=
  let max_length := max_length_get (lower field_name) 24 in
  validate_string_field value field_name true (Some max_length) 1.

(** The error of [validate_date_consistency]: its message and the two
    dates it is given. *)
Record DateConsistencyError := mkDateConsistencyError {
  message : string;
  error_created_at : Datetime.datetime;
  error_updated_at : Datetime.datetime
}.

(** [InputValidator.validate_date_consistency(created_at, updated_at,
    paid_at)]: the left injection is the error raised. A [datetime] is
    always true. *)
Definition validate_date_consistency (created_at : Datetime.datetime)
    (updated_at paid_at : option Datetime.datetime)
  : DateConsistencyError + ValidationResult unit :=
  match updated_at with
  | Some u =>
      if Datetime.ltb u created_at
      then inl (mkDateConsistencyError
                  "Updated date cannot be before created date" created_at u)
      else
        match paid_at with
        | Some p =>
            if Datetime.ltb p created_at
            then inl (mkDateConsistencyError
                        "Payment date cannot be before created date"
                        created_at p)
            else inr new_result
        | None => inr new_result
        end
  | None =>
      match paid_at with
      | Some p =>
          if Datetime.ltb p created_at
          then inl (mkDateConsistencyError
                      "Payment date cannot be before created date"
                      created_at p)
          else inr new_result
      | None => inr new_result
      end
  end.

(** The record [validate_transaction_record] is given: [record.get(key)]
    for each key it reads. *)
Module TransactionRecord.
Record t := mk {
  id : option string;
  company_id : option string;
  name : option string;
  amount : option string;
  status : option string;
  created_at : DateCell;
  updated_at : DateCell
}.
End TransactionRecord.

(** The dictionary [cleaned_record]: a key that was not assigned is [None];
    the value of a key is the cleaned value of a result, which can be
    [None] itself. *)
Module CleanedRecord.
Record t := mk {
  id : option (option string);
  company_id : option (option string);
  company_name : option string;
  amount : option (option Decimal);
  status : option (option string);
  created_at : option (option Datetime.datetime);
  updated_at : option (option Datetime.datetime)
}.

Definition empty : t := mk None None None None None None None.

Definition set_id (v : option string) (r : t) : t :=
  mk (Some v) (company_id r) (company_name r) (amount r) (status r)
     (created_at r) (updated_at r).
Definition set_company_id (v : option string) (r : t) : t :=
  mk (id r) (Some v) (company_name r) (amount r) (status r)
     (created_at r) (updated_at r).
Definition set_company_name (v : string) (r : t) : t :=
  mk (id r) (company_id r) (Some v) (amount r) (status r)
     (created_at r) (updated_at r).
Definition set_amount (v : option Decimal) (r : t) : t :=
  mk (id r) (company_id r) (company_name r) (Some v) (status r)
     (created_at r) (updated_at r).
Definition set_status (v : option string) (r : t) : t :=
  mk (id r) (company_id r) (company_name r) (amount r) (Some v)
     (created_at r) (updated_at r).
Definition set_created_at (v : option Datetime.datetime) (r : t) : t :=
  mk (id r) (company_id r) (company_name r) (amount r) (status r)
     (Some v) (updated_at r).
Definition set_updated_at (v : option Datetime.datetime) (r : t) : t :=
  mk (id r) (company_id r) (company_name r) (amount r) (status r)
     (created_at r) (Some v).
End CleanedRecord.

(** [result.errors.extend(l)] and [result.warnings.extend(l)]: the lists
    grow; [is_valid] is not assigned. *)
Definition extend_errors {A : Type} (l : list string) (r : ValidationResult A)
  : ValidationResult A :=
  mkResult (is_valid r) (errors r ++ l) (warnings r) (cleaned_value r).

Definition extend_warnings {A : Type} (l : list string) (r : ValidationResult A)
  : ValidationResult A :=
  mkResult (is_valid r) (errors r) (warnings r ++ l) (cleaned_value r).

Section WithParsers.

(** [datetime.strptime(date_str, pattern)]; [None] when it raises
    [ValueError]. *)
Variable strptime : string -> string -> option Datetime.datetime.

(** [pd.to_datetime(date_str, errors='raise').to_pydatetime()]; [None]
    when it raises [ValueError]. *)
Variable to_datetime : string -> option Datetime.datetime.

(** [str(e)] for the [InvalidOperation] that the amount [str(amount)]
    makes the decimal module raise. *)
Variable invalid_operation_text : string -> string.

(** [', '.join(list(VALID_STATUSES))]: the order in which a set of strings
    is listed changes from one run to the next. *)
Variable valid_statuses_text : string.

Fixpoint try_patterns (date_str : string) (patterns : list string)
  : option Datetime.datetime :=
  match patterns with
  | [] => None
  | pattern :: rest =>
      match strptime date_str pattern with
      | Some parsed_date => Some parsed_date
      | None => try_patterns date_str rest
      end
  end.

(** [InputValidator.validate_date(date_value, field_name, required)] *)
Definition validate_date (date_value : DateCell) (field_name : string)
    (required : bool) : ValidationResult Datetime.datetime :=
  let result := new_result in
  let missing :=
    if required then add_error (field_name ++ " is required")%string result
    else result in
  match date_value with
  | DNull => missing
  | DParsed t => set_cleaned_value t result
  | DRaw s =>
      if negb (truthy (strip s)) then missing
      else
        let date_str := strip s in
        match try_patterns date_str DATE_PATTERNS with
        | Some parsed_date => set_cleaned_value parsed_date result
        | None =>
            match to_datetime date_str with
            | Some parsed_date =>
                add_warning (field_name ++ " parsed with fallback method")%string
                  (set_cleaned_value parsed_date result)
            | None =>
                add_error
                  ("Unable to parse " ++ field_name ++ ": " ++ date_str)%string
                  result
            end
        end
  end.

(** [e.message] of an [InvalidAmountError] raised for [amount]. *)
Definition amount_message (reason : amount_reason) (amount : string) : string :=
  ((match reason with
    | CannotBeNegative => "Amount cannot be negative"
    | CannotBeZero => "Amount cannot be zero"
    | InvalidAmountFormat =>
        "Invalid amount format: " ++ invalid_operation_text amount
    end) ++ ": " ++ amount)%string.

(** [e.message] of an [InvalidStatusError] raised for [status]. *)
Definition status_message (status : string) : string :=
  ("Invalid status: " ++ status ++ ". Valid statuses: "
   ++ valid_statuses_text)%string.

(** The state of [validate_transaction_record]: [result] and
    [cleaned_record]. *)
Definition rstate : Type := ValidationResult CleanedRecord.t * CleanedRecord.t.

Definition record_id (record : TransactionRecord.t) (st : rstate) : rstate :=
  let '(result, cleaned_record) := st in
  let id_result := validate_id_field (TransactionRecord.id record) "ID" in
  if negb (is_valid id_result)
  then (extend_errors (errors id_result) result, cleaned_record)
  else (result, CleanedRecord.set_id (cleaned_value id_result) cleaned_record).

Definition record_company_id (record : TransactionRecord.t) (st : rstate)
  : rstate :=
  let '(result, cleaned_record) := st in
  let company_id_result :=
    validate_id_field (TransactionRecord.company_id record) "Company ID" in
  if negb (is_valid company_id_result)
  then (extend_errors (errors company_id_result) result, cleaned_record)
  else (result,
        CleanedRecord.set_company_id (cleaned_value company_id_result)
                                     cleaned_record).

Definition record_name (record : TransactionRecord.t) (st : rstate) : rstate :=
  let '(result, cleaned_record) := st in
  let name_result :=
    validate_string_field (TransactionRecord.name record) "Company Name" false
      (Some (max_length_get "company_name" 0)) 0 in
  let result := extend_warnings (warnings name_result) result in
  if is_valid name_result
  then (result,
        CleanedRecord.set_company_name
          (match cleaned_value name_result with
           | Some n => if truthy n then n else "Unknown Company"
           | None => "Unknown Company"
           end)
          cleaned_record)
  else (result, cleaned_record).

(** Only [InvalidAmountError] is caught. *)
Definition record_amount (record : TransactionRecord.t) (st : rstate)
  : outcome rstate :=
  let '(result, cleaned_record) := st in
  match Validation.validate_amount (TransactionRecord.amount record) false with
  | Returned amount_result =>
      if is_valid amount_result
      then Returned (extend_warnings (warnings amount_result) result,
                     CleanedRecord.set_amount (cleaned_value amount_result)
                                              cleaned_record)
      else Returned (result, cleaned_record)
  | Raised (InvalidAmountError reason) =>
      Returned (add_error
                  (amount_message reason
                     (default "" (TransactionRecord.amount record)))
                  result,
                cleaned_record)
  | Raised e => Raised e
  end.

(** Only [InvalidStatusError] is caught. *)
Definition record_status (record : TransactionRecord.t) (st : rstate)
  : outcome rstate :=
  let '(result, cleaned_record) := st in
  match Validation.validate_status (TransactionRecord.status record) with
  | Returned status_result =>
      if is_valid status_result
      then Returned (result,
                     CleanedRecord.set_status (cleaned_value status_result)
                                              cleaned_record)
      else Returned (result, cleaned_record)
  | Raised (InvalidStatusError status) =>
      Returned (add_error (status_message status) result, cleaned_record)
  | Raised e => Raised e
  end.

Definition record_created_at (record : TransactionRecord.t) (st : rstate)
  : rstate :=
  let '(result, cleaned_record) := st in
  let created_at_result :=
    validate_date (TransactionRecord.created_at record) "Created At" true in
  if is_valid created_at_result
  then (extend_warnings (warnings created_at_result) result,
        CleanedRecord.set_created_at (cleaned_value created_at_result)
                                     cleaned_record)
  else (extend_errors (errors created_at_result) result, cleaned_record).

Definition record_updated_at (record : TransactionRecord.t) (st : rstate)
  : rstate :=
  let '(result, cleaned_record) := st in
  let updated_at_result :=
    validate_date (TransactionRecord.updated_at record) "Updated At" false in
  if is_valid updated_at_result
  then (extend_warnings (warnings updated_at_result) result,
        CleanedRecord.set_updated_at (cleaned_value updated_at_result)
                                     cleaned_record)
  else (extend_errors (errors updated_at_result) result, cleaned_record).

(** The consistency check, made when both keys are in [cleaned_record].
    Comparing a [datetime] with [None] is a [TypeError]. *)
Definition record_date_consistency (st : rstate) : outcome rstate :=
  let '(result, cleaned_record) := st in
  match CleanedRecord.created_at cleaned_record,
        CleanedRecord.updated_at cleaned_record with
  | Some created_at, Some updated_at =>
      match created_at, updated_at with
      | Some c, _ =>
          match validate_date_consistency c updated_at None with
          | inl e => Returned (add_error (message e) result, cleaned_record)
          | inr _ => Returned (result, cleaned_record)
          end
      | None, Some _ => Raised TypeError
      | None, None => Returned (result, cleaned_record)
      end
  | _, _ => Returned (result, cleaned_record)
  end.

(** [InputValidator.validate_transaction_record(record)] *)
Definition validate_transaction_record (record : TransactionRecord.t)
  : outcome (ValidationResult CleanedRecord.t) :=
  let st0 : rstate := (new_result, CleanedRecord.empty) in
  st1 ← record_amount record
          (record_name record (record_company_id record (record_id record st0)));
  st2 ← record_status record st1;
  '(result, cleaned_record) ←
    record_date_consistency
      (record_updated_at record (record_created_at record st2));
  match errors result with
  | [] => Returned (set_cleaned_value cleaned_record result)
  | _ => Returned (mkResult false (errors result) (warnings result)
                            (cleaned_value result))
  end.

End WithParsers.

End InputValidator.

(** ** [src/api/number_set.py] *)

Module NumberSet.
Import NumberSetError.

(** The attributes of a [NumberSet]. *)
Record t := mk {
  max_number : Z;
  numbers : gset Z;
  extracted_numbers : gset Z
}.

(** [set(range(1, max_number + 1))] *)
Definition initial_numbers (max_number : Z) : gset Z :=
  list_to_set (seqZ 1 max_number).

(** [NumberSet(max_number)] *)
Definition __init__ (max_number : Z) : outcome t :=
  if (max_number <=? 0)%Z then Raised ValueError
  else Returned (mk max_number (initial_numbers max_number) ∅).

(** [self.extract(number)]: the value returned and the object after the
    call. A call that raises leaves the object as it was. *)
Definition extract (self : t) (number : Z) : outcome (bool * t) :=
  _ ← InputValidator.validate_number_range number 1 (max_number self);
  if bool_decide (number ∉ numbers self)
  then Raised (NumberAlreadyExtractedError number)
  else Returned (true,
                 mk (max_number self) (numbers self ∖ {[number]})
                    ({[number]} ∪ extracted_numbers self)).

(** [sum(s)] *)
Definition sum (s : gset Z) : Z := set_fold Z.add 0%Z s.

(** [self.find_missing_number()] *)
Definition find_missing_number (self : t) : outcome Z :=
  if (size (extracted_numbers self) =? 0)%nat
  then Raised NoNumbersExtractedError
  else if (1 <? size (extracted_numbers self))%nat
  then Raised (MultipleNumbersExtractedError (size (extracted_numbers self)))
  else
    let expected_sum := (max_number self * (max_number self + 1) / 2)%Z in
    let actual_sum := sum (numbers self) in
    let missing_number := (expected_sum - actual_sum)%Z in
    Returned missing_number.

(** [self.reset()] *)
Definition reset (self : t) : t :=
  mk (max_number self) (initial_numbers (max_number self)) ∅.

(** [self.is_complete()] *)
Definition is_complete (self : t) : bool :=
  (size (extracted_numbers self) =? 0)%nat.

(** [self.count_remaining()] *)
Definition count_remaining (self : t) : nat := size (numbers self).

(** [self.count_extracted()] *)
Definition count_extracted (self : t) : nat := size (extracted_numbers self).

(** The object is well formed: every number from 1 to [max_number] is
    either still in the set or extracted, and never both. *)
Definition well_formed (self : t) : Prop :=
  (0 < max_number self)%Z
  /\ numbers self ## extracted_numbers self
  /\ numbers self ∪ extracted_numbers self = initial_numbers (max_number self).

(** A call made on the object by a client. *)
Inductive call :=
| Extract (number : Z)
| Reset.

(** The object after a call; a call of [extract] that raises is caught by
    the client and the object is used further. *)
Definition after (self : t) (c : call) : t :=
  match c with
  | Extract number =>
      match extract self number with
      | Returned (_, self') => self'
      | Raised _ => self
      end
  | Reset => reset self
  end.

End NumberSet.

(** Sample data for the other validators. *)

Module MoreExamples.
Import Py PyDecimal Examples.



(** A record without amount and without status. *)
Definition record_without_amount : InputValidator.TransactionRecord.t :=
  InputValidator.TransactionRecord.mk
    (Some "a1") (Some "c1") None None None (DParsed (date 2020 1 1)) DNull.

(** A frame with a small amount and with an id that comes twice. *)
Definition small_amount_row : Row.t :=
  Row.mk (Some "a1") (Some "acme  corp") (Some "c1")
         (Some (Finite false 1 (-3))) (Some "pending_payment")
         (DParsed (date 2020 1 1)) DNull DNull.

Definition frame_with_duplicate : Transformer.DataFrame :=
  frame_of [small_amount_row;
            paid_row "a1" (DParsed (date 2020 1 2)) (DParsed (date 2020 1 3));
            paid_row "b2" (DParsed (date 2020 1 2)) (DParsed (date 2020 1 3))].

End MoreExamples.

(** ** [src/api/main.py]: the endpoints of the Missing Number API

    The application holds one [NumberSet(max_number=100)]. A request is
    answered by its endpoint function, or by the exception handler
    registered for the class of the error the endpoint raises. The
    number in the path is an [int]: FastAPI answers a path that does not
    parse before the endpoint is called. Of a response the status code
    and the fields that are not texts formatted from the others are
    kept; the execution time measured by [/missing] is left out. *)

Module Api.
Import NumberSetError.
Import Validation (is_valid, cleaned_value).

(** What an endpoint can raise: an error of the number set, or the
    [TypeError] of [NumberSet.extract]. *)
Inductive error :=
| OfNumberSet (exc : NumberSetError.t)
| TypeError.

(** [APIInputValidator.validate_extract_number_input(number)] *)
Definition validate_extract_number_input (number : Z)
  : outcome (option Z) :=
  result ← InputValidator.validate_number_range number 1 100;
  if negb (is_valid result)
  then Raised (NumberOutOfRangeError number 1 100)
  else Returned (cleaned_value result).

(** [number_set.extract(validated_number)]: a value that is not an
    [int] raises [TypeError]. *)
Definition extract (number_set : NumberSet.t) (number : option Z)
  : error + bool * NumberSet.t :=
  match number with
  | None => inl TypeError
  | Some n =>
      match NumberSet.extract number_set n with
      | Returned r => inr r
      | Raised exc => inl (OfNumberSet exc)
      end
  end.

(** [NumberSet.get_extracted_numbers()]: [sorted(list(...))] *)
Definition get_extracted_numbers (number_set : NumberSet.t) : list Z :=
  merge_sort Z.le (elements (NumberSet.extracted_numbers number_set)).

Inductive response :=
| ExtractResponse (success : bool) (extracted_number : option Z)
                  (remaining_count : nat)
| MissingNumberResponse (missing_number : Z) (calculation_method : string)
                        (extracted_numbers : list Z)
| ResetResponse (success : bool) (total_numbers : nat)
| StatusResponse (total_numbers : Z) (remaining_count extracted_count : nat)
                 (extracted_numbers : list Z) (is_complete : bool)
| JSONResponse (status_code : nat) (error : string).

(** The status code of a response; a response model is sent with 200. *)
Definition status_code (r : response) : nat :=
  match r with
  | JSONResponse status_code _ => status_code
  | _ => 200
  end.

(** The [error_code] of a [TechnicalTestError], as its constructor sets
    it; [ValueError] is not one. *)
Definition error_code (exc : NumberSetError.t) : option string :=
  match exc with
  | NumberOutOfRangeError _ _ _ => Some "NUMBER_OUT_OF_RANGE"
  | NumberAlreadyExtractedError _ => Some "NUMBER_ALREADY_EXTRACTED"
  | NoNumbersExtractedError => Some "NO_NUMBERS_EXTRACTED"
  | MultipleNumbersExtractedError _ => Some "MULTIPLE_NUMBERS_EXTRACTED"
  | ValueError => None
  end.

(** [technical_test_error_handler(request, exc)]; [error_code] is
    [exc.error_code]. *)
Definition technical_test_error_handler (exc : NumberSetError.t)
    (error_code : string) : response :=
  let status_code :=
    match exc with
    | NumberAlreadyExtractedError _ => 409
    | NoNumbersExtractedError | MultipleNumbersExtractedError _ => 422
    | _ => 400
    end in
  JSONResponse status_code error_code.

(** [value_error_handler(request, exc)] *)
Definition value_error_handler : response :=
  JSONResponse 400 "VALIDATION_ERROR".

(** [type_error_handler(request, exc)] *)
Definition type_error_handler : response := JSONResponse 400 "TYPE_ERROR".

(** The handler registered for the class of the error. *)
Definition handle (e : error) : response :=
  match e with
  | OfNumberSet exc =>
      match error_code exc with
      | Some code => technical_test_error_handler exc code
      | None => value_error_handler
      end
  | TypeError => type_error_handler
  end.

(** [NumberSet(max_number=100)], the set of the application. *)
Definition number_set : NumberSet.t :=
  NumberSet.mk 100 (NumberSet.initial_numbers 100) ∅.

(** [POST /extract/{number}]: the response and the set after the request. *)
Definition extract_number (number_set : NumberSet.t) (number : Z)
  : response * NumberSet.t :=
  match validate_extract_number_input number with
  | Raised exc => (handle (OfNumberSet exc), number_set)
  | Returned validated_number =>
      match extract number_set validated_number with
      | inl e => (handle e, number_set)
      | inr (_, number_set') =>
          (ExtractResponse true validated_number
                           (NumberSet.count_remaining number_set'),
           number_set')
      end
  end.

(** [GET /missing] *)
Definition get_missing_number (number_set : NumberSet.t) : response :=
  match NumberSet.find_missing_number number_set with
  | Returned missing_number =>
      MissingNumberResponse missing_number "mathematical_sum"
                            (get_extracted_numbers number_set)
  | Raised exc => handle (OfNumberSet exc)
  end.

(** [POST /reset] *)
Definition reset_set (number_set : NumberSet.t) : response * NumberSet.t :=
  let number_set' := NumberSet.reset number_set in
  (ResetResponse true (NumberSet.count_remaining number_set'), number_set').

(** [GET /status] *)
Definition get_status (number_set : NumberSet.t) : response :=
  StatusResponse (NumberSet.max_number number_set)
                 (NumberSet.count_remaining number_set)
                 (NumberSet.count_extracted number_set)
                 (get_extracted_numbers number_set)
                 (NumberSet.is_complete number_set).

Inductive request :=
| PostExtract (number : Z)
| GetMissing
| PostReset
| GetStatus.

(** The response to a request and the set after it. *)
Definition serve (number_set : NumberSet.t) (req : request)
  : response * NumberSet.t :=
  match req with
  | PostExtract number => extract_number number_set number
  | GetMissing => (get_missing_number number_set, number_set)
  | PostReset => reset_set number_set
  | GetStatus => (get_status number_set, number_set)
  end.

(** The set of the application after a sequence of requests. *)
Definition served (requests : list request) : NumberSet.t :=
  foldl (fun s req => snd (serve s req)) number_set requests.

End Api.

(** * Properties *)

(** ** The reporting manager *)

Section ManagerProperties.
Import Manager.

Lemma integrity_score_le (o c : nat) : (integrity_score o c <= 100)%Z.
Proof. unfold integrity_score. lia. Qed.

Lemma integrity_score_clean : integrity_score 0 0 = 100%Z.
Proof. reflexivity. Qed.

(** C3. The integrity score of the distribution statistics is 100 minus 10
    per orphaned charge and 5 per company without charges: it is exactly
    100 when both counts are zero and strictly below 100 as soon as one of
    them is positive. This holds for the counts of every database. *)
Theorem integrity_score_full_iff_clean :
  (forall o c : nat,
     (o = 0 /\ c = 0 -> integrity_score o c = 100%Z)
     /\ (0 < o \/ 0 < c -> (integrity_score o c < 100)%Z))
  /\ (forall db : Database,
        let di := get_data_integrity db in
        di_integrity_score di
        = integrity_score (di_orphaned_charges di)
                          (di_companies_without_charges di)
        /\ di_orphaned_charges di = orphaned_charges db
        /\ di_companies_without_charges di = companies_without_charges db).
Proof.
  split.
  - intros o c. unfold integrity_score. split.
    + intros [-> ->]. reflexivity.
    + intros [H | H]; lia.
  - intros db. cbn. repeat split.
Qed.

End ManagerProperties.

(** ** The reports *)

Section ReportProperties.

(** C9. The two reports disagree on the empty input: a validation report
    over zero rows has success rate 0, a transformation report over zero
    raw rows has success rate 100. *)
Theorem empty_reports_opposite_rates :
  (forall valid invalid errs warns dups,
     Loader.success_rate
       (Loader.mkValidationReport 0 valid invalid errs warns dups)
     = QArith_base.Qmake 0 1)
  /\ (forall transformed skipped companies charges errs issues,
        Transformer.transformation_success_rate
          (Transformer.mkReport 0 transformed skipped companies charges errs
                                issues)
        = QArith_base.Qmake 100 1)
  /\ ~ QArith_base.Qeq (QArith_base.Qmake 0 1) (QArith_base.Qmake 100 1).
Proof.
  split; [|split].
  - reflexivity.
  - reflexivity.
  - unfold QArith_base.Qeq. cbn. lia.
Qed.

End ReportProperties.

(** ** The validator *)

Section ValidatorProperties.
Import Py PyDecimal Validation.

Lemma pow10_pos (n : N) : (0 < 10 ^ n)%N.
Proof. apply N.neq_0_lt_0, N.pow_nonzero. discriminate. Qed.

(** Dropping digits rounds to a nearest multiple, and to the even one on
    a tie. *)
Lemma rescale_nearest (c : N) (e q : Z) :
  (e < q)%Z ->
  let p := (10 ^ Z.to_N (q - e))%N in
  let c' := rescale c e q in
  (2 * c <= 2 * (c' * p) + p)%N
  /\ (2 * (c' * p) <= 2 * c + p)%N
  /\ ((2 * c = 2 * (c' * p) + p)%N \/ (2 * (c' * p) = 2 * c + p)%N
      -> N.even c' = true).
Proof.
  intros Hlt p c'. subst c'. unfold rescale.
  destruct (Z.leb_spec q e) as [Hle | _]; [lia |].
  fold p.
  assert (Hp : (0 < p)%N) by apply pow10_pos.
  pose proof (N.div_mod c p ltac:(lia)) as Hdm.
  pose proof (N.mod_lt c p ltac:(lia)) as Hm.
  set (quo := (c / p)%N) in *. set (rem := (c mod p)%N) in *.
  assert (Hq : (quo * p = p * quo)%N) by apply N.mul_comm.
  destruct (N.ltb_spec p (2 * rem)) as [H1 | H1].
  - rewrite N.mul_add_distr_r, Hq. repeat split; try lia.
  - destruct (N.eqb_spec (2 * rem) p) as [H2 | H2]; cbn [andb].
    + destruct (N.odd quo) eqn:Hodd.
      * rewrite N.mul_add_distr_r, Hq. repeat split; try lia.
        intros _. rewrite N.even_add, <- N.negb_odd, Hodd. reflexivity.
      * rewrite Hq. repeat split; try lia.
        intros _. rewrite <- N.negb_odd, Hodd. reflexivity.
    + rewrite Hq. repeat split; try lia.
Qed.

Lemma rescale_ge_quotient (c : N) (e q : Z) :
  (e < q)%Z -> (c / 10 ^ Z.to_N (q - e) <= rescale c e q)%N.
Proof.
  intros Hlt. unfold rescale.
  destruct (Z.leb_spec q e); [lia |].
  repeat case_match; lia.
Qed.

Lemma lt_zero_nonneg (c : N) (e : Z) : lt (Finite false c e) zero = Some false.
Proof.
  unfold lt, zero, scaled. f_equal. apply Z.ltb_ge.
  rewrite Z.mul_0_l. apply Z.mul_nonneg_nonneg; [lia |].
  apply Z.pow_nonneg. lia.
Qed.

Lemma quantize_fits (c : N) (e : Z) :
  c <> 0%N -> (e < -2)%Z -> (rescale c e (-2) < 10 ^ 28)%N ->
  quantize (Finite false c e) (-2)
  = Some (Finite false (rescale c e (-2)) (-2)).
Proof.
  intros Hc He Hfit. unfold quantize.
  destruct (N.eqb_spec c 0); [done |].
  assert (Hfirst : more_digits_than c (prec + -2 - e) = false).
  { unfold more_digits_than, prec.
    destruct (Z.ltb_spec (28 + -2 - e) 0); [lia |].
    apply N.leb_gt.
    replace (Z.to_N (28 + -2 - e)) with (28 + Z.to_N (-2 - e))%N by lia.
    rewrite N.pow_add_r.
    set (p := (10 ^ Z.to_N (-2 - e))%N).
    assert (Hp : (0 < p)%N) by apply pow10_pos.
    pose proof (rescale_ge_quotient c e (-2) ltac:(lia)) as Hq. fold p in Hq.
    pose proof (N.div_mod c p ltac:(lia)) as Hdm.
    pose proof (N.mod_lt c p ltac:(lia)) as Hm.
    assert (c < (c / p + 1) * p)%N by lia.
    assert ((c / p + 1) * p <= 10 ^ 28 * p)%N
      by (apply N.mul_le_mono_r; lia).
    lia. }
  rewrite Hfirst.
  unfold more_digits_than, prec. cbn [Z.ltb Z.compare].
  destruct (N.leb_spec (10 ^ Z.to_N 28) (rescale c e (-2))) as [H | H].
  - change (Z.to_N 28) with 28%N in H. lia.
  - reflexivity.
Qed.

(** C4, as amended. An amount whose text parses to a positive decimal with
    more than two fractional digits, and whose value rounded to two
    fractional digits has at most 28 digits, is accepted with the
    rounding warning; the cleaned value is the amount rounded to two
    fractional digits, to the nearest cent and to the even one on a tie. *)
Theorem validate_amount_rounds_to_cents
    (s : string) (allow_zero : bool) (c : N) (e : Z) :
  of_string s = Some (Finite false c e) ->
  c <> 0%N ->
  (e < -2)%Z ->
  (rescale c e (-2) < 10 ^ 28)%N ->
  let p := (10 ^ Z.to_N (-2 - e))%N in
  let c' := rescale c e (-2) in
  validate_amount (Some s) allow_zero
  = Returned (mkResult true [] [rounded_warning] (Some (Finite false c' (-2))))
  /\ (2 * c <= 2 * (c' * p) + p)%N
  /\ (2 * (c' * p) <= 2 * c + p)%N
  /\ ((2 * c = 2 * (c' * p) + p)%N \/ (2 * (c' * p) = 2 * c + p)%N
      -> N.even c' = true).
Proof.
  intros Hparse Hc He Hfit p c'. split.
  - unfold validate_amount. rewrite Hparse, lt_zero_nonneg.
    replace (is_zero (Finite false c e)) with false
      by (symmetry; cbn; apply N.eqb_neq; done).
    rewrite andb_false_r.
    destruct (Z.ltb_spec e (-2)); [| lia].
    rewrite quantize_fits by done. reflexivity.
  - apply (rescale_nearest c e (-2)). lia.
Qed.

(** ["123.456789"] is accepted as 123.46. *)
Lemma validate_amount_rounds_to_cents_witness :
  validate_amount (Some "123.456789") false
  = Returned (mkResult true [] [rounded_warning]
                       (Some (Finite false 12346 (-2)))).
Proof.
  apply (validate_amount_rounds_to_cents "123.456789" false 123456789 (-6));
    [reflexivity | discriminate | reflexivity | reflexivity].
Defined.

(** The cleaned value of ["0.001"] is 0.00, which is below 0.01; a zero
    with three fractional digits is refused; and so is an amount whose
    rounding needs more than 28 digits. *)
Lemma validate_amount_0_001_is_zero :
  validate_amount (Some "0.001") false
  = Returned (mkResult true [] [rounded_warning] (Some (Finite false 0 (-2))))
  /\ lt (Finite false 0 (-2)) cent = Some true
  /\ validate_amount (Some "0.000") false
     = Raised (InvalidAmountError CannotBeZero)
  /\ validate_amount (Some "123456789012345678901234567.891") false
     = Raised (InvalidAmountError InvalidAmountFormat).
Proof. repeat split; vm_compute; reflexivity. Qed.

(** C6, as amended. [validate_amount] raises [InvalidAmountError] for a
    text that does not parse and for a negative amount: the error leaves
    the function as an exception. Only a missing amount is answered with
    a result marked invalid that carries the error. *)
Theorem validate_amount_raises (s : string) (allow_zero : bool) :
  of_string s = None
  \/ (exists d, of_string s = Some d /\ lt d zero = Some true) ->
  (exists reason,
     validate_amount (Some s) allow_zero = Raised (InvalidAmountError reason))
  /\ validate_amount None allow_zero
     = Returned (mkResult false ["Amount is required"] [] None).
Proof.
  intros H. split; [| reflexivity].
  unfold validate_amount.
  destruct H as [-> | (d & -> & ->)]; eauto.
Qed.

(** ["-1"] raises. *)
Lemma validate_amount_raises_witness :
  (exists reason,
     validate_amount (Some "-1") false = Raised (InvalidAmountError reason))
  /\ validate_amount None false
     = Returned (mkResult false ["Amount is required"] [] None).
Proof.
  apply (validate_amount_raises "-1" false).
  right. exists (Finite true 1 0). split; reflexivity.
Defined.

(** A negative amount and a text that is not a number both end in an
    exception, not in a returned result. *)
Lemma validate_amount_negative_is_thrown :
  validate_amount (Some "-1") false = Raised (InvalidAmountError CannotBeNegative)
  /\ validate_amount (Some "not_a_number") false
     = Raised (InvalidAmountError InvalidAmountFormat).
Proof. split; vm_compute; reflexivity. Qed.

End ValidatorProperties.

(** ** The loader *)

Section LoaderProperties.
Import Py PyDecimal Loader.

Variable to_datetime : string -> option Datetime.datetime.

Lemma required_errors_type (row : CsvRow.t) (idx : nat) (e : ValidationError.t) :
  e ∈ required_errors row idx ->
  ValidationError.type e = "missing_required_field".
Proof.
  unfold required_errors. intros H.
  apply elem_of_app in H as [H | H]; case_match;
    try (apply elem_of_nil in H; done);
    apply list_elem_of_singleton in H; subst; reflexivity.
Qed.

Lemma length_errors_type (row : CsvRow.t) (idx : nat) (e : ValidationError.t) :
  e ∈ length_errors row idx -> ValidationError.type e = "field_too_long".
Proof.
  unfold length_errors. intros H.
  apply list_elem_of_In, in_flat_map in H as ((f & m) & _ & H).
  apply list_elem_of_In in H.
  repeat case_match; try (apply elem_of_nil in H; done);
    apply list_elem_of_singleton in H; subst; reflexivity.
Qed.

Lemma amount_errors_type (row : CsvRow.t) (idx : nat) (e : ValidationError.t) :
  e ∈ amount_errors row idx ->
  ValidationError.type e = "invalid_amount"
  \/ ValidationError.type e = "invalid_amount_format".
Proof.
  unfold amount_errors. intros H.
  repeat case_match; try (apply elem_of_nil in H; done);
    apply list_elem_of_singleton in H; subst; auto.
Qed.

Lemma date_errors_type (row : CsvRow.t) (idx : nat) (e : ValidationError.t) :
  e ∈ date_errors to_datetime row idx ->
  ValidationError.type e = "invalid_date_format".
Proof.
  unfold date_errors. intros H.
  apply list_elem_of_In, in_flat_map in H as (f & _ & H).
  apply list_elem_of_In in H.
  case_match; try (apply elem_of_nil in H; done);
    apply list_elem_of_singleton in H; subst; reflexivity.
Qed.

Lemma status_errors_spec (row : CsvRow.t) (idx : nat) (e : ValidationError.t) :
  e ∈ status_errors row idx <->
  e = ValidationError.mk "invalid_status" "status" idx
  /\ exists s, CsvRow.status row = Some s
               /\ s <> "" /\ str_in s VALID_STATUSES = false.
Proof.
  unfold status_errors. split.
  - intros H. destruct (CsvRow.status row) as [s |] eqn:Hs;
      [| apply elem_of_nil in H; done].
    destruct (truthy s) eqn:Ht, (str_in s VALID_STATUSES) eqn:Hin; cbn in H;
      try (apply elem_of_nil in H; done).
    apply list_elem_of_singleton in H. split; [done |].
    exists s. repeat split; try done. intros ->. discriminate.
  - intros (-> & s & -> & Hne & ->). destruct s; [done |]. cbn.
    apply list_elem_of_singleton. reflexivity.
Qed.

(** C7, as amended. The bulk validation of the loader tests the status
    exactly as it was read: a row gets an [invalid_status] error if and
    only if its status is a non-empty text that is not, character for
    character, one of the allowed values. Nothing is trimmed or
    lowercased. *)
Theorem loader_status_is_checked_raw (row : CsvRow.t) (row_index : nat) :
  (exists e, e ∈ _validate_row to_datetime row row_index
             /\ ValidationError.type e = "invalid_status")
  <-> (exists s, CsvRow.status row = Some s
                 /\ s <> "" /\ str_in s VALID_STATUSES = false).
Proof.
  unfold _validate_row. split.
  - intros (e & He & Hty).
    rewrite !elem_of_app in He.
    destruct He as [He | [He | [He | [He | He]]]].
    + apply required_errors_type in He. congruence.
    + apply length_errors_type in He. congruence.
    + apply amount_errors_type in He as [He | He]; congruence.
    + apply status_errors_spec in He as (_ & H). exact H.
    + apply date_errors_type in He. congruence.
  - intros H. exists (ValidationError.mk "invalid_status" "status" row_index).
    split; [| reflexivity].
    rewrite !elem_of_app. right; right; right; left.
    apply status_errors_spec. split; [reflexivity | exact H].
Qed.

End LoaderProperties.

Section LoaderExamples.
Import Py PyDecimal Loader Examples.

(** The status [PAID] passes the validator, which trims and lowercases,
    and fails the bulk validation of the loader, which does not: the row
    gets an [invalid_status] error and is counted invalid. *)
Lemma loader_rejects_uppercase_status :
  Validation.validate_status (Some "PAID")
  = Returned (Validation.mkResult true [] [] (Some "paid"))
  /\ _validate_row to_datetime_ymd csv_upper 0
     = [ValidationError.mk "invalid_status" "status" 0]
  /\ valid_rows (validate_data_integrity to_datetime_ymd (frame_of_rows [csv_upper]))
     = 0
  /\ invalid_rows (validate_data_integrity to_datetime_ymd (frame_of_rows [csv_upper]))
     = 1.
Proof. repeat split; vm_compute; reflexivity. Qed.

End LoaderExamples.

Section BatchLoading.
Import Py PyDecimal Loader.

Variable column_check : RawTransaction.t -> bool.

(** What the row-by-row loop adds to its accumulators: one error per row
    that the table refuses, of type [individual_row_error] and with the
    row number [batch_start_idx + idx], where [idx] is the index label of
    the row; every other row is counted as loaded. *)
Lemma individually_loop_spec (rows : DataFrame) :
  forall (s : Session) (start n : nat) (errs : list LoadingError.t)
         (n' : nat) (errs' : list LoadingError.t) (s' : Session),
    individually_loop column_check s rows start n errs = Returned (n', errs', s') ->
    exists new,
      errs' = errs ++ new
      /\ n' + length new = n + length rows
      /\ Forall (fun e =>
                   LoadingError.type e = "individual_row_error"
                   /\ exists idx row, (idx, row) ∈ rows
                                      /\ LoadingError.row e = start + idx)
                new.
Proof.
  induction rows as [| [idx row] rest IH]; intros s start n errs n' errs' s' H.
  - cbn in H. inversion H; subst. exists []. rewrite app_nil_r. cbn.
    split; [done |]. split; [lia | constructor].
  - cbn in H.
    destruct (_row_to_raw_transaction row) as [tx |] eqn:Hconv; [| done].
    cbn in H.
    destruct (flush column_check (add tx s)) as [s1 | ex] eqn:Hflush.
    + apply IH in H as (new & -> & Hlen & Hall).
      exists new. split; [done |]. split; [cbn; lia |].
      eapply Forall_impl; [exact Hall |].
      intros x (Hty & i & r & Hin & Hrow). split; [done |].
      exists i, r. split; [by apply list_elem_of_further | done].
    + apply IH in H as (new & -> & Hlen & Hall).
      exists (LoadingError.mk "individual_row_error" (start + idx) :: new).
      split; [by rewrite <- app_assoc |]. split; [cbn; lia |].
      constructor.
      * split; [reflexivity |]. exists idx, row.
        split; [apply list_elem_of_here | reflexivity].
      * eapply Forall_impl; [exact Hall |].
        intros x (Hty & i & r & Hin & Hrow). split; [done |].
        exists i, r. split; [by apply list_elem_of_further | done].
Qed.

Lemma elem_of_frame_of_rows (rows : list CsvRow.t) (idx : nat) (row : CsvRow.t) :
  (idx, row) ∈ frame_of_rows rows <-> rows !! idx = Some row.
Proof.
  unfold frame_of_rows. rewrite list_elem_of_lookup. split.
  - intros (i & Hi). apply list_lookup_imap_Some in Hi as (y & Hy & Heq).
    inversion Heq; subst. exact Hy.
  - intros H. exists idx. apply list_lookup_imap_Some. eauto.
Qed.

Lemma elem_of_iloc (df : DataFrame) (start_idx end_idx : nat) (x : nat * CsvRow.t) :
  x ∈ iloc df start_idx end_idx ->
  exists pos, df !! pos = Some x /\ start_idx <= pos < end_idx.
Proof.
  unfold iloc. intros H. apply list_elem_of_lookup in H as (i & Hi).
  apply lookup_take_Some in Hi as (Hi & Hlt).
  rewrite lookup_drop in Hi. exists (start_idx + i). split; [done | lia].
Qed.

(** In the frame read from a file the label of a row is its position, and
    a batch keeps the labels. The row number reported for a row of the
    batch that starts at [start_idx] is therefore [start_idx] more than
    its position in the file. *)
Lemma individual_errors_are_shifted (session : Session) (rows : list CsvRow.t)
    (start_idx end_idx n : nat) (errs : list LoadingError.t) (s' : Session) :
  _load_rows_individually column_check session
    (iloc (frame_of_rows rows) start_idx end_idx) start_idx
  = Returned (n, errs, s') ->
  Forall (fun e =>
            exists pos row, rows !! pos = Some row
                            /\ start_idx <= pos < end_idx
                            /\ LoadingError.row e = start_idx + pos)
         errs.
Proof.
  unfold _load_rows_individually. intros H.
  apply individually_loop_spec in H as (new & -> & _ & Hall). cbn.
  eapply Forall_impl; [exact Hall |].
  intros e (_ & idx & row & Hin & Hrow).
  apply elem_of_iloc in Hin as (pos & Hpos & Hrange).
  unfold frame_of_rows in Hpos.
  apply list_lookup_imap_Some in Hpos as (y & Hy & Heq).
  injection Heq as -> ->. exists pos, y. repeat split; try done; lia.
Qed.

End BatchLoading.

Section BatchLoadingExamples.
Import Py PyDecimal Loader Examples.

(** C2. A file of three rows is loaded in batches of two: the loader
    calls [_load_batch_to_database] on the rows at positions 0 and 1 with
    start 0, then on the row at position 2 with start 2. The third row
    has no id, so the flush of the second batch fails, the batch is
    retried row by row and the row is refused. The error recorded for it
    has type [individual_row_error] and row number 4, although the row is
    row 2 of the file and the file has only three rows: the start of the
    batch was added to an index that already counts from the start of the
    file. *)
Theorem second_batch_error_has_wrong_row :
  length csv_three = 3
  /\ csv_three !! 2 = Some (2, csv_no_id)
  /\ iloc csv_three 2 (Nat.min (2 + 2) (length csv_three)) = [(2, csv_no_id)]
  /\ exists session1 session2,
       _load_batch_to_database any_raw empty_session
         (iloc csv_three 0 (Nat.min (0 + 2) (length csv_three))) 0
       = Returned (2, [], session1)
       /\ _load_batch_to_database any_raw session1
            (iloc csv_three 2 (Nat.min (2 + 2) (length csv_three))) 2
          = Returned (0, [LoadingError.mk "individual_row_error" 4], session2).
Proof.
  split; [reflexivity |]. split; [reflexivity |]. split; [reflexivity |].
  eexists _, _. split; vm_compute; reflexivity.
Qed.

(** In the first batch the row number is the index of the row: the same
    file in one batch of three. *)
Lemma first_batch_error_has_right_row :
  exists session,
    _load_batch_to_database any_raw empty_session
      (iloc csv_three 0 (Nat.min (0 + 3) (length csv_three))) 0
    = Returned (2, [LoadingError.mk "individual_row_error" 2], session).
Proof. eexists. vm_compute. reflexivity. Qed.

(** A row that does not convert is recorded by the batch loop, but the
    row-by-row retry of the same batch does not catch its [ValueError]:
    when the flush of the batch fails for another row, the retry raises
    and no row of the batch is loaded. *)
Lemma retry_raises_on_unconvertible_row :
  add_batch empty_session (frame_of_rows [csv_bad_amount; csv_no_id]) 0 0 []
  = (1, [LoadingError.mk "row_conversion_error" 0],
     mkSession [] [] [RawTransaction.mk None (Some "Acme") (Some "c1")
                        (Some (Finite false 700 (-2))) (Some "paid")
                        (Some "2020-01-03") None])
  /\ _load_batch_to_database any_raw empty_session
       (frame_of_rows [csv_bad_amount; csv_no_id]) 0
     = Raised ValueError.
Proof. split; vm_compute; reflexivity. Qed.

End BatchLoadingExamples.

(** ** The transformer: validation of a row *)

Section RowValidation.
Import Py PyDecimal Transformer.
Import Validation (ValidationResult, mkResult, is_valid, errors, warnings,
                   cleaned_value).

Variable strptime : string -> string -> option Datetime.datetime.
Variable to_datetime : string -> option Datetime.datetime.
Variable str_of_datetime : Datetime.datetime -> string.


(** The checks of the five fields that come before the dates, on a row
    whose five fields are valid: no error is recorded and the date cells
    are left as they are. *)
Lemma checks_before_dates (row : Row.t) :
  blank (Row.id row) = false ->
  blank (Row.company_id row) = false ->
  (exists d, Row.amount row = Some d /\ lt d zero = Some false) ->
  blank (Row.status row) = false ->
  str_in (lower (strip (default "" (Row.status row)))) VALID_STATUSES = true ->
  exists result cleaned_row,
    check_status row
      (check_amount row
         (check_name row
            (check_company_id row
               (check_id row (Validation.new_result, row)))))
    = (result, cleaned_row)
    /\ is_valid result = true
    /\ errors result = []
    /\ cleaned_value result = None
    /\ Row.created_at cleaned_row = Row.created_at row
    /\ Row.paid_at cleaned_row = Row.paid_at row.
Proof.
  intros Hid Hco (d & Hd & Hlt) Hst Hin.
  unfold check_status, check_amount, check_name, check_company_id, check_id.
  rewrite Hid, Hco, Hst, Hin, Hd.
  assert (Hnan : forall b, d <> NaN b) by (intros b ->; discriminate).
  destruct d as [sg c e | sg | b]; [| | by destruct (Hnan b)];
    rewrite Hlt; cbn [negb];
    repeat case_match; simplify_eq; eexists _, _; repeat split.
Qed.

(** C10. A row whose created_at does not parse is not marked invalid: the
    errors of the date are appended to the errors of the row, but the
    validity flag of the row is left alone. A row whose other fields are
    valid is therefore returned valid, with the errors in it and with its
    created_at as it was read, and the validation step keeps it. *)
Theorem unparsed_created_at_is_kept (row : Row.t) (row_index : nat) :
  blank (Row.id row) = false ->
  blank (Row.company_id row) = false ->
  (exists d, Row.amount row = Some d /\ lt d zero = Some false) ->
  blank (Row.status row) = false ->
  str_in (lower (strip (default "" (Row.status row)))) VALID_STATUSES = true ->
  is_valid (_parse_and_validate_date strptime to_datetime str_of_datetime
       (Row.created_at row) "created_at") = false ->
  let result :=
    _validate_row_for_transformation strptime to_datetime str_of_datetime
      row row_index in
  is_valid result = true
  /\ errors result = errors (_parse_and_validate_date strptime to_datetime str_of_datetime
       (Row.created_at row) "created_at")
  /\ errors result <> []
  /\ exists cleaned_row,
       cleaned_value result = Some cleaned_row
       /\ Row.created_at cleaned_row = Row.created_at row
       /\ validate_loop strptime to_datetime str_of_datetime [(row_index, row)]
          = ([cleaned_row], []).
Proof.
  intros Hid Hco Ham Hst Hin Hbad result.
  destruct (checks_before_dates row Hid Hco Ham Hst Hin)
    as (r0 & c0 & Hpre & Hv & He & Hcv & Hcr & Hpa).
  assert (Hres : exists w c1,
             result = mkResult true
                        (errors (_parse_and_validate_date strptime to_datetime str_of_datetime
       (Row.created_at row) "created_at"))
                        w (Some c1)
             /\ Row.created_at c1 = Row.created_at row).
  { subst result. unfold _validate_row_for_transformation. rewrite Hpre.
    unfold check_created_at. rewrite Hbad. cbn [negb].
    unfold check_paid_at. rewrite Hv, He. cbn [app].
    repeat case_match; simplify_eq; cbn;
      eexists _, _; (split; [reflexivity |]); cbn; done. }
  destruct Hres as (w & c1 & Hres & Hc1).
  assert (Hne : errors (_parse_and_validate_date strptime to_datetime str_of_datetime
       (Row.created_at row) "created_at") <> []).
  { intros Hnil. revert Hbad Hnil. unfold _parse_and_validate_date.
    repeat case_match; cbn; intros; simplify_eq. }
  repeat split.
  - rewrite Hres. reflexivity.
  - rewrite Hres. reflexivity.
  - rewrite Hres. exact Hne.
  - exists c1. split; [rewrite Hres; reflexivity |]. split; [exact Hc1 |].
    cbn [validate_loop]. fold result. rewrite Hres. reflexivity.
Qed.

(** A paid_at that is present and does not parse: the row keeps its
    validity, the failure goes to the warnings and the cleaned paid_at is
    null. *)
Lemma unparsed_paid_at_is_a_warning (row : Row.t) (row_index : nat) :
  blank (Row.id row) = false ->
  blank (Row.company_id row) = false ->
  (exists d, Row.amount row = Some d /\ lt d zero = Some false) ->
  blank (Row.status row) = false ->
  str_in (lower (strip (default "" (Row.status row)))) VALID_STATUSES = true ->
  is_valid (_parse_and_validate_date strptime to_datetime str_of_datetime
       (Row.created_at row) "created_at") = true ->
  blank (date_text str_of_datetime (Row.paid_at row)) = false ->
  is_valid (_parse_and_validate_date strptime to_datetime str_of_datetime
       (Row.paid_at row) "paid_at") = false ->
  let result :=
    _validate_row_for_transformation strptime to_datetime str_of_datetime
      row row_index in
  is_valid result = true
  /\ errors result = []
  /\ (forall error, error ∈ errors (_parse_and_validate_date strptime to_datetime str_of_datetime
       (Row.paid_at row) "paid_at") ->
        ("paid_at: " ++ error)%string ∈ warnings result)
  /\ exists cleaned_row,
       cleaned_value result = Some cleaned_row
       /\ Row.paid_at cleaned_row = DNull
       /\ validate_loop strptime to_datetime str_of_datetime [(row_index, row)]
          = ([cleaned_row], []).
Proof.
  intros Hid Hco Ham Hst Hin Hgood Hpresent Hbad result.
  destruct (checks_before_dates row Hid Hco Ham Hst Hin)
    as (r0 & c0 & Hpre & Hv & He & Hcv & Hcr & Hpa).
  assert (Hres : exists w c1,
             result = mkResult true []
                        (w ++ map (fun error => ("paid_at: " ++ error)%string)
                                  (errors (_parse_and_validate_date strptime to_datetime str_of_datetime
       (Row.paid_at row) "paid_at")))
                        (Some c1)
             /\ Row.paid_at c1 = DNull).
  { subst result. unfold _validate_row_for_transformation. rewrite Hpre.
    unfold check_created_at. rewrite Hgood. cbn [negb].
    unfold check_paid_at. rewrite Hpresent, Hbad. cbn [negb].
    rewrite Hv, He. cbn. eexists _, _. split; reflexivity. }
  destruct Hres as (w & c1 & Hres & Hc1).
  repeat split.
  - rewrite Hres. reflexivity.
  - rewrite Hres. reflexivity.
  - intros error Herr. rewrite Hres. cbn. apply elem_of_app. right.
    apply list_elem_of_fmap. eauto.
  - exists c1. split; [rewrite Hres; reflexivity |]. split; [exact Hc1 |].
    cbn [validate_loop]. fold result. rewrite Hres. reflexivity.
Qed.

End RowValidation.

Section RowValidationExamples.
Import Py PyDecimal Transformer Examples.

(** The staging row with the created_at ["not-a-date"] is returned valid. *)
Lemma unparsed_created_at_is_kept_witness :
  Validation.is_valid
    (_validate_row_for_transformation strptime_ymd no_fallback str_of_datetime
       (row_of_raw raw_bad_created) 0)
  = true.
Proof.
  apply (unparsed_created_at_is_kept strptime_ymd no_fallback str_of_datetime
           (row_of_raw raw_bad_created) 0);
    try reflexivity.
  exists ten. split; reflexivity.
Defined.

(** The row with the created_at ["not-a-date"] goes through the whole
    transform: nothing is recorded about it and a charge is made of it. *)
Lemma bad_created_at_reaches_the_charges :
  exists report db,
    transform (db_of [raw_bad_created]) = Returned (report, db)
    /\ Transformer.transformed_rows report = 1
    /\ Transformer.data_quality_issues report = []
    /\ Charge.created_at <$> (charges db !! "a1") = Some (DRaw "not-a-date").
Proof. eexists _, _. split; [vm_compute; reflexivity |]. repeat split. Qed.

End RowValidationExamples.

(** ** The transformer: business rules *)

Section BusinessRules.
Import Py PyDecimal Transformer.

Lemma drop_duplicates_subset {A : Type} (key : A -> option string)
    (l : list A) :
  forall seen x, x ∈ drop_duplicates key seen l -> x ∈ l.
Proof.
  induction l as [| y l IH]; intros seen x H; cbn in H; [done |].
  case_bool_decide.
  - apply list_elem_of_further. eapply IH. exact H.
  - apply elem_of_cons in H as [-> | H]; [apply list_elem_of_here |].
    apply list_elem_of_further. eapply IH. exact H.
Qed.

Lemma drop_duplicates_length {A : Type} (key : A -> option string)
    (l : list A) :
  forall seen, length (drop_duplicates key seen l) <= length l.
Proof.
  induction l as [| y l IH]; intros seen; cbn; [lia |].
  case_bool_decide; cbn.
  - specialize (IH seen). lia.
  - specialize (IH (key y :: seen)). lia.
Qed.

Lemma has_raw_columns_elim (df : DataFrame) (c : string) :
  has_raw_columns df = true -> str_in c raw_columns = true ->
  has_column df c = true.
Proof.
  unfold has_raw_columns, str_in. intros H Hc.
  rewrite forallb_forall in H. apply existsb_exists in Hc as (x & Hin & Heq).
  apply String.eqb_eq in Heq as ->. apply H, Hin.
Qed.

Lemma get_transaction_returned {A : Type} (block : outcome A) (a : A) :
  Connection.get_transaction block = Returned a <-> block = Returned a.
Proof. destruct block; cbn; split; congruence. Qed.

Lemma get_transaction_raised {A : Type} (block : outcome A) :
  (exists e, block = Raised e) ->
  Connection.get_transaction block = Raised DatabaseTransactionError.
Proof. by intros [e ->]. Qed.

Lemma require_ok (df : DataFrame) (names : list string) :
  (forall c, c ∈ names -> has_column df c = true) ->
  require df names = Returned tt.
Proof.
  intros H. unfold require, missing_column.
  destruct (List.find _ names) as [c |] eqn:Hf; [| reflexivity].
  apply find_some in Hf as (Hin & Hneg).
  rewrite H in Hneg by (apply list_elem_of_In; done). discriminate.
Qed.

Lemma check_subset_ok (df : DataFrame) (names : list string) :
  (forall c, c ∈ names -> has_column df c = true) ->
  check_subset df names = Returned tt.
Proof.
  intros H. unfold check_subset. destruct (empty df); [done |].
  by apply require_ok.
Qed.

Lemma require_inv (df : DataFrame) (names : list string) :
  require df names = Returned tt ->
  forall c, c ∈ names -> has_column df c = true.
Proof.
  unfold require, missing_column. intros H c Hc.
  destruct (List.find _ names) as [x |] eqn:Hf; [discriminate H |].
  pose proof (find_none _ _ Hf c ltac:(apply list_elem_of_In; done)) as Hn.
  cbn in Hn. destruct (has_column df c); [reflexivity | discriminate Hn].
Qed.

Lemma require_missing (df : DataFrame) (names : list string) (c : string) :
  c ∈ names -> has_column df c = false ->
  exists k, require df names = Raised (KeyError k).
Proof.
  intros Hin Hc. unfold require, missing_column.
  destruct (List.find _ names) as [k |] eqn:Hf; [eauto |].
  pose proof (find_none _ _ Hf c ltac:(apply list_elem_of_In; done)) as Hn.
  cbn in Hn. rewrite Hc in Hn. discriminate Hn.
Qed.

Lemma has_column_app (cs : list string) (c d : string) :
  str_in c (cs ++ [d]) = str_in c cs || String.eqb c d.
Proof.
  unfold str_in. rewrite existsb_app. cbn. rewrite orb_false_r. reflexivity.
Qed.

(** Rule 4 on one frame: the rows keep their order, labels and every
    field but [updated_at]; the paid rows get [updated_at] from [source]. *)
Lemma set_updated_at_for_paid_rows (df : DataFrame) (source : Row.t -> DateCell)
    (i : nat) (r' : Row.t) :
  (i, r') ∈ rows (set_updated_at_for_paid df source) ->
  exists r, (i, r) ∈ rows df
            /\ Row.id r' = Row.id r
            /\ Row.company_id r' = Row.company_id r
            /\ Row.status r' = Row.status r
            /\ Row.created_at r' = Row.created_at r
            /\ Row.paid_at r' = Row.paid_at r
            /\ (is_paid r = true -> Row.updated_at r' = source r).
Proof.
  unfold set_updated_at_for_paid. cbn [rows]. intros H.
  apply list_elem_of_fmap in H as ((j & r) & Heq & Hin). cbn in Heq.
  injection Heq as -> ->. exists r. repeat split; try done.
  cbn. intros ->. reflexivity.
Qed.

Lemma compare_dates_total (l : list (nat * Row.t)) :
  (forall ir, ir ∈ l ->
     is_paid (snd ir) = true
     /\ is_null (Row.created_at (snd ir)) = false
     /\ is_null (Row.paid_at (snd ir)) = false
     /\ comparable_dates (snd ir) = true) ->
  exists bs,
    compare_dates l = Returned bs
    /\ forall ir c p,
         ir ∈ l ->
         Row.created_at (snd ir) = DParsed c ->
         Row.paid_at (snd ir) = DParsed p ->
         Datetime.ltb p c = true ->
         true ∈ bs.
Proof.
  induction l as [| [i r] l IH]; intros H.
  - exists []. split; [reflexivity |]. intros ir c p Hin. by apply elem_of_nil in Hin.
  - destruct IH as (bs & Hbs & Hflag).
    { intros ir Hin. apply H. by apply list_elem_of_further. }
    destruct (H (i, r) ltac:(apply list_elem_of_here)) as (Hp & Hc & Hpa & Hcmp).
    cbn in Hp, Hc, Hpa, Hcmp. unfold comparable_dates in Hcmp. rewrite Hp in Hcmp.
    cbn [compare_dates]. rewrite Hbs.
    destruct (Row.paid_at r) as [| sp | tp] eqn:Epaid,
             (Row.created_at r) as [| sc | tc] eqn:Ecreated;
      try discriminate; cbn.
    + eexists. split; [reflexivity |].
      intros ir c p Hin Hc' Hp' Hlt.
      apply elem_of_cons in Hin as [-> | Hin].
      * cbn in Hc'. congruence.
      * apply list_elem_of_further. eauto.
    + eexists. split; [reflexivity |].
      intros ir c p Hin Hc' Hp' Hlt.
      apply elem_of_cons in Hin as [-> | Hin].
      * cbn in Hc', Hp'. rewrite Ecreated in Hc'. rewrite Epaid in Hp'.
        injection Hc' as ->. injection Hp' as ->. rewrite Hlt.
        apply list_elem_of_here.
      * apply list_elem_of_further. eauto.
Qed.

Lemma existsb_id_true (bs : list bool) : true ∈ bs -> existsb (fun b => b) bs = true.
Proof.
  intros H. apply existsb_exists. exists true. split; [| reflexivity].
  by apply list_elem_of_In.
Qed.

Lemma count_true_pos (bs : list bool) : true ∈ bs -> 0 < count_true bs.
Proof.
  unfold count_true. induction bs as [| b bs IH]; intros H.
  - by apply elem_of_nil in H.
  - apply elem_of_cons in H as [<- | H]; cbn; [lia |].
    destruct b; cbn; [lia | auto].
Qed.

(** Rule 5 on a frame with the columns it reads and comparable dates: it
    returns, and it records the [date_consistency_error] issue as soon as
    one paid row of the frame has its payment before its creation. *)
Lemma date_consistency_flags (df : DataFrame) :
  has_column df "status" = true ->
  has_column df "created_at" = true ->
  has_column df "paid_at" = true ->
  (forall ir, ir ∈ rows df -> comparable_dates (snd ir) = true) ->
  exists issues,
    _validate_date_consistency df = Returned issues
    /\ forall i r c p,
         (i, r) ∈ rows df ->
         is_paid r = true ->
         Row.created_at r = DParsed c ->
         Row.paid_at r = DParsed p ->
         Datetime.ltb p c = true ->
         exists n, 0 < n
                   /\ issues = [Issue.business_rule "date_consistency_error" n].
Proof.
  intros Hs Hc Hp Hcmp. unfold _validate_date_consistency.
  rewrite (require_ok df ["status"]); cycle 1.
  { intros c Hin. apply list_elem_of_singleton in Hin as ->. done. }
  cbn [mbind outcome_bind].
  set (paid_df := List.filter (fun ir => is_paid (snd ir)) (rows df)).
  assert (Hpaid : forall ir, ir ∈ paid_df <-> ir ∈ rows df /\ is_paid (snd ir) = true).
  { intros ir. subst paid_df. rewrite !list_elem_of_In. apply filter_In. }
  destruct paid_df as [| x paid_df'] eqn:Epaid.
  { exists []. split; [reflexivity |]. intros i r c p Hin Hpd _ _ _.
    exfalso. eapply elem_of_nil. apply (Hpaid (i, r)). done. }
  rewrite <- Epaid in *. clear Epaid x paid_df'.
  rewrite (require_ok df ["created_at"; "paid_at"]); cycle 1.
  { intros c Hin. apply elem_of_cons in Hin as [-> | Hin]; [done |].
    apply list_elem_of_singleton in Hin as ->. done. }
  cbn [mbind outcome_bind].
  set (both := List.filter
                 (fun ir => negb (is_null (Row.created_at (snd ir)))
                            && negb (is_null (Row.paid_at (snd ir))))
                 paid_df).
  assert (Hboth : forall ir, ir ∈ both <->
                    ir ∈ paid_df
                    /\ negb (is_null (Row.created_at (snd ir)))
                       && negb (is_null (Row.paid_at (snd ir))) = true).
  { intros ir. subst both. rewrite !list_elem_of_In. apply filter_In. }
  destruct (compare_dates_total both) as (bs & Hbs & Hflag).
  { intros ir Hin. apply Hboth in Hin as (Hin & Hnn).
    apply Hpaid in Hin as (Hin & Hpd).
    apply andb_prop in Hnn as (H1 & H2).
    apply negb_true_iff in H1. apply negb_true_iff in H2.
    repeat split; try done. by apply Hcmp. }
  destruct both as [| x both'] eqn:Eboth.
  { exists []. split; [reflexivity |]. intros i r c p Hin Hpd Hcr Hpa _.
    exfalso. eapply elem_of_nil. apply (Hboth (i, r)).
    split; [apply Hpaid; done |]. cbn. rewrite Hcr, Hpa. reflexivity. }
  rewrite <- Eboth in *. clear Eboth x both'.
  rewrite Hbs. cbn [mbind outcome_bind].
  destruct (existsb (fun b => b) bs) eqn:Hany.
  - eexists. split; [reflexivity |].
    intros i r c p Hin Hpd Hcr Hpa Hlt. eexists. split; [| reflexivity].
    apply count_true_pos. apply (Hflag (i, r) c p); try done.
    apply Hboth. split; [apply Hpaid; done |]. cbn. rewrite Hcr, Hpa. reflexivity.
  - exists []. split; [reflexivity |].
    intros i r c p Hin Hpd Hcr Hpa Hlt. exfalso.
    assert (true ∈ bs).
    { apply (Hflag (i, r) c p); try done.
      apply Hboth. split; [apply Hpaid; done |]. cbn. rewrite Hcr, Hpa. reflexivity. }
    apply existsb_id_true in H. congruence.
Qed.

Lemma compare_dates_sound (l : list (nat * Row.t)) :
  forall bs,
    compare_dates l = Returned bs ->
    forall ir c p,
      ir ∈ l ->
      Row.created_at (snd ir) = DParsed c ->
      Row.paid_at (snd ir) = DParsed p ->
      Datetime.ltb p c = true ->
      true ∈ bs.
Proof.
  induction l as [| [j r] l IH]; intros bs H ir c p Hin Hc Hp Hlt.
  - by apply elem_of_nil in Hin.
  - cbn [compare_dates] in H.
    destruct (cell_lt (Row.paid_at r) (Row.created_at r)) as [b |] eqn:Hb;
      [| discriminate H].
    cbn [mbind outcome_bind] in H.
    destruct (compare_dates l) as [bs' |]; [| discriminate H].
    cbn in H. injection H as <-.
    apply elem_of_cons in Hin as [-> | Hin].
    + cbn in Hc, Hp. rewrite Hc, Hp in Hb. cbn [cell_lt] in Hb.
      injection Hb as Hb.
      rewrite <- Hb, Hlt. apply list_elem_of_here.
    + apply list_elem_of_further. eapply IH; done.
Qed.

(** Rule 5, whenever it returns: the issue is there as soon as one paid
    row of the frame has its payment before its creation. *)
Lemma date_consistency_sound (df : DataFrame) (issues : list Issue.t) :
  _validate_date_consistency df = Returned issues ->
  forall i r c p,
    (i, r) ∈ rows df ->
    is_paid r = true ->
    Row.created_at r = DParsed c ->
    Row.paid_at r = DParsed p ->
    Datetime.ltb p c = true ->
    exists n, 0 < n
              /\ issues = [Issue.business_rule "date_consistency_error" n].
Proof.
  unfold _validate_date_consistency. intros H i r c p Hin Hpd Hcr Hpa Hlt.
  destruct (require df ["status"]) as [[] |]; [| discriminate H].
  cbn [mbind outcome_bind] in H.
  set (paid_df := List.filter (fun ir => is_paid (snd ir)) (rows df)) in H.
  assert (Hp : (i, r) ∈ paid_df).
  { subst paid_df. apply list_elem_of_In, filter_In.
    split; [by apply list_elem_of_In | done]. }
  destruct paid_df as [| x paid_df'] eqn:Epaid; [by apply elem_of_nil in Hp |].
  rewrite <- Epaid in *. clear Epaid x paid_df'.
  destruct (require df ["created_at"; "paid_at"]) as [[] |]; [| discriminate H].
  cbn [mbind outcome_bind] in H.
  set (both := List.filter
                 (fun ir => negb (is_null (Row.created_at (snd ir)))
                            && negb (is_null (Row.paid_at (snd ir))))
                 paid_df) in H.
  assert (Hb : (i, r) ∈ both).
  { subst both. apply list_elem_of_In, filter_In.
    split; [by apply list_elem_of_In |]. cbn. rewrite Hcr, Hpa. reflexivity. }
  destruct both as [| x both'] eqn:Eboth; [by apply elem_of_nil in Hb |].
  rewrite <- Eboth in *. clear Eboth x both'.
  destruct (compare_dates both) as [bs |] eqn:Hbs; [| discriminate H].
  cbn [mbind outcome_bind] in H.
  assert (Htrue : true ∈ bs)
    by (eapply (compare_dates_sound both bs Hbs (i, r)); done).
  rewrite (existsb_id_true bs Htrue) in H. injection H as <-.
  eexists. split; [| reflexivity]. by apply count_true_pos.
Qed.

(** The rules on a frame with the columns of the staging table: the frame
    they hand to rule 5 and return has exactly the rows that survive the
    removal of duplicates, in their order and with their labels, ids,
    statuses and dates; the paid ones have [updated_at] equal to their
    [paid_at]. *)
Lemma business_rules_shape (df : DataFrame) :
  has_raw_columns df = true ->
  let kept := drop_duplicates (fun ir : nat * Row.t => Row.id (snd ir)) []
                              (rows df) in
  exists df4 before,
    _apply_business_rules df
    = match _validate_date_consistency df4 with
      | Returned date_issues => Returned (df4, before ++ date_issues)
      | Raised e => Raised e
      end
    /\ (forall c, has_column df c = true -> has_column df4 c = true)
    /\ has_column df4 "updated_at" = true
    /\ map fst (rows df4) = map fst kept
    /\ (forall i r', (i, r') ∈ rows df4 ->
          exists r, (i, r) ∈ kept
                    /\ Row.id r' = Row.id r
                    /\ Row.company_id r' = Row.company_id r
                    /\ Row.status r' = Row.status r
                    /\ Row.created_at r' = Row.created_at r
                    /\ Row.paid_at r' = Row.paid_at r
                    /\ (is_paid r' = true -> Row.updated_at r' = Row.paid_at r'))
    /\ (forall i r, (i, r) ∈ kept ->
          exists r', (i, r') ∈ rows df4
                     /\ Row.id r' = Row.id r
                     /\ Row.status r' = Row.status r
                     /\ Row.created_at r' = Row.created_at r
                     /\ Row.paid_at r' = Row.paid_at r).
Proof.
  intros Hcols kept.
  assert (Hcol : forall c, str_in c raw_columns = true -> has_column df c = true)
    by (intros c; apply has_raw_columns_elim; done).
  unfold _apply_business_rules.
  rewrite (check_subset_ok df ["id"]), (require_ok df ["name"]),
    (require_ok df ["amount"]), (require_ok df ["status"]);
    try (intros c Hin; apply list_elem_of_singleton in Hin as ->;
         apply Hcol; reflexivity).
  cbn [mbind outcome_bind].
  fold kept.
  set (rows3 := map _ (map _ kept)).
  replace (has_column (mkFrame (columns df) rows3) "paid_at") with true
    by (symmetry; apply Hcol; reflexivity).
  cbn [mbind outcome_bind].
  set (df4 := set_updated_at_for_paid (mkFrame (columns df) rows3) Row.paid_at).
  eexists df4, _. split.
  { destruct (_validate_date_consistency df4); cbn [mbind outcome_bind];
      [rewrite app_assoc |]; reflexivity. }
  assert (Hrows3 : forall i r3, (i, r3) ∈ rows3 <->
            exists r, (i, r) ∈ kept
                      /\ r3 = (let r2 := Row.set_name
                                           (_standardize_company_name (Row.name r)) r in
                               if is_small_amount r2
                               then Row.set_amount (Some cent) r2 else r2)).
  { intros i r3. subst rows3. rewrite map_map. split.
    - intros H. apply list_elem_of_fmap in H as ((j & r) & Heq & Hin).
      cbn in Heq. injection Heq as -> ->. exists r. split; [done | reflexivity].
    - intros (r & Hin & ->). apply list_elem_of_fmap. exists (i, r).
      split; [reflexivity | done]. }
  split; [| split; [| split; [| split]]].
  - intros c Hc. unfold df4, set_updated_at_for_paid, has_column in *. cbn [columns].
    case_match; [done |]. rewrite has_column_app, Hc. reflexivity.
  - unfold df4, set_updated_at_for_paid, has_column. cbn [columns].
    case_match eqn:Hu; [exact Hu |]. rewrite has_column_app.
    rewrite String.eqb_refl. apply orb_true_r.
  - unfold df4, set_updated_at_for_paid. cbn [rows]. subst rows3.
    rewrite !map_map. cbn. reflexivity.
  - intros i r' H.
    apply set_updated_at_for_paid_rows in H
      as (r3 & Hin & Hid & Hco & Hst & Hcr & Hpa & Hup).
    cbn [rows] in Hin. apply Hrows3 in Hin as (r & Hin & ->).
    exists r. cbn zeta in *.
    destruct (is_small_amount _); cbn in *;
      (repeat split; [done | congruence ..|]);
      intros Hpaid; rewrite Hpa; apply Hup;
      unfold is_paid in *; cbn; rewrite <- Hst; exact Hpaid.
  - intros i r Hin.
    assert (H3 : exists r3, (i, r3) ∈ rows3
                            /\ Row.id r3 = Row.id r
                            /\ Row.status r3 = Row.status r
                            /\ Row.created_at r3 = Row.created_at r
                            /\ Row.paid_at r3 = Row.paid_at r).
    { eexists. split; [apply Hrows3; eauto |]. cbn zeta.
      destruct (is_small_amount _); repeat split. }
    destruct H3 as (r3 & H3 & Hid3 & Hst3 & Hcr3 & Hpa3).
    eexists. split.
    + unfold df4, set_updated_at_for_paid. cbn [rows].
      apply list_elem_of_fmap. exists (i, r3). split; [reflexivity | done].
    + cbn. done.
Qed.

Lemma transform_charges_total (df : DataFrame) :
  (forall c, c ∈ ["id"; "company_id"; "amount"; "status"; "created_at";
                  "updated_at"] -> has_column df c = true) ->
  exists charges_df,
    _transform_charges df = Returned charges_df
    /\ map Charge.id charges_df = map (fun ir => Row.id (snd ir)) (rows df).
Proof.
  intros H. unfold _transform_charges. rewrite require_ok by exact H.
  cbn [mbind outcome_bind]. eexists. split; [reflexivity |].
  rewrite map_map. reflexivity.
Qed.

(** C5, as amended. On a frame that has the paid_at column (as every frame
    of a transform has), every paid row gets its own paid_at as
    updated_at, null included: a paid row without a payment date is left
    with a null updated_at. The fallback to created_at is for a frame
    that has no paid_at column at all; no result shows it, since such a
    frame is returned only when it has no paid row. *)
Theorem paid_rows_are_updated_at_paid_at :
  (forall df : DataFrame,
     has_raw_columns df = true ->
     (forall ir, ir ∈ rows df -> comparable_dates (snd ir) = true) ->
     exists df' issues,
       _apply_business_rules df = Returned (df', issues)
       /\ forall i r, (i, r) ∈ rows df' -> is_paid r = true ->
                      Row.updated_at r = Row.paid_at r)
  /\ (forall (df df' : DataFrame) (issues : list Issue.t),
        has_column df "paid_at" = false ->
        _apply_business_rules df = Returned (df', issues) ->
        forall i r, (i, r) ∈ rows df' -> is_paid r = false).
Proof.
  split.
  - intros df Hcols Hcmp.
    destruct (business_rules_shape df Hcols)
      as (df4 & before & Heq & Hc4 & Hu4 & _ & Hrows & _).
    assert (Hcol : forall c, str_in c raw_columns = true -> has_column df4 c = true)
      by (intros c Hc; apply Hc4, has_raw_columns_elim; done).
    destruct (date_consistency_flags df4) as (issues & Hiss & _);
      try (apply Hcol; reflexivity).
    { intros (i & r') Hin. apply Hrows in Hin
        as (r & Hin & _ & _ & Hst & Hcr & Hpa & _).
      apply drop_duplicates_subset in Hin. specialize (Hcmp _ Hin).
      cbn in *. unfold comparable_dates, is_paid in *.
      rewrite Hst, Hcr, Hpa. exact Hcmp. }
    exists df4, (before ++ issues). split.
    + rewrite Heq, Hiss. reflexivity.
    + intros i r Hin Hpaid.
      apply Hrows in Hin as (r0 & _ & _ & _ & _ & _ & _ & Hup). by apply Hup.
  - intros df df' issues Hno H i r Hin.
    unfold _apply_business_rules in H.
    destruct (check_subset df ["id"]) as [[] |]; [| discriminate H].
    destruct (require df ["name"]) as [[] |]; [| discriminate H].
    destruct (require df ["amount"]) as [[] |]; [| discriminate H].
    destruct (require df ["status"]) as [[] |]; [| discriminate H].
    cbn [mbind outcome_bind] in H.
    match type of H with
    | context [mkFrame (columns df) ?l] => set (rows3 := l) in H
    end.
    replace (has_column (mkFrame (columns df) rows3) "paid_at") with false in H
      by (symmetry; exact Hno).
    destruct (require (mkFrame (columns df) rows3) ["created_at"]) as [[] |];
      [| discriminate H].
    cbn [mbind outcome_bind] in H.
    set (df4 := set_updated_at_for_paid (mkFrame (columns df) rows3)
                                        Row.created_at) in H.
    destruct (_validate_date_consistency df4) as [date_issues |] eqn:Hdc;
      [| discriminate H].
    cbn [mbind outcome_bind] in H. injection H as <- <-.
    unfold _validate_date_consistency in Hdc.
    destruct (require df4 ["status"]) as [[] |]; [| discriminate Hdc].
    cbn [mbind outcome_bind] in Hdc.
    destruct (List.filter (fun ir => is_paid (snd ir)) (rows df4))
      as [| x l] eqn:Hf.
    + destruct (is_paid r) eqn:Hp; [| reflexivity].
      exfalso. eapply elem_of_nil. rewrite <- Hf.
      apply list_elem_of_In, filter_In. split; [by apply list_elem_of_In | done].
    + exfalso.
      assert (Hmiss : has_column df4 "paid_at" = false).
      { unfold df4, set_updated_at_for_paid, has_column. cbn [columns].
        unfold has_column in Hno.
        match goal with |- context [if ?b then _ else _] => destruct b end;
          [exact Hno |].
        rewrite has_column_app, Hno. reflexivity. }
      destruct (require_missing df4 ["created_at"; "paid_at"] "paid_at")
        as (k & Hk); [apply list_elem_of_further, list_elem_of_here | exact Hmiss |].
      rewrite Hk in Hdc. discriminate Hdc.
Qed.

(** C8, as amended. A frame with the columns of the staging table and
    comparable dates goes through the business rules. If a row that
    survives the removal of duplicate ids is paid and has its payment
    before its creation, a [date_consistency_error] issue is recorded,
    the row is still in the frame the rules return, and the charges made
    of that frame are as many as the rows that survived and include the
    charge of that row. *)
Theorem early_payment_is_flagged_not_dropped
    (df : DataFrame) (i : nat) (r : Row.t) (c p : Datetime.datetime) :
  has_raw_columns df = true ->
  (forall ir, ir ∈ rows df -> comparable_dates (snd ir) = true) ->
  (i, r) ∈ drop_duplicates (fun ir : nat * Row.t => Row.id (snd ir)) []
                           (rows df) ->
  is_paid r = true ->
  Row.created_at r = DParsed c ->
  Row.paid_at r = DParsed p ->
  Datetime.ltb p c = true ->
  exists df' issues charges_df,
    _apply_business_rules df = Returned (df', issues)
    /\ (exists n, 0 < n
                  /\ Issue.business_rule "date_consistency_error" n ∈ issues)
    /\ (exists r', (i, r') ∈ rows df' /\ Row.id r' = Row.id r)
    /\ _transform_charges df' = Returned charges_df
    /\ length charges_df
       = length (drop_duplicates (fun ir : nat * Row.t => Row.id (snd ir)) []
                                 (rows df))
    /\ Row.id r ∈ map Charge.id charges_df.
Proof.
  intros Hcols Hcmp Hin Hpaid Hcr Hpa Hlt.
  destruct (business_rules_shape df Hcols)
    as (df4 & before & Heq & Hc4 & Hu4 & Hlabels & Hrows & Hkept).
  assert (Hcol : forall c, str_in c raw_columns = true -> has_column df4 c = true)
    by (intros x Hx; apply Hc4, has_raw_columns_elim; done).
  destruct (date_consistency_flags df4) as (issues & Hiss & Hflag);
    try (apply Hcol; reflexivity).
  { intros (j & r') Hj. apply Hrows in Hj
      as (r0 & Hj & _ & _ & Hst & Hcr0 & Hpa0 & _).
    apply drop_duplicates_subset in Hj. specialize (Hcmp _ Hj).
    cbn in *. unfold comparable_dates, is_paid in *.
    rewrite Hst, Hcr0, Hpa0. exact Hcmp. }
  destruct (Hkept i r Hin) as (r' & Hin' & Hid' & Hst' & Hcr' & Hpa').
  assert (Hpaid' : is_paid r' = true)
    by (unfold is_paid in *; rewrite Hst'; exact Hpaid).
  destruct (Hflag i r' c p Hin' Hpaid' ltac:(congruence) ltac:(congruence) Hlt)
    as (n & Hn & ->).
  destruct (transform_charges_total df4) as (charges_df & Hch & Hids).
  { intros x Hx. rewrite !elem_of_cons in Hx.
    destruct Hx as [-> | [-> | [-> | [-> | [-> | [-> | Hx]]]]]];
      try (apply Hcol; reflexivity);
      [exact Hu4 | by apply elem_of_nil in Hx]. }
  exists df4, (before ++ [Issue.business_rule "date_consistency_error" n]),
         charges_df.
  split; [rewrite Heq, Hiss; reflexivity |].
  split; [exists n; split; [done | apply elem_of_app; right; apply list_elem_of_here] |].
  split; [eauto |].
  split; [done |].
  split.
  - rewrite <- (length_map Charge.id), Hids, length_map.
    rewrite <- (length_map fst), Hlabels, length_map. reflexivity.
  - rewrite Hids, <- Hid'. apply list_elem_of_fmap. exists (i, r').
    split; [reflexivity | done].
Qed.

End BusinessRules.

(** ** The transformer: loading *)

Section Loading.
Import Py PyDecimal Transformer.

Variable company_check : Company.t -> bool.
Variable charge_check : Charge.t -> bool.

Lemma companies_loop_spec (db : Database) (companies_df : list Company.t) :
  forall pending n,
    companies_loop db companies_df pending n
    = (pending
       ++ List.filter
            (fun row => negb (company_exists db (Company.company_id row)))
            companies_df,
       n + length (List.filter
                     (fun row => negb (company_exists db (Company.company_id row)))
                     companies_df)).
Proof.
  induction companies_df as [| row rest IH]; intros pending n; cbn.
  - rewrite app_nil_r. f_equal. lia.
  - destruct (company_exists db (Company.company_id row)); cbn; rewrite IH.
    + reflexivity.
    + rewrite <- app_assoc. f_equal. lia.
Qed.

Lemma charges_loop_spec (db : Database) (charges_df : list Charge.t) :
  forall pending n,
    charges_loop db charges_df pending n
    = (pending
       ++ List.filter (fun row => negb (charge_exists db (Charge.id row)))
                      charges_df,
       n + length (List.filter
                     (fun row => negb (charge_exists db (Charge.id row)))
                     charges_df)).
Proof.
  induction charges_df as [| row rest IH]; intros pending n; cbn.
  - rewrite app_nil_r. f_equal. lia.
  - destruct (charge_exists db (Charge.id row)); cbn; rewrite IH.
    + reflexivity.
    + rewrite <- app_assoc. f_equal. lia.
Qed.

Lemma company_exists_lookup (db : Database) (k : string) :
  company_exists db (Some k) = false <-> companies db !! k = None.
Proof.
  cbn. rewrite bool_decide_eq_false, eq_None_not_Some. reflexivity.
Qed.

Lemma charge_exists_lookup (db : Database) (k : string) :
  charge_exists db (Some k) = false <-> charges db !! k = None.
Proof.
  cbn. rewrite bool_decide_eq_false, eq_None_not_Some. reflexivity.
Qed.

(** A flush of companies that succeeds inserts every pending company under
    a key that was free, and leaves every other row of the database as it
    was. *)
Lemma flush_companies_spec (pending : list Company.t) :
  forall db db',
    flush_companies company_check db pending = Returned db' ->
    raw_transactions db' = raw_transactions db
    /\ charges db' = charges db
    /\ (forall k c, companies db !! k = Some c -> companies db' !! k = Some c)
    /\ size (companies db') = size (companies db) + length pending
    /\ Forall (fun c => company_exists db' (Company.company_id c) = true)
              pending.
Proof.
  induction pending as [| c rest IH]; intros db db' H;
    cbn [flush_companies] in H.
  - injection H as <-. repeat split; [done | cbn; lia | constructor].
  - destruct (Company.company_id c) as [k |] eqn:Hk; [| discriminate H].
    destruct (company_exists db (Some k)) eqn:Hfresh; cbn [negb andb] in H;
      [discriminate H |].
    match type of H with
    | (if ?b then _ else _) = _ => destruct b; [| discriminate H]
    end.
    apply company_exists_lookup in Hfresh.
    apply IH in H as (Hraw & Hch & Hkeep & Hsize & Hall). cbn in *.
    repeat split; try done.
    + intros k' c' Hc'. apply Hkeep.
      rewrite lookup_insert_ne; [done |]. intros ->. congruence.
    + rewrite Hsize, map_size_insert_None by done. lia.
    + constructor; [| done]. rewrite Hk. cbn.
      apply bool_decide_eq_true. exists c. apply Hkeep, lookup_insert_eq.
Qed.

Lemma flush_charges_spec (pending : list Charge.t) :
  forall db db',
    flush_charges charge_check db pending = Returned db' ->
    raw_transactions db' = raw_transactions db
    /\ companies db' = companies db
    /\ (forall k c, charges db !! k = Some c -> charges db' !! k = Some c)
    /\ size (charges db') = size (charges db) + length pending
    /\ Forall (fun c => charge_exists db' (Charge.id c) = true) pending.
Proof.
  induction pending as [| c rest IH]; intros db db' H;
    cbn [flush_charges] in H.
  - injection H as <-. repeat split; [done | cbn; lia | constructor].
  - destruct (Charge.id c) as [k |] eqn:Hk; [| discriminate H].
    destruct (charge_exists db (Some k)) eqn:Hfresh; cbn [negb andb] in H;
      [discriminate H |].
    match type of H with
    | (if ?b then _ else _) = _ => destruct b; [| discriminate H]
    end.
    apply charge_exists_lookup in Hfresh.
    apply IH in H as (Hraw & Hco & Hkeep & Hsize & Hall). cbn in *.
    repeat split; try done.
    + intros k' c' Hc'. apply Hkeep.
      rewrite lookup_insert_ne; [done |]. intros ->. congruence.
    + rewrite Hsize, map_size_insert_None by done. lia.
    + constructor; [| done]. rewrite Hk. cbn.
      apply bool_decide_eq_true. exists c. apply Hkeep, lookup_insert_eq.
Qed.

Lemma company_exists_mono (db db' : Database) (k : option string) :
  (forall k c, companies db !! k = Some c -> companies db' !! k = Some c) ->
  company_exists db k = true -> company_exists db' k = true.
Proof.
  intros Hkeep. destruct k as [k |]; cbn; [| done].
  rewrite !bool_decide_eq_true. intros (c & Hc). exists c. by apply Hkeep.
Qed.

Lemma charge_exists_mono (db db' : Database) (k : option string) :
  (forall k c, charges db !! k = Some c -> charges db' !! k = Some c) ->
  charge_exists db k = true -> charge_exists db' k = true.
Proof.
  intros Hkeep. destruct k as [k |]; cbn; [| done].
  rewrite !bool_decide_eq_true. intros (c & Hc). exists c. by apply Hkeep.
Qed.

(** [_load_companies] inserts a company only under a key the table does
    not have; what it returns is the number of rows it inserted; after it
    every company of the frame is in the table. *)
Lemma load_companies_spec (db db' : Database) (companies_df : list Company.t)
    (n : nat) :
  _load_companies company_check db companies_df = Returned (n, db') ->
  raw_transactions db' = raw_transactions db
  /\ charges db' = charges db
  /\ (forall k c, companies db !! k = Some c -> companies db' !! k = Some c)
  /\ size (companies db') = size (companies db) + n
  /\ Forall (fun k => company_exists db' k = true)
            (map Company.company_id companies_df).
Proof.
  unfold _load_companies. rewrite companies_loop_spec. cbn [app Nat.add].
  destruct (flush_companies _ _ _) as [db1 |] eqn:Hflush; [| discriminate].
  cbn [mbind outcome_bind]. intros H. injection H as <- <-.
  apply flush_companies_spec in Hflush as (Hraw & Hch & Hkeep & Hsize & Hall).
  repeat split; try done.
  apply Forall_fmap, Forall_forall. intros row Hin. cbn.
  destruct (company_exists db (Company.company_id row)) eqn:Hex.
  - eapply company_exists_mono; done.
  - rewrite Forall_forall in Hall. apply Hall.
    apply list_elem_of_In, filter_In. split; [by apply list_elem_of_In |].
    rewrite Hex. reflexivity.
Qed.

Lemma load_charges_spec (db db' : Database) (charges_df : list Charge.t)
    (n : nat) :
  _load_charges charge_check db charges_df = Returned (n, db') ->
  raw_transactions db' = raw_transactions db
  /\ companies db' = companies db
  /\ (forall k c, charges db !! k = Some c -> charges db' !! k = Some c)
  /\ size (charges db') = size (charges db) + n
  /\ Forall (fun k => charge_exists db' k = true) (map Charge.id charges_df).
Proof.
  unfold _load_charges. rewrite charges_loop_spec. cbn [app Nat.add].
  destruct (flush_charges _ _ _) as [db1 |] eqn:Hflush; [| discriminate].
  cbn [mbind outcome_bind]. intros H. injection H as <- <-.
  apply flush_charges_spec in Hflush as (Hraw & Hco & Hkeep & Hsize & Hall).
  repeat split; try done.
  apply Forall_fmap, Forall_forall. intros row Hin. cbn.
  destruct (charge_exists db (Charge.id row)) eqn:Hex.
  - eapply charge_exists_mono; done.
  - rewrite Forall_forall in Hall. apply Hall.
    apply list_elem_of_In, filter_In. split; [by apply list_elem_of_In |].
    rewrite Hex. reflexivity.
Qed.

(** When every company of the frame is in the table already, nothing is
    inserted. *)
Lemma load_companies_present (db : Database) (companies_df : list Company.t) :
  Forall (fun k => company_exists db k = true)
         (map Company.company_id companies_df) ->
  _load_companies company_check db companies_df = Returned (0, db).
Proof.
  intros H. unfold _load_companies. rewrite companies_loop_spec.
  replace (List.filter _ companies_df) with (@nil Company.t); [reflexivity |].
  symmetry. apply Forall_fmap in H. induction H as [| row rest Hrow _ IH]; cbn.
  - reflexivity.
  - cbn in Hrow. rewrite Hrow. exact IH.
Qed.

Lemma load_charges_present (db : Database) (charges_df : list Charge.t) :
  Forall (fun k => charge_exists db k = true) (map Charge.id charges_df) ->
  _load_charges charge_check db charges_df = Returned (0, db).
Proof.
  intros H. unfold _load_charges. rewrite charges_loop_spec.
  replace (List.filter _ charges_df) with (@nil Charge.t); [reflexivity |].
  symmetry. apply Forall_fmap in H. induction H as [| row rest Hrow _ IH]; cbn.
  - reflexivity.
  - cbn in Hrow. rewrite Hrow. exact IH.
Qed.

Lemma extract_companies_ids (df : DataFrame) (now now' : Datetime.datetime)
    (companies_df : list Company.t) :
  _extract_companies df now = Returned companies_df ->
  exists companies_df',
    _extract_companies df now' = Returned companies_df'
    /\ map Company.company_id companies_df'
       = map Company.company_id companies_df.
Proof.
  unfold _extract_companies.
  destruct (require df _) as [[] |]; [| discriminate].
  cbn [mbind outcome_bind]. intros H. injection H as <-.
  eexists. split; [reflexivity |]. rewrite !map_map. reflexivity.
Qed.

Variable strptime : string -> string -> option Datetime.datetime.
Variable to_datetime : string -> option Datetime.datetime.
Variable str_of_datetime : Datetime.datetime -> string.

(** C1. The transform inserts if absent. A run that completes leaves every
    company and every charge that was in the tables as it was, and the
    counts it reports are the numbers of rows it added to each table. A
    second run over the same raw data, on the tables the first run
    committed, completes as well, changes nothing and creates zero
    companies and zero charges. *)
Theorem transform_twice_creates_nothing
    (db db' : Database) (validate_data apply_business_rules : bool)
    (now now' : Datetime.datetime) (report : TransformationReport) :
  transform_to_schema company_check charge_check strptime to_datetime
    str_of_datetime db validate_data apply_business_rules now
  = Returned (report, db') ->
  raw_transactions db' = raw_transactions db
  /\ (forall k c, companies db !! k = Some c -> companies db' !! k = Some c)
  /\ (forall k c, charges db !! k = Some c -> charges db' !! k = Some c)
  /\ size (companies db') = size (companies db) + companies_created report
  /\ size (charges db') = size (charges db) + charges_created report
  /\ exists report',
       transform_to_schema company_check charge_check strptime to_datetime
         str_of_datetime db' validate_data apply_business_rules now'
       = Returned (report', db')
       /\ companies_created report' = 0
       /\ charges_created report' = 0.
Proof.
  unfold transform_to_schema.
  rewrite get_transaction_returned.
  setoid_rewrite get_transaction_returned.
  destruct (length (raw_transactions db) =? 0)%nat eqn:Hempty.
  - intros H. injection H as <- <-. cbn. rewrite Hempty.
    split; [done |]. split; [done |]. split; [done |].
    split; [lia |]. split; [lia |]. eexists. repeat split.
  - set (frame := _raw_data_to_dataframe (raw_transactions db)).
    destruct (if validate_data then _ else _) as [[df1 issues1] |] eqn:Hv;
      [| discriminate].
    cbn [mbind outcome_bind].
    destruct (if apply_business_rules then _ else _) as [[df2 issues2] |] eqn:Hb;
      [| discriminate].
    cbn [mbind outcome_bind].
    destruct (_extract_companies df2 now) as [companies_df |] eqn:Hx;
      [| discriminate].
    cbn [mbind outcome_bind].
    destruct (_load_companies company_check db companies_df)
      as [[created1 db1] |] eqn:Hlc; [| discriminate].
    cbn [mbind outcome_bind].
    destruct (_transform_charges df2) as [charges_df |] eqn:Ht;
      [| discriminate].
    cbn [mbind outcome_bind].
    destruct (_load_charges charge_check db1 charges_df)
      as [[created2 db2] |] eqn:Hlh; [| discriminate].
    cbn [mbind outcome_bind].
    intros H. injection H as <- <-. cbn.
    apply load_companies_spec in Hlc as (Hraw1 & Hch1 & Hkeep1 & Hsize1 & Hall1).
    apply load_charges_spec in Hlh as (Hraw2 & Hco2 & Hkeep2 & Hsize2 & Hall2).
    assert (Hraw : raw_transactions db2 = raw_transactions db) by congruence.
    split; [exact Hraw |].
    split; [intros k c Hc; rewrite Hco2; by apply Hkeep1 |].
    split; [intros k c Hc; apply Hkeep2; rewrite Hch1; exact Hc |].
    split; [rewrite Hco2; exact Hsize1 |].
    split; [rewrite Hsize2, Hch1; reflexivity |].
    rewrite Hraw, Hempty. fold frame. rewrite Hv. cbn [mbind outcome_bind].
    rewrite Hb. cbn [mbind outcome_bind].
    destruct (extract_companies_ids df2 now now' companies_df Hx)
      as (companies_df' & Hx' & Hids).
    rewrite Hx'. cbn [mbind outcome_bind].
    rewrite (load_companies_present db2 companies_df'); cycle 1.
    { rewrite Hids. eapply Forall_impl; [exact Hall1 |].
      intros k Hk. eapply company_exists_mono; [| exact Hk].
      intros k' c'. rewrite Hco2. done. }
    cbn [mbind outcome_bind]. rewrite Ht. cbn [mbind outcome_bind].
    rewrite (load_charges_present db2 charges_df) by exact Hall2.
    cbn [mbind outcome_bind]. eexists. repeat split.
Qed.

Lemma validated_frame_columns (raw_data : list RawTransaction.t)
    (df1 : DataFrame) (issues1 : list Issue.t) (x : nat * Row.t) :
  _validate_transformed_data strptime to_datetime str_of_datetime
    (_raw_data_to_dataframe raw_data)
  = Returned (df1, issues1) ->
  x ∈ rows df1 ->
  has_raw_columns df1 = true.
Proof.
  unfold _validate_transformed_data, _raw_data_to_dataframe.
  destruct raw_data as [| tx raw_data].
  - cbn. intros H Hin. injection H as <- <-. by apply elem_of_nil in Hin.
  - cbn [rows columns].
    destruct (reindex (map row_of_raw (tx :: raw_data))) as [| y l] eqn:Hre;
      [discriminate Hre |].
    rewrite <- Hre. clear Hre y l.
    destruct (require _ _) as [[] |]; [| discriminate].
    cbn [mbind outcome_bind].
    destruct (validate_loop _ _ _ _) as [valid_rows validation_issues].
    destruct valid_rows as [| v valid_rows].
    + intros H Hin. injection H as <- <-. by apply elem_of_nil in Hin.
    + intros H _. injection H as <- <-. reflexivity.
Qed.

(** The same through a whole transform with validation and business
    rules on. If the transform completes and a row of the validated frame
    survives the removal of duplicate ids, is paid and has its payment
    before its creation, then the report lists a
    [date_consistency_error] issue, the number of transformed rows is the
    number of rows that survived, and the charge of that row is in the
    charges table. *)
Lemma early_payment_through_any_transform
    (db db' : Database) (now : Datetime.datetime)
    (report : TransformationReport) (df1 : DataFrame)
    (issues1 : list Issue.t) (i : nat) (r : Row.t)
    (c p : Datetime.datetime) :
  transform_to_schema company_check charge_check strptime to_datetime
    str_of_datetime db true true now
  = Returned (report, db') ->
  _validate_transformed_data strptime to_datetime str_of_datetime
    (_raw_data_to_dataframe (raw_transactions db))
  = Returned (df1, issues1) ->
  (i, r) ∈ drop_duplicates (fun ir : nat * Row.t => Row.id (snd ir)) []
                           (rows df1) ->
  is_paid r = true ->
  Row.created_at r = DParsed c ->
  Row.paid_at r = DParsed p ->
  Datetime.ltb p c = true ->
  (exists n, 0 < n
             /\ Issue.business_rule "date_consistency_error" n
                ∈ data_quality_issues report)
  /\ transformed_rows report
     = length (drop_duplicates (fun ir : nat * Row.t => Row.id (snd ir)) []
                               (rows df1))
  /\ charge_exists db' (Row.id r) = true.
Proof.
  intros H Hv Hin Hpaid Hcr Hpa Hlt.
  assert (Hcols : has_raw_columns df1 = true).
  { eapply validated_frame_columns; [exact Hv |].
    eapply drop_duplicates_subset. exact Hin. }
  unfold transform_to_schema in H. apply get_transaction_returned in H.
  destruct (length (raw_transactions db) =? 0)%nat eqn:Hempty.
  { apply Nat.eqb_eq, length_zero_iff_nil in Hempty. rewrite Hempty in Hv.
    cbn in Hv. injection Hv as <- <-. by apply elem_of_nil in Hin. }
  rewrite Hv in H. cbn [mbind outcome_bind] in H.
  destruct (business_rules_shape df1 Hcols)
    as (df4 & before & Heq & Hc4 & Hu4 & Hlabels & Hrows & Hkept).
  rewrite Heq in H.
  destruct (_validate_date_consistency df4) as [date_issues |] eqn:Hdc;
    [| discriminate H].
  cbn [mbind outcome_bind] in H.
  destruct (Hkept i r Hin) as (r' & Hin' & Hid' & Hst' & Hcr' & Hpa').
  assert (Hpaid' : is_paid r' = true)
    by (unfold is_paid in *; rewrite Hst'; exact Hpaid).
  destruct (date_consistency_sound df4 date_issues Hdc i r' c p Hin' Hpaid'
              ltac:(congruence) ltac:(congruence) Hlt) as (n & Hn & ->).
  destruct (_extract_companies df4 now) as [companies_df |];
    [| discriminate H].
  cbn [mbind outcome_bind] in H.
  destruct (_load_companies company_check db companies_df)
    as [[created1 db1] |]; [| discriminate H].
  cbn [mbind outcome_bind] in H.
  destruct (_transform_charges df4) as [charges_df |] eqn:Ht;
    [| discriminate H].
  cbn [mbind outcome_bind] in H.
  destruct (_load_charges charge_check db1 charges_df)
    as [[created2 db2] |] eqn:Hlh; [| discriminate H].
  cbn [mbind outcome_bind] in H. injection H as <- <-. cbn.
  assert (Hids : map Charge.id charges_df
                 = map (fun ir : nat * Row.t => Row.id (snd ir)) (rows df4)).
  { unfold _transform_charges in Ht.
    destruct (require df4 _) as [[] |]; [| discriminate Ht].
    cbn [mbind outcome_bind] in Ht. injection Ht as <-.
    rewrite map_map. reflexivity. }
  split; [| split].
  - exists n. split; [done |]. rewrite !elem_of_app. right. right.
    apply list_elem_of_here.
  - rewrite <- (length_map Charge.id), Hids, length_map.
    rewrite <- (length_map fst), Hlabels, length_map. reflexivity.
  - apply load_charges_spec in Hlh as (_ & _ & _ & _ & Hall).
    rewrite Forall_forall in Hall. apply Hall.
    rewrite Hids, <- Hid'. apply list_elem_of_fmap. exists (i, r').
    split; [reflexivity | done].
Qed.

End Loading.

(** ** The transformer on sample data *)

Section TransformerExamples.
Import Py PyDecimal Transformer Examples.

(** A paid row without a payment date: the rules return it with a null
    updated_at, not with its created_at. *)
Lemma paid_without_date_keeps_null_updated_at :
  exists df' issues,
    _apply_business_rules (frame_of [paid_without_date]) = Returned (df', issues)
    /\ map (fun ir : nat * Row.t =>
              (Row.status (snd ir), Row.created_at (snd ir),
               Row.paid_at (snd ir), Row.updated_at (snd ir)))
           (rows df')
       = [(Some "paid", DParsed (date 2020 1 1), DNull, DNull)].
Proof. eexists _, _. split; vm_compute; reflexivity. Qed.

(** A frame of one paid row with an early payment. *)
Lemma early_payment_is_flagged_not_dropped_witness :
  exists df' issues charges_df,
    _apply_business_rules (frame_of [paid_too_early]) = Returned (df', issues)
    /\ (exists n, 0 < n
                  /\ Issue.business_rule "date_consistency_error" n ∈ issues)
    /\ (exists r', (0, r') ∈ rows df' /\ Row.id r' = Row.id paid_too_early)
    /\ _transform_charges df' = Returned charges_df
    /\ length charges_df
       = length (drop_duplicates (fun ir : nat * Row.t => Row.id (snd ir)) []
                                 (rows (frame_of [paid_too_early])))
    /\ Row.id paid_too_early ∈ map Charge.id charges_df.
Proof.
  apply (early_payment_is_flagged_not_dropped (frame_of [paid_too_early]) 0
           paid_too_early (date 2020 1 2) (date 2020 1 1)).
  - reflexivity.
  - intros ir Hin. apply list_elem_of_singleton in Hin. rewrite Hin. reflexivity.
  - apply list_elem_of_here.
  - reflexivity.
  - reflexivity.
  - reflexivity.
  - reflexivity.
Defined.

(** Two staging rows whose ids differ by a trailing space have the same
    cleaned id. The second is paid one day before it was created, and the
    removal of duplicates drops it: the transform records no
    [date_consistency_error] and makes a single charge, that of the first
    row. The same happens to a frame with two rows of one id. *)
Lemma duplicate_early_payment_is_dropped :
  (exists cleaned_row,
     Validation.cleaned_value
       (_validate_row_for_transformation strptime_ymd no_fallback
          str_of_datetime
          (row_of_raw (raw "a1 " (Some "2020-01-02") (Some "2020-01-01"))) 1)
     = Some cleaned_row
     /\ Row.id cleaned_row = Some "a1"
     /\ Row.status cleaned_row = Some "paid"
     /\ Row.created_at cleaned_row = DParsed (date 2020 1 2)
     /\ Row.paid_at cleaned_row = DParsed (date 2020 1 1))
  /\ (exists report db,
        transform db_same_clean_id = Returned (report, db)
        /\ data_quality_issues report
           = [Issue.business_rule "duplicates_removed" 1]
        /\ transformed_rows report = 1
        /\ charges_created report = 1
        /\ Charge.updated_at <$> (charges db !! "a1")
           = Some (DParsed (date 2020 1 3)))
  /\ (exists df' issues,
        _apply_business_rules (frame_of [paid_in_order; paid_too_early])
        = Returned (df', issues)
        /\ issues = [Issue.business_rule "duplicates_removed" 1]
        /\ map (fun ir : nat * Row.t => Row.paid_at (snd ir)) (rows df')
           = [DParsed (date 2020 1 3)]).
Proof.
  split; [| split].
  - eexists. split; [vm_compute; reflexivity |]. repeat split.
  - eexists _, _. split; [vm_compute; reflexivity |]. repeat split.
  - eexists _, _. split; [vm_compute; reflexivity |]. split; reflexivity.
Qed.

(** A single paid row with an early payment, through the whole transform:
    the issue is recorded and the charge is made. *)
Lemma early_payment_through_transform :
  exists report db,
    transform db_one_early = Returned (report, db)
    /\ data_quality_issues report
       = [Issue.business_rule "date_consistency_error" 1]
    /\ transformed_rows report = 1
    /\ charges_created report = 1.
Proof. eexists _, _. split; [vm_compute; reflexivity |]. repeat split. Qed.

(** The transform of one staging row completes, and so does a second run
    on the database it leaves, which creates nothing. *)
Lemma transform_twice_creates_nothing_witness :
  match transform db_one_early with
  | Returned (report, db') =>
      exists report',
        transform_to_schema any_company any_charge strptime_ymd no_fallback
          str_of_datetime db' true true (date 2024 1 2)
        = Returned (report', db')
        /\ companies_created report' = 0
        /\ charges_created report' = 0
  | Raised _ => False
  end.
Proof.
  destruct (transform db_one_early) as [[report db'] | e] eqn:H.
  - unfold transform in H.
    exact (proj2 (proj2 (proj2 (proj2 (proj2
             (transform_twice_creates_nothing any_company any_charge
                strptime_ymd no_fallback str_of_datetime db_one_early db'
                true true (date 2024 1 1) (date 2024 1 2) report H)))))).
  - vm_compute in H. discriminate H.
Defined.

End TransformerExamples.

(** ** The number set *)

Section NumberSetProperties.
Import NumberSetError NumberSet.

Local Open Scope Z_scope.

Lemma elem_of_initial_numbers (n k : Z) :
  k ∈ initial_numbers n <-> 1 <= k <= n.
Proof.
  unfold initial_numbers. rewrite elem_of_list_to_set, elem_of_seqZ. lia.
Qed.

Lemma sum_disj_union (X Y : gset Z) :
  X ## Y -> sum (X ∪ Y) = sum X + sum Y.
Proof.
  intros Hdisj. unfold sum.
  rewrite (set_fold_disj_union (C := gset Z) Z.add 0 X Y _ _ Hdisj).
  rewrite <- (Z.add_0_r (set_fold Z.add 0 X)) at 1.
  rewrite (set_fold_comm_acc Z.add (Z.add (set_fold Z.add 0 X)) 0 Y);
    [reflexivity | intros; lia].
Qed.

Lemma sum_singleton (n : Z) : sum {[n]} = n.
Proof. unfold sum. rewrite set_fold_singleton. lia. Qed.

Lemma initial_numbers_succ (n : Z) :
  0 <= n -> initial_numbers (n + 1) = {[n + 1]} ∪ initial_numbers n.
Proof.
  intros Hn. apply set_eq. intros k.
  rewrite elem_of_union, elem_of_singleton, !elem_of_initial_numbers. lia.
Qed.

(** The sum of the numbers from 1 to [n]. *)
Lemma sum_initial_numbers (n : Z) :
  0 <= n -> sum (initial_numbers n) = n * (n + 1) / 2.
Proof.
  revert n. apply natlike_ind.
  - reflexivity.
  - intros n Hn IH. unfold Z.succ. rewrite initial_numbers_succ by done.
    rewrite sum_disj_union, sum_singleton, IH.
    + replace ((n + 1) * (n + 1 + 1)) with (n * (n + 1) + (n + 1) * 2) by lia.
      rewrite Z.div_add by lia. lia.
    + apply disjoint_singleton_l. rewrite elem_of_initial_numbers. lia.
Qed.

Lemma init_well_formed (n : Z) (self : t) :
  __init__ n = Returned self -> well_formed self /\ max_number self = n.
Proof.
  unfold __init__. destruct (n <=? 0) eqn:Hn; [done |].
  intros [= <-]. unfold well_formed.
  cbn [max_number numbers extracted_numbers]. apply Z.leb_gt in Hn.
  repeat split; [done | apply disjoint_empty_r | apply (right_id_L ∅ (∪))].
Qed.

Lemma extract_inv (self self' : t) (number : Z) (b : bool) :
  extract self number = Returned (b, self') ->
  b = true
  /\ 1 <= number <= max_number self
  /\ number ∈ numbers self
  /\ self' = mk (max_number self) (numbers self ∖ {[number]})
                ({[number]} ∪ extracted_numbers self).
Proof.
  unfold extract, InputValidator.validate_number_range.
  destruct ((number <? 1) || (max_number self <? number)) eqn:Hr; [done |].
  cbn [mbind number_set_bind].
  case_bool_decide as Hin; [done |].
  intros [= <- <-]. apply orb_false_iff in Hr as [H1 H2].
  apply Z.ltb_ge in H1, H2.
  repeat split; try done; try lia. all: try by apply dec_stable.
Qed.

Lemma extract_well_formed (self self' : t) (number : Z) (b : bool) :
  well_formed self ->
  extract self number = Returned (b, self') ->
  well_formed self'.
Proof.
  intros (Hmax & Hdisj & Hall) H.
  apply extract_inv in H as (_ & _ & Hin & ->).
  unfold well_formed. cbn [max_number numbers extracted_numbers].
  repeat split; [done | |].
  - intros k Hk1 Hk2. apply elem_of_difference in Hk1 as [Hk1 Hne].
    apply elem_of_union in Hk2 as [Hk2 | Hk2]; [done |].
    exact (Hdisj k Hk1 Hk2).
  - rewrite <- Hall. apply set_eq. intros k.
    rewrite !elem_of_union, elem_of_difference, elem_of_singleton.
    destruct (decide (k = number)) as [-> |]; tauto.
Qed.

Lemma reset_well_formed (self : t) :
  0 < max_number self -> well_formed (reset self).
Proof.
  intros H. unfold well_formed, reset.
  cbn [max_number numbers extracted_numbers].
  repeat split; [done | apply disjoint_empty_r | apply (right_id_L ∅ (∪))].
Qed.

Lemma after_well_formed (self : t) (c : call) :
  well_formed self -> well_formed (after self c).
Proof.
  intros Hwf. destruct c as [number |]; cbn.
  - destruct (extract self number) as [[b self'] |] eqn:H; [| done].
    by eapply extract_well_formed.
  - apply reset_well_formed, Hwf.
Qed.

Lemma after_max_number (self : t) (c : call) :
  max_number (after self c) = max_number self.
Proof.
  destruct c as [number |]; cbn; [| done].
  destruct (extract self number) as [[b self'] |] eqn:H; [| done].
  by apply extract_inv in H as (_ & _ & _ & ->).
Qed.

Lemma history_well_formed (calls : list call) (self : t) :
  well_formed self ->
  well_formed (foldl after self calls)
  /\ max_number (foldl after self calls) = max_number self.
Proof.
  revert self. induction calls as [| c calls IH]; intros self Hwf; [done |].
  cbn. destruct (IH (after self c) (after_well_formed _ _ Hwf)) as [H1 H2].
  split; [done |]. by rewrite H2, after_max_number.
Qed.

(** After any history of calls on a new [NumberSet(n)], every number from
    1 to [n] is in exactly one of [numbers] and [extracted_numbers], so
    that [count_remaining() + count_extracted()] is [n]. *)
Theorem number_set_partition (n : Z) (self0 : t) (calls : list call) :
  __init__ n = Returned self0 ->
  let self := foldl after self0 calls in
  (forall k, 1 <= k <= n <->
             (k ∈ numbers self /\ k ∉ extracted_numbers self)
             \/ (k ∈ extracted_numbers self /\ k ∉ numbers self))
  /\ Z.of_nat (count_remaining self + count_extracted self) = n.
Proof.
  intros Hinit self. apply init_well_formed in Hinit as [Hwf Hn].
  destruct (history_well_formed calls self0 Hwf) as [(Hmax & Hdisj & Hall) Hm].
  fold self in Hmax, Hdisj, Hall, Hm. rewrite Hn in Hm. rewrite Hm in *.
  split.
  - intros k. rewrite <- elem_of_initial_numbers, <- Hall, elem_of_union.
    split.
    + intros [Hk | Hk]; [left | right]; (split; [done |]);
        intros Hk'; by eapply Hdisj.
    + tauto.
  - unfold count_remaining, count_extracted.
    rewrite <- size_union by done. rewrite Hall.
    unfold initial_numbers. rewrite size_list_to_set by apply NoDup_seqZ.
    rewrite length_seqZ. lia.
Qed.

Lemma number_set_partition_witness :
  __init__ 3 = Returned (mk 3 (initial_numbers 3) ∅)
  /\ Z.of_nat
       (count_remaining
          (foldl after (mk 3 (initial_numbers 3) ∅) [Extract 2; Extract 7])
        + count_extracted
            (foldl after (mk 3 (initial_numbers 3) ∅) [Extract 2; Extract 7]))
     = 3.
Proof.
  split; [reflexivity |].
  exact (proj2 (number_set_partition 3 (mk 3 (initial_numbers 3) ∅)
                  [Extract 2; Extract 7] eq_refl)).
Defined.

(** Whatever the history of calls on a new [NumberSet(n)], when exactly
    one number is extracted [find_missing_number()] returns it. *)
Theorem find_missing_number_is_the_extracted_one
    (n : Z) (self0 : t) (calls : list call) (missing : Z) :
  __init__ n = Returned self0 ->
  extracted_numbers (foldl after self0 calls) = {[missing]} ->
  find_missing_number (foldl after self0 calls) = Returned missing.
Proof.
  intros Hinit Hone. apply init_well_formed in Hinit as [Hwf Hn].
  destruct (history_well_formed calls self0 Hwf) as [(Hmax & Hdisj & Hall) Hm].
  unfold find_missing_number. rewrite Hone in *. rewrite size_singleton. cbn.
  f_equal.
  rewrite <- (sum_initial_numbers (max_number (foldl after self0 calls)))
    by lia.
  rewrite <- Hall, sum_disj_union, sum_singleton by done. lia.
Qed.

Lemma find_missing_number_is_the_extracted_one_witness :
  __init__ 100 = Returned (mk 100 (initial_numbers 100) ∅)
  /\ find_missing_number
       (foldl after (mk 100 (initial_numbers 100) ∅)
              [Extract 7; Reset; Extract 42])
     = Returned 42.
Proof.
  split; [reflexivity |].
  apply (find_missing_number_is_the_extracted_one 100
           (mk 100 (initial_numbers 100) ∅) [Extract 7; Reset; Extract 42] 42
           eq_refl).
  vm_compute. reflexivity.
Defined.

(** A number is extracted once: after a call of [extract] that returned,
    a second call with the same number raises
    [NumberAlreadyExtractedError], and so does every later one until the
    object is reset. *)
Theorem extract_twice_raises (self self' : t) (number : Z) (b : bool)
    (numbers_extracted_since : list Z) :
  extract self number = Returned (b, self') ->
  extract (foldl after self' (map Extract numbers_extracted_since)) number
  = Raised (NumberAlreadyExtractedError number).
Proof.
  intros H. apply extract_inv in H as (_ & Hrange & _ & ->).
  set (s := mk _ _ _).
  assert (Hs : max_number s = max_number self /\ number ∉ numbers s).
  { cbn. split; [done |]. rewrite elem_of_difference, elem_of_singleton.
    intros [_ Hne]. by apply Hne. }
  clearbody s. revert s Hs.
  induction numbers_extracted_since as [| k ks IH]; intros s [Hmax Hnot]; cbn.
  - unfold extract, InputValidator.validate_number_range. rewrite Hmax.
    replace ((number <? 1) || (max_number self <? number)) with false
      by (symmetry; apply orb_false_iff; split; apply Z.ltb_ge; lia).
    cbn [mbind number_set_bind]. by rewrite bool_decide_true.
  - apply IH.
    destruct (extract s k) as [[b' s'] |] eqn:Hk; [| done].
    apply extract_inv in Hk as (_ & _ & _ & ->). cbn. split; [done |].
    rewrite elem_of_difference. tauto.
Qed.

Lemma extract_twice_raises_witness :
  extract (mk 10 (initial_numbers 10) ∅) 5
  = Returned (true, mk 10 (initial_numbers 10 ∖ {[5]}) ({[5]} ∪ ∅))
  /\ extract
       (foldl after (mk 10 (initial_numbers 10 ∖ {[5]}) ({[5]} ∪ ∅))
              (map Extract [9; 5; 200]))
       5
     = Raised (NumberAlreadyExtractedError 5).
Proof.
  split; [reflexivity |].
  apply (extract_twice_raises (mk 10 (initial_numbers 10) ∅) _ 5 true
           [9; 5; 200]).
  reflexivity.
Defined.

End NumberSetProperties.

(** ** The other validators *)

Section StringLemmas.
Import Py.

Lemma string_length_take (n : nat) (s : string) :
  String.length (take n s) = Nat.min n (String.length s).
Proof.
  revert s. induction n as [| n IH]; intros [| c s]; cbn; try done.
  by rewrite IH.
Qed.

Lemma truthy_length (s : string) : truthy s = true <-> 0 < String.length s.
Proof. destruct s; cbn; split; intros; (done || lia). Qed.

End StringLemmas.

Section ValidatorShapes.
Import Py PyDecimal Validation.

Lemma negative_zero_coefficient (c : N) (e : Z) :
  lt (Finite true c e) zero = Some false -> c = 0%N.
Proof.
  unfold lt, zero, scaled. intros [= H]. apply Z.ltb_ge in H.
  rewrite Z.mul_0_l in H.
  assert (0 < 10 ^ (e - Z.min e 0))%Z by (apply Z.pow_pos_nonneg; lia).
  nia.
Qed.

Lemma lt_zero_of_zero (sign : bool) (e : Z) :
  lt (Finite sign 0 e) zero = Some false.
Proof.
  unfold lt, zero, scaled. cbn [Z.of_N]. rewrite Z.mul_0_l.
  by destruct sign.
Qed.

Lemma quantize_not_negative (sign : bool) (c : N) (e q : Z) (d : Decimal) :
  lt (Finite sign c e) zero = Some false ->
  quantize (Finite sign c e) q = Some d ->
  exists c', d = Finite sign c' q /\ lt d zero = Some false.
Proof.
  intros Hlt Hq. unfold quantize in Hq.
  destruct (c =? 0)%N eqn:Hc.
  - injection Hq as <-. eexists. split; [done | apply lt_zero_of_zero].
  - destruct (more_digits_than c (prec + q - e)); [done |].
    destruct (more_digits_than (rescale c e q) prec); [done |].
    injection Hq as <-. eexists. split; [done |].
    destruct sign; [| apply lt_zero_nonneg].
    apply negative_zero_coefficient in Hlt. apply N.eqb_neq in Hc. done.
Qed.

(** What [validate_amount] returns for an amount that is given: the
    result is valid and its cleaned value is a finite decimal that is not
    negative and has at most two fractional digits; the only warning
    there can be is the one about rounding. *)
Lemma validate_amount_shape (s : string) (allow_zero : bool)
    (r : ValidationResult Decimal) :
  validate_amount (Some s) allow_zero = Returned r ->
  is_valid r = true
  /\ errors r = []
  /\ (warnings r = [] \/ warnings r = [rounded_warning])
  /\ exists sign coeff exp,
       cleaned_value r = Some (Finite sign coeff exp)
       /\ (-2 <= exp)%Z
       /\ lt (Finite sign coeff exp) zero = Some false.
Proof.
  unfold validate_amount.
  destruct (of_string s) as [d |]; [| done].
  destruct (lt d zero) as [[|] |] eqn:Hlt; try done.
  destruct (negb allow_zero && is_zero d); [done |].
  destruct d as [sign c e | |]; try done.
  destruct (e <? -2)%Z eqn:He.
  - destruct (quantize (Finite sign c e) (-2)) as [q |] eqn:Hq; [| done].
    intros [= <-]. cbn.
    destruct (quantize_not_negative _ _ _ _ _ Hlt Hq) as (c' & -> & Hq').
    repeat split; [by right |]. by exists sign, c', (-2)%Z.
  - intros [= <-]. cbn. apply Z.ltb_ge in He.
    repeat split; [by left |]. by exists sign, c, e.
Qed.

(** An amount that [validate_amount] returns is never negative, never a
    NaN or an infinity, and never has more than two fractional digits:
    the call raises in every other case. *)
Theorem validate_amount_returns_currency (s : string) (allow_zero : bool)
    (r : ValidationResult Decimal) :
  validate_amount (Some s) allow_zero = Returned r ->
  is_valid r = true
  /\ errors r = []
  /\ exists sign coeff exp,
       cleaned_value r = Some (Finite sign coeff exp)
       /\ (-2 <= exp)%Z
       /\ lt (Finite sign coeff exp) zero = Some false.
Proof.
  intros H. apply validate_amount_shape in H as (H1 & H2 & _ & H3). done.
Qed.

Lemma validate_amount_returns_currency_witness :
  validate_amount (Some "12.345") false
  = Returned (mkResult true [] [rounded_warning]
                       (Some (Finite false 1234 (-2))))
  /\ is_valid (mkResult true [] [rounded_warning]
                        (Some (Finite false 1234 (-2)))) = true.
Proof.
  split; [vm_compute; reflexivity |].
  exact (proj1 (validate_amount_returns_currency "12.345" false _
                  ltac:(vm_compute; reflexivity))).
Defined.

Lemma valid_status_cases (c : string) :
  str_in c VALID_STATUSES = true ->
  c = "paid" \/ c = "pending_payment" \/ c = "voided" \/ c = "refunded"
  \/ c = "pre_authorized" \/ c = "charged_back".
Proof.
  unfold str_in, VALID_STATUSES. cbn [existsb]. intros H.
  repeat (apply orb_true_iff in H as [H | H];
          [apply String.eqb_eq in H; tauto |]).
  discriminate H.
Qed.

Lemma valid_status_fixed (c : string) :
  str_in c VALID_STATUSES = true ->
  lower (strip c) = c /\ truthy c = true /\ String.length c <= 15.
Proof.
  intros H. apply valid_status_cases in H.
  destruct H as [-> | [-> | [-> | [-> | [-> | ->]]]]];
    (split; [reflexivity | split; [reflexivity | cbn; lia]]).
Qed.

Lemma validate_status_shape (s : string) (r : ValidationResult string) :
  validate_status (Some s) = Returned r ->
  is_valid r = true ->
  str_in (lower (strip s)) VALID_STATUSES = true
  /\ r = set_cleaned_value (lower (strip s)) new_result.
Proof.
  unfold validate_status. destruct s as [| a s']; [by intros [= <-] |].
  set (s := String a s').
  destruct (negb (truthy (lower (strip s)))); [by intros [= <-] |].
  destruct (str_in (lower (strip s)) VALID_STATUSES); [| done].
  by intros [= <-].
Qed.

(** A status that [validate_status] accepts is cleaned to one of the six
    statuses, written in lower case without surrounding blanks, and the
    cleaned status is accepted again unchanged. *)
Theorem validate_status_normalises (s : string) (r : ValidationResult string) :
  validate_status (Some s) = Returned r ->
  is_valid r = true ->
  exists c,
    cleaned_value r = Some c
    /\ c = lower (strip s)
    /\ c ∈ VALID_STATUSES
    /\ validate_status (Some c) = Returned r.
Proof.
  intros H Hv. apply validate_status_shape in H as [Hin ->]; [| done].
  exists (lower (strip s)). split; [done |]. split; [done |].
  split.
  - apply valid_status_cases in Hin. unfold VALID_STATUSES.
    rewrite !elem_of_cons. tauto.
  - destruct (valid_status_fixed _ Hin) as (Hfix & Ht & _).
    unfold validate_status.
    destruct (lower (strip s)) as [| a c'] eqn:Hc; [done |].
    rewrite Hfix. cbn [negb truthy]. by rewrite Hin.
Qed.

Lemma validate_status_normalises_witness :
  exists c,
    cleaned_value (mkResult true [] [] (Some "paid")) = Some c
    /\ c = lower (strip "  PAID ")
    /\ c ∈ VALID_STATUSES
    /\ validate_status (Some c) = Returned (mkResult true [] [] (Some "paid")).
Proof.
  apply (validate_status_normalises "  PAID " _); reflexivity.
Defined.

End ValidatorShapes.

Section StringFields.
Import Py PyDecimal Validation InputValidator.

Lemma validate_string_field_shape (value : option string) (field_name : string)
    (required : bool) (max_length : option nat) (min_length : nat) (v : string) :
  cleaned_value
    (validate_string_field value field_name required max_length min_length)
  = Some v ->
  exists s,
    value = Some s
    /\ truthy (strip s) = true
    /\ min_length <= String.length (strip s)
    /\ is_valid
         (validate_string_field value field_name required max_length min_length)
       = true
    /\ match max_length with
       | Some m =>
           if (0 <? m)%nat && (m <? String.length (strip s))%nat
           then v = take m (strip s)
           else v = strip s
       | None => v = strip s
       end.
Proof.
  unfold validate_string_field.
  destruct value as [s |]; [change (default "" (Some s)) with s |].
  - destruct (truthy (strip s)) eqn:Ht; cbn [negb].
    + destruct (Nat.ltb_spec (String.length (strip s)) min_length) as [Hm | Hm];
        [by cbn |].
      destruct max_length as [m |].
      * destruct ((0 <? m)%nat && (m <? String.length (strip s))%nat) eqn:Hc;
          intros [= <-]; exists s; rewrite Hc; done.
      * intros [= <-]. by exists s.
    + by destruct required; cbn.
  - by destruct required; cbn.
Qed.

Lemma validate_string_field_bound (value : option string)
    (field_name : string) (required : bool) (m min_length : nat) (v : string) :
  0 < m ->
  cleaned_value
    (validate_string_field value field_name required (Some m) min_length)
  = Some v ->
  v = take m (strip (default "" value))
  /\ 1 <= String.length v <= m
  /\ is_valid
       (validate_string_field value field_name required (Some m) min_length)
     = true.
Proof.
  intros Hm H.
  apply validate_string_field_shape in H as (s & -> & Ht & Hmin & Hv & Hcut).
  change (default "" (Some s)) with s. apply truthy_length in Ht.
  destruct (Nat.ltb_spec 0 m) as [_ | ?]; [| lia]. cbn [andb] in Hcut.
  destruct (Nat.ltb_spec m (String.length (strip s))) as [Hlong | Hshort];
    subst v.
  - rewrite string_length_take. split; [done |]. split; [lia | done].
  - assert (Hall : take m (strip s) = strip s).
    { clear -Hshort. revert Hshort. generalize (strip s). clear s.
      induction m as [| m IH]; intros [| c s] Hle; cbn in *;
        try done; try lia.
      rewrite IH; [done | lia]. }
    rewrite Hall. split; [done |]. split; [lia | done].
Qed.

(** A string field with a positive [max_length]: the cleaned value of the
    result, when there is one, is the stripped text cut to [max_length]
    characters; it is never empty and never longer than [max_length], and
    the result is valid. A text that is too long is cut, not refused. *)
Theorem validate_string_field_cuts (value : option string)
    (field_name : string) (required : bool) (m min_length : nat) (v : string) :
  0 < m ->
  cleaned_value
    (validate_string_field value field_name required (Some m) min_length)
  = Some v ->
  v = take m (strip (default "" value))
  /\ 1 <= String.length v <= m
  /\ is_valid
       (validate_string_field value field_name required (Some m) min_length)
     = true.
Proof. apply validate_string_field_bound. Qed.

Lemma validate_string_field_cuts_witness :
  cleaned_value (validate_string_field (Some "  abcdef ") "Name" true (Some 4) 1)
  = Some "abcd"
  /\ "abcd" = take 4 (strip (default "" (Some "  abcdef ")))
  /\ 1 <= String.length "abcd" <= 4
  /\ is_valid (validate_string_field (Some "  abcdef ") "Name" true (Some 4) 1)
     = true.
Proof.
  split; [reflexivity |].
  apply (validate_string_field_cuts (Some "  abcdef ") "Name" true 4 1 "abcd");
    [lia | reflexivity].
Defined.



End StringFields.

(** ** Validation of a whole record *)

Section RecordValidation.
Import Py PyDecimal Validation InputValidator.

Variable strptime : string -> string -> option Datetime.datetime.
Variable to_datetime : string -> option Datetime.datetime.
Variable invalid_operation_text : string -> string.
Variable valid_statuses_text : string.




Lemma record_name_spec (record : TransactionRecord.t) (st : rstate) :
  errors (fst (record_name record st)) = errors (fst st)
  /\ is_valid (fst (record_name record st)) = is_valid (fst st)
  /\ exists n, snd (record_name record st)
               = CleanedRecord.set_company_name n (snd st)
               /\ 1 <= String.length n <= 130.
Proof.
  destruct st as [result cleaned]. unfold record_name.
  change (max_length_get "company_name" 0) with 130.
  set (r := validate_string_field (TransactionRecord.name record)
              "Company Name" false (Some 130) 0).
  assert (Hv : is_valid r = true).
  { subst r. unfold validate_string_field.
    destruct (match TransactionRecord.name record with
              | Some s => negb (truthy (strip s))
              | None => true
              end); [done |].
    change (String.length _ <? 0)%nat with false. cbn iota.
    by destruct ((0 <? 130)%nat && (130 <? _)%nat). }
  rewrite Hv. cbn [fst snd extend_warnings errors is_valid].
  split; [done |]. split; [done |].
  destruct (cleaned_value r) as [n |] eqn:Hc.
  - apply validate_string_field_bound in Hc as (_ & Hlen & _); [| lia].
    destruct n as [| a n]; [cbn in Hlen; lia |]. cbn [truthy].
    by eexists.
  - eexists. split; [done |]. cbn. lia.
Qed.








Lemma validate_id_field_accepts (i field_name : string) :
  truthy (strip i) = true ->
  is_valid (validate_id_field (Some i) field_name) = true.
Proof.
  intros Ht. unfold validate_id_field, validate_string_field.
  change (default "" (Some i)) with i. rewrite Ht. cbn [negb].
  apply truthy_length in Ht.
  destruct (Nat.ltb_spec (String.length (strip i)) 1); [lia |].
  by destruct ((0 <? _)%nat && (_ <? String.length (strip i))%nat).
Qed.

(** The amount and the status are not required of a record. When
    [validate_amount] or [validate_status] returns an invalid result
    instead of raising, which they do for a value that is missing, the
    errors of that result are not added: a record that has its two
    identifiers and a creation date is accepted without amount and
    without status, and its cleaned record has neither key. *)
Theorem record_without_amount_and_status_is_accepted
    (record : TransactionRecord.t) (id company_id : string)
    (created_at : Datetime.datetime) :
  TransactionRecord.id record = Some id ->
  truthy (strip id) = true ->
  TransactionRecord.company_id record = Some company_id ->
  truthy (strip company_id) = true ->
  TransactionRecord.created_at record = DParsed created_at ->
  TransactionRecord.updated_at record = DNull ->
  TransactionRecord.amount record = None ->
  TransactionRecord.status record = None ->
  exists r cleaned,
    validate_transaction_record strptime to_datetime invalid_operation_text
      valid_statuses_text record = Returned r
    /\ is_valid r = true
    /\ errors r = []
    /\ cleaned_value r = Some cleaned
    /\ CleanedRecord.amount cleaned = None
    /\ CleanedRecord.status cleaned = None.
Proof.
  intros Hid Hidt Hco Hcot Hcr Hup Ham Hst.
  unfold validate_transaction_record.
  set (st0 := (new_result, CleanedRecord.empty) : rstate).
  assert (H1 : exists c1, record_id record st0 = (new_result, c1)
                          /\ CleanedRecord.amount c1 = None
                          /\ CleanedRecord.status c1 = None).
  { unfold record_id, st0. rewrite Hid, (validate_id_field_accepts _ _ Hidt).
    cbn [negb]. by eexists. }
  destruct H1 as (c1 & -> & Ha1 & Hs1).
  assert (H2 : exists c2, record_company_id record (new_result, c1)
                          = (new_result, c2)
                          /\ CleanedRecord.amount c2 = None
                          /\ CleanedRecord.status c2 = None).
  { unfold record_company_id.
    rewrite Hco, (validate_id_field_accepts _ _ Hcot). cbn [negb]. by eexists. }
  destruct H2 as (c2 & -> & Ha2 & Hs2).
  destruct (record_name_spec record (new_result, c2))
    as (He3 & Hv3 & n & Hc3 & _).
  destruct (record_name record (new_result, c2)) as [r3 c3].
  cbn [fst snd] in He3, Hv3, Hc3. subst c3.
  unfold record_amount, record_status. rewrite Ham, Hst.
  cbn [validate_amount validate_status is_valid add_error new_result mbind
       outcome_bind].
  unfold record_created_at, record_updated_at. rewrite Hcr, Hup.
  cbn [validate_date is_valid set_cleaned_value new_result warnings errors
       cleaned_value extend_warnings].
  unfold record_date_consistency.
  cbn [CleanedRecord.created_at CleanedRecord.updated_at
       CleanedRecord.set_created_at CleanedRecord.set_updated_at
       validate_date_consistency mbind outcome_bind errors].
  cbn [extend_warnings errors]. rewrite He3. cbn [errors new_result].
  eexists. eexists. split; [reflexivity |].
  cbn. split_and!; done.
Qed.

End RecordValidation.

Section RecordValidationExamples.
Import Py PyDecimal Validation InputValidator Examples MoreExamples.


Lemma record_without_amount_and_status_is_accepted_witness :
  exists r cleaned,
    validate_transaction_record strptime_ymd no_fallback (fun _ => "") ""
      record_without_amount = Returned r
    /\ is_valid r = true
    /\ errors r = []
    /\ cleaned_value r = Some cleaned
    /\ CleanedRecord.amount cleaned = None
    /\ CleanedRecord.status cleaned = None.
Proof.
  apply (record_without_amount_and_status_is_accepted strptime_ymd no_fallback
           (fun _ => "") "" record_without_amount "a1" "c1" (date 2020 1 1));
    reflexivity.
Defined.

End RecordValidationExamples.

(** ** The loader: reports and accounting *)

Section LoaderReports.
Import Py PyDecimal Loader.

Variable to_datetime : string -> option Datetime.datetime.

Lemma validate_row_index (row : CsvRow.t) (idx : nat) (e : ValidationError.t) :
  e ∈ _validate_row to_datetime row idx -> ValidationError.row e = idx.
Proof.
  unfold _validate_row. intros H. rewrite !elem_of_app in H.
  destruct H as [H | [H | [H | [H | H]]]].
  - unfold required_errors in H.
    apply elem_of_app in H as [H | H]; case_match;
      try (apply elem_of_nil in H; done);
      apply list_elem_of_singleton in H; subst; reflexivity.
  - unfold length_errors in H.
    apply list_elem_of_In, in_flat_map in H as ((f & m) & _ & H).
    apply list_elem_of_In in H.
    repeat case_match; try (apply elem_of_nil in H; done);
      apply list_elem_of_singleton in H; subst; reflexivity.
  - unfold amount_errors in H.
    repeat case_match; try (apply elem_of_nil in H; done);
      apply list_elem_of_singleton in H; subst; reflexivity.
  - apply status_errors_spec in H as [-> _]. reflexivity.
  - unfold date_errors in H.
    apply list_elem_of_In, in_flat_map in H as (f & _ & H).
    apply list_elem_of_In in H.
    case_match; try (apply elem_of_nil in H; done);
      apply list_elem_of_singleton in H; subst; reflexivity.
Qed.

Lemma validate_rows_spec (df : DataFrame) (errs : list ValidationError.t)
    (valid : nat) :
  validate_rows to_datetime df = (errs, valid) ->
  valid <= length df
  /\ (errs = [] <-> valid = length df)
  /\ (forall e, e ∈ errs <->
                exists idx row, (idx, row) ∈ df
                                /\ e ∈ _validate_row to_datetime row idx).
Proof.
  revert errs valid. induction df as [| [idx row] rest IH]; intros errs valid.
  - cbn. intros [= <- <-]. split; [done |]. split; [done |].
    intros e. split.
    + intros H. by apply elem_of_nil in H.
    + intros (i & r & H & _). by apply elem_of_nil in H.
  - cbn [validate_rows].
    destruct (validate_rows to_datetime rest) as [errs0 valid0].
    destruct (IH errs0 valid0 eq_refl) as (Hle & Hnil & Hin).
    destruct (_validate_row to_datetime row idx) as [| e0 es] eqn:Hrow.
    + intros [= <- <-]. cbn [length]. split; [lia |]. split.
      * rewrite Hnil. lia.
      * intros e. rewrite Hin. split.
        -- intros (i & r & H & He). exists i, r.
           split; [by apply list_elem_of_further | done].
        -- intros (i & r & H & He).
           apply elem_of_cons in H as [[= -> ->] | H].
           ++ rewrite Hrow in He. by apply elem_of_nil in He.
           ++ by exists i, r.
    + intros [= <- <-]. cbn [length]. split; [lia |]. split.
      * split; [done | lia].
      * intros e. change (e0 :: es ++ errs0) with ((e0 :: es) ++ errs0).
        rewrite elem_of_app, Hin, <- Hrow. split.
        -- intros [He | (i & r & H & He)].
           ++ exists idx, row. split; [apply list_elem_of_here | done].
           ++ exists i, r. split; [by apply list_elem_of_further | done].
        -- intros (i & r & H & He).
           apply elem_of_cons in H as [[= -> ->] | H]; [by left |].
           right. by exists i, r.
Qed.

(** The report of [validate_data_integrity]: the valid and the invalid
    rows add up to the rows of the frame; the errors listed are exactly
    the errors of the rows of the frame, each under the index label of its
    row; and no row is invalid exactly when no error is listed. Duplicate
    ids are counted apart and make no row invalid. *)
Theorem validation_report_accounts_for_every_row (df : DataFrame) :
  let report := validate_data_integrity to_datetime df in
  total_rows report = length df
  /\ valid_rows report + invalid_rows report = total_rows report
  /\ (invalid_rows report = 0 <-> errors report = [])
  /\ (forall e, e ∈ errors report <->
                exists idx row, (idx, row) ∈ df
                                /\ e ∈ _validate_row to_datetime row idx)
  /\ (forall e, e ∈ errors report ->
                exists row, (ValidationError.row e, row) ∈ df)
  /\ duplicates report = duplicated_count [] df.
Proof.
  unfold validate_data_integrity.
  destruct (validate_rows to_datetime df) as [errs valid] eqn:H.
  apply validate_rows_spec in H as (Hle & Hnil & Hin).
  cbn. split; [done |]. split; [lia |]. split; [rewrite Hnil; lia |].
  split; [done |]. split; [| done].
  intros e He. apply Hin in He as (idx & row & Hrow & He).
  apply validate_row_index in He as ->. by exists row.
Qed.

End LoaderReports.

Section BatchAccounting.
Import Py PyDecimal Loader.

Variable column_check : RawTransaction.t -> bool.

Lemma add_batch_spec (rows : DataFrame) :
  forall (s : Session) (start n : nat) (errs : list LoadingError.t)
         (n' : nat) (errs' : list LoadingError.t) (s' : Session),
    add_batch s rows start n errs = (n', errs', s') ->
    exists new,
      errs' = errs ++ new
      /\ n' + length new = n + length rows
      /\ (Forall (fun ir => exists tx, _row_to_raw_transaction (snd ir)
                                       = Returned tx) rows ->
          new = []).
Proof.
  induction rows as [| [idx row] rest IH]; intros s start n errs n' errs' s' H.
  - cbn in H. injection H as <- <- <-. exists []. rewrite app_nil_r.
    cbn. split; [done |]. split; [lia | done].
  - cbn [add_batch] in H.
    destruct (_row_to_raw_transaction row) as [tx | ex] eqn:Hconv.
    + apply IH in H as (new & -> & Hlen & Hall).
      exists new. split; [done |]. split; [cbn; lia |].
      intros Hf. apply Hall. by inversion Hf.
    + apply IH in H as (new & -> & Hlen & Hall).
      eexists (_ :: new). split; [by rewrite <- app_assoc |].
      split; [cbn; lia |].
      intros Hf. inversion Hf as [| ? ? (tx & Htx) _]; subst.
      cbn in Htx. congruence.
Qed.

Lemma individually_loop_converts (rows : DataFrame) :
  forall (s : Session) (start n : nat) (errs : list LoadingError.t)
         (res : nat * list LoadingError.t * Session),
    individually_loop column_check s rows start n errs = Returned res ->
    Forall (fun ir => exists tx, _row_to_raw_transaction (snd ir) = Returned tx)
           rows.
Proof.
  induction rows as [| [idx row] rest IH]; intros s start n errs res H;
    [constructor |].
  cbn [individually_loop] in H.
  destruct (_row_to_raw_transaction row) as [tx | ex] eqn:Hconv; [| done].
  cbn [mbind outcome_bind] in H.
  constructor; [by exists tx |].
  destruct (flush column_check (add tx s)); by eapply IH.
Qed.

Lemma load_batch_accounting (s : Session) (batch_df : DataFrame)
    (start n : nat) (errs : list LoadingError.t) (s' : Session) :
  _load_batch_to_database column_check s batch_df start = Returned (n, errs, s') ->
  n + length errs = length batch_df.
Proof.
  unfold _load_batch_to_database.
  destruct (add_batch s batch_df start 0 []) as [[n1 e1] s1] eqn:Hadd.
  apply add_batch_spec in Hadd as (new & -> & Hlen & Hall).
  cbn [app] in *.
  destruct (flush column_check s1) as [s2 | ex].
  - intros [= <- <- <-]. lia.
  - unfold _load_rows_individually.
    destruct (individually_loop column_check (rollback s1) batch_df start 0 [])
      as [[[ni ei] s3] |] eqn:Hind; [| done].
    cbn [mbind outcome_bind mret outcome_ret]. intros [= <- <- <-].
    pose proof (individually_loop_converts _ _ _ _ _ _ Hind) as Hconv.
    rewrite (Hall Hconv). cbn [app].
    apply individually_loop_spec in Hind as (new' & -> & Hlen' & _).
    cbn [app]. lia.
Qed.

Lemma length_iloc (df : DataFrame) (start_idx end_idx : nat) :
  length (iloc df start_idx end_idx)
  = Nat.min (end_idx - start_idx) (length df - start_idx).
Proof. unfold iloc. by rewrite length_take, length_drop. Qed.

(** The errors of the first loop of [_load_batch_to_database]. *)
Lemma add_batch_errors (rows : DataFrame) :
  forall (s : Session) (start n : nat) (errs : list LoadingError.t),
    Forall (fun e => LoadingError.type e = "row_conversion_error") errs ->
    Forall (fun e => LoadingError.type e = "row_conversion_error")
           (snd (fst (add_batch s rows start n errs))).
Proof.
  induction rows as [| [idx row] rest IH]; intros s start n errs H; [done |].
  cbn [add_batch]. destruct (_row_to_raw_transaction row); apply IH; [done |].
  apply Forall_app. split; [done |]. by repeat constructor.
Qed.

Lemma load_batch_error_types (s : Session) (batch_df : DataFrame)
    (start n : nat) (errs : list LoadingError.t) (s' : Session) :
  _load_batch_to_database column_check s batch_df start = Returned (n, errs, s') ->
  Forall (fun e => LoadingError.type e = "row_conversion_error"
                   \/ LoadingError.type e = "individual_row_error")
         errs.
Proof.
  unfold _load_batch_to_database.
  pose proof (add_batch_errors batch_df s start 0 [] ltac:(constructor)) as Ha.
  destruct (add_batch s batch_df start 0 []) as [[n1 e1] s1].
  cbn [fst snd] in Ha.
  assert (Ha' : Forall (fun e => LoadingError.type e = "row_conversion_error"
                                 \/ LoadingError.type e = "individual_row_error")
                       e1)
    by (eapply Forall_impl; [exact Ha | by left]).
  destruct (flush column_check s1) as [s2 | ex].
  - by intros [= <- <- <-].
  - unfold _load_rows_individually.
    destruct (individually_loop column_check (rollback s1) batch_df start 0 [])
      as [[[ni ei] s3] |] eqn:Hind; [| done].
    cbn [mbind outcome_bind mret outcome_ret]. intros [= <- <- <-].
    apply individually_loop_spec in Hind as (new' & -> & _ & Hall).
    apply Forall_app. split; [done |]. cbn [app].
    eapply Forall_impl; [exact Hall |]. intros e [He _]. by right.
Qed.

(** When [_load_batch_to_database] returns, every row of the batch is
    either counted as loaded or has an entry in the errors of the batch:
    the rows loaded and the errors add up to the rows of the batch,
    whatever the table refuses, and every error is a
    [row_conversion_error] or an [individual_row_error]. *)
Theorem every_row_is_loaded_or_reported (s : Session) (batch_df : DataFrame)
    (batch_start_idx rows_loaded : nat) (batch_errors : list LoadingError.t)
    (s' : Session) :
  _load_batch_to_database column_check s batch_df batch_start_idx
  = Returned (rows_loaded, batch_errors, s') ->
  rows_loaded + length batch_errors = length batch_df
  /\ Forall (fun e => LoadingError.type e = "row_conversion_error"
                      \/ LoadingError.type e = "individual_row_error")
            batch_errors.
Proof.
  intros H. split; [by eapply load_batch_accounting |].
  by eapply load_batch_error_types.
Qed.

End BatchAccounting.

Section BatchAccountingExamples.
Import Py PyDecimal Loader Examples.

Lemma every_row_is_loaded_or_reported_witness :
  exists rows_loaded batch_errors s',
    _load_batch_to_database any_raw empty_session csv_three 0
    = Returned (rows_loaded, batch_errors, s')
    /\ rows_loaded + length batch_errors = 3.
Proof.
  do 3 eexists. split; [vm_compute; reflexivity |].
  refine (proj1 (every_row_is_loaded_or_reported any_raw empty_session
                   csv_three 0 _ _ _ _)).
  vm_compute. reflexivity.
Defined.

End BatchAccountingExamples.

(** ** The business rules, on any frame *)

Section Deduplication.
Import Py PyDecimal Transformer.

Context {A : Type} (key : A -> option string).

Lemma drop_duplicates_fresh (l : list A) :
  forall seen x, x ∈ drop_duplicates key seen l -> key x ∉ seen.
Proof.
  induction l as [| y l IH]; intros seen x H; cbn in H;
    [by apply elem_of_nil in H |].
  case_bool_decide as Hy.
  - by apply IH.
  - apply elem_of_cons in H as [-> | H]; [done |].
    apply IH in H. rewrite elem_of_cons in H. tauto.
Qed.

Lemma drop_duplicates_NoDup (l : list A) :
  forall seen, NoDup (map key (drop_duplicates key seen l)).
Proof.
  induction l as [| y l IH]; intros seen; cbn; [constructor |].
  case_bool_decide as Hy; [apply IH |].
  cbn. constructor; [| apply IH].
  intros Hin. apply list_elem_of_fmap in Hin as (x & Hk & Hx).
  apply drop_duplicates_fresh in Hx. rewrite Hk in Hx.
  apply Hx, list_elem_of_here.
Qed.

Lemma drop_duplicates_covers (l : list A) :
  forall seen x,
    x ∈ l -> key x ∈ seen \/ key x ∈ map key (drop_duplicates key seen l).
Proof.
  induction l as [| y l IH]; intros seen x H; [by apply elem_of_nil in H |].
  cbn. apply elem_of_cons in H as [-> | H].
  - case_bool_decide as Hy; [by left |]. right. cbn. apply list_elem_of_here.
  - case_bool_decide as Hy.
    + by apply IH.
    + destruct (IH (key y :: seen) x H) as [Hs | Hd].
      * apply elem_of_cons in Hs as [-> | Hs]; [| by left].
        right. cbn. apply list_elem_of_here.
      * right. cbn. by apply list_elem_of_further.
Qed.

Lemma drop_duplicates_first (l : list A) :
  forall seen x,
    x ∈ drop_duplicates key seen l ->
    exists before after,
      l = before ++ x :: after /\ key x ∉ map key before.
Proof.
  induction l as [| y l IH]; intros seen x H; cbn in H;
    [by apply elem_of_nil in H |].
  case_bool_decide as Hy.
  - pose proof (drop_duplicates_fresh _ _ _ H) as Hx.
    apply IH in H as (before & after & -> & Hb).
    exists (y :: before), after. split; [done |].
    cbn. rewrite elem_of_cons. intros [Heq | Hin]; [| done].
    rewrite Heq in Hx. done.
  - apply elem_of_cons in H as [-> | H].
    + exists [], l. split; [done |]. cbn. apply not_elem_of_nil.
    + pose proof (drop_duplicates_fresh _ _ _ H) as Hx.
      apply IH in H as (before & after & -> & Hb).
      exists (y :: before), after. split; [done |].
      cbn. rewrite elem_of_cons in *. tauto.
Qed.

End Deduplication.

Section RulesOnAnyFrame.
Import Py PyDecimal Transformer.

Lemma length_filter_map {A B : Type} (p : B -> bool) (f : A -> B) (l : list A) :
  length (List.filter p (map f l)) = length (List.filter (fun x => p (f x)) l).
Proof.
  induction l as [| x l IH]; cbn; [done |].
  destruct (p (f x)); cbn; by rewrite IH.
Qed.

(** What rules 2, 3 and 4 make of one row; [had] tells that the frame had
    the column [updated_at] and [source] is the column rule 4 copies. *)
Lemma business_rules_rows (df df' : DataFrame) (issues : list Issue.t) :
  _apply_business_rules df = Returned (df', issues) ->
  let kept := drop_duplicates (fun ir : nat * Row.t => Row.id (snd ir)) []
                              (rows df) in
  exists (source : Row.t -> DateCell) date_issues,
    rows df'
    = map (fun ir : nat * Row.t =>
             let r2 := Row.set_name (_standardize_company_name (Row.name (snd ir)))
                                    (snd ir) in
             let r3 := if is_small_amount r2
                       then Row.set_amount (Some cent) r2 else r2 in
             (fst ir,
              Row.set_updated_at
                (if is_paid r3 then source r3
                 else if has_column df "updated_at" then Row.updated_at r3
                      else DNull)
                r3))
          kept
    /\ issues
       = (if (0 <? length (rows df) - length kept)%nat
          then [Issue.business_rule "duplicates_removed"
                  (length (rows df) - length kept)]
          else [])
         ++ (if (0 <? length (List.filter
                                (fun ir : nat * Row.t =>
                                   is_small_amount
                                     (Row.set_name
                                        (_standardize_company_name
                                           (Row.name (snd ir)))
                                        (snd ir)))
                                kept))%nat
             then [Issue.business_rule "small_amounts_adjusted"
                     (length (List.filter
                                (fun ir : nat * Row.t =>
                                   is_small_amount
                                     (Row.set_name
                                        (_standardize_company_name
                                           (Row.name (snd ir)))
                                        (snd ir)))
                                kept))]
             else [])
         ++ date_issues
    /\ _validate_date_consistency df' = Returned date_issues.
Proof.
  intros H kept. unfold _apply_business_rules in H.
  destruct (check_subset df ["id"]) as [[] |]; [| done]. cbn [mbind outcome_bind] in H.
  destruct (require df ["name"]) as [[] |]; [| done]. cbn [mbind outcome_bind] in H.
  destruct (require df ["amount"]) as [[] |]; [| done]. cbn [mbind outcome_bind] in H.
  destruct (require df ["status"]) as [[] |]; [| done]. cbn [mbind outcome_bind] in H.
  fold kept in H.
  match type of H with
  | context [mbind _ (if ?b then _ else _)] => destruct b
  end.
  - cbn [mbind outcome_bind] in H.
    match type of H with
    | context [_validate_date_consistency ?d] =>
        destruct (_validate_date_consistency d) as [di |] eqn:Hd; [| done]
    end.
    cbn [mbind outcome_bind] in H. injection H as <- <-.
    exists Row.paid_at, di. split; [| split; [| exact Hd]].
    + unfold set_updated_at_for_paid. cbn [rows columns has_column].
      rewrite !map_map. reflexivity.
    + rewrite length_filter_map. reflexivity.
  - match type of H with
    | context [require ?d ["created_at"]] =>
        destruct (require d ["created_at"]) as [[] |]; [| done]
    end.
    cbn [mbind outcome_bind] in H.
    match type of H with
    | context [_validate_date_consistency ?d] =>
        destruct (_validate_date_consistency d) as [di |] eqn:Hd; [| done]
    end.
    cbn [mbind outcome_bind] in H. injection H as <- <-.
    exists Row.created_at, di. split; [| split; [| exact Hd]].
    + unfold set_updated_at_for_paid. cbn [rows columns has_column].
      rewrite !map_map. reflexivity.
    + rewrite length_filter_map. reflexivity.
Qed.

Lemma lt_cent_cent : lt cent cent = Some false.
Proof. reflexivity. Qed.

(** After the business rules no two rows have the same id: of the rows
    with one id the first is kept, under its label, and every id of the
    frame is still there. When rows were dropped, their number is
    recorded in an issue of type [duplicates_removed]. *)
Theorem business_rules_leave_unique_ids (df df' : DataFrame)
    (issues : list Issue.t) :
  _apply_business_rules df = Returned (df', issues) ->
  NoDup (map (fun ir : nat * Row.t => Row.id (snd ir)) (rows df'))
  /\ (forall ir, ir ∈ rows df ->
        exists ir', ir' ∈ rows df' /\ Row.id (snd ir') = Row.id (snd ir))
  /\ (forall ir', ir' ∈ rows df' ->
        exists before ir after,
          rows df = before ++ ir :: after
          /\ fst ir = fst ir'
          /\ Row.id (snd ir) = Row.id (snd ir')
          /\ Row.id (snd ir)
             ∉ map (fun ir : nat * Row.t => Row.id (snd ir)) before)
  /\ length (rows df') <= length (rows df)
  /\ (length (rows df') < length (rows df) ->
      Issue.business_rule "duplicates_removed"
        (length (rows df) - length (rows df')) ∈ issues).
Proof.
  intros H. apply business_rules_rows in H as (source & di & Hrows & -> & _).
  cbn zeta in Hrows.
  set (kept := drop_duplicates _ [] (rows df)) in *.
  set (f := fun ir : nat * Row.t => _) in Hrows.
  assert (Hid : forall ir, Row.id (snd (f ir)) = Row.id (snd ir)).
  { intros ir. subst f. cbn. by destruct (is_small_amount _). }
  assert (Hids : map (fun ir : nat * Row.t => Row.id (snd ir)) (rows df')
                 = map (fun ir : nat * Row.t => Row.id (snd ir)) kept).
  { rewrite Hrows, map_map. apply map_ext. intros ir. apply Hid. }
  assert (Hlen : length (rows df') = length kept)
    by (rewrite Hrows; apply length_map).
  split_and!.
  - rewrite Hids. apply drop_duplicates_NoDup.
  - intros ir Hin.
    destruct (drop_duplicates_covers
                (fun ir : nat * Row.t => Row.id (snd ir)) (rows df) [] ir Hin)
      as [Hs | Hk]; [by apply elem_of_nil in Hs |].
    fold kept in Hk. rewrite <- Hids in Hk.
    apply list_elem_of_fmap in Hk as (ir' & Heq & Hin'). by exists ir'.
  - intros ir' Hin'. rewrite Hrows in Hin'.
    apply list_elem_of_fmap in Hin' as (ir & -> & Hin).
    apply drop_duplicates_first in Hin as (before & after & Heq & Hfirst).
    exists before, ir, after. split; [done |]. split; [done |].
    split; [by rewrite Hid | done].
  - rewrite Hlen. apply drop_duplicates_length.
  - rewrite Hlen. intros Hlt.
    destruct (Nat.ltb_spec 0 (length (rows df) - length kept)); [| lia].
    apply elem_of_app. left. apply list_elem_of_here.
Qed.

(** After the business rules no amount is below one cent: an amount
    below 0.01, a negative one included, has become 0.01, and every
    other amount is as it was. *)
Theorem business_rules_floor_amounts (df df' : DataFrame)
    (issues : list Issue.t) (i : nat) (r' : Row.t) :
  _apply_business_rules df = Returned (df', issues) ->
  (i, r') ∈ rows df' ->
  is_small_amount r' = false
  /\ (forall d, Row.amount r' = Some d -> lt d cent <> Some true)
  /\ exists r, (i, r) ∈ rows df
               /\ Row.amount r'
                  = if is_small_amount r then Some cent else Row.amount r.
Proof.
  intros H Hin. apply business_rules_rows in H as (source & di & Hrows & _).
  cbn zeta in Hrows. rewrite Hrows in Hin.
  apply list_elem_of_fmap in Hin as ((j & r) & Heq & Hin).
  apply drop_duplicates_subset in Hin. cbn [fst snd] in Heq.
  injection Heq as -> Hr'.
  change (is_small_amount (Row.set_name _ r)) with (is_small_amount r) in Hr'.
  assert (Hsmall : is_small_amount r' = false).
  { destruct (is_small_amount r) eqn:Hs; subst r'; [reflexivity | exact Hs]. }
  split; [exact Hsmall |]. split.
  - intros d Hd. unfold is_small_amount in Hsmall. rewrite Hd in Hsmall.
    destruct d as [sg c e | sg | b]; [| | done];
      destruct (lt _ cent) as [[|] |]; done.
  - exists r. split; [done |].
    by destruct (is_small_amount r); subst r'.
Qed.

(** The companies extracted from a frame: one for each company id of the
    frame and no two with the same id; each has the name of the first
    row of the frame with its id and the time of the run as creation
    date. *)
Theorem extract_companies_one_per_id (df : DataFrame) (now : Datetime.datetime)
    (companies_df : list Company.t) :
  _extract_companies df now = Returned companies_df ->
  NoDup (map Company.company_id companies_df)
  /\ (forall ir, ir ∈ rows df ->
        exists c, c ∈ companies_df
                  /\ Company.company_id c = Row.company_id (snd ir))
  /\ (forall c, c ∈ companies_df ->
        exists before ir after,
          rows df = before ++ ir :: after
          /\ c = Company.mk (Row.company_id (snd ir)) (Row.name (snd ir)) now
                            DNull
          /\ Row.company_id (snd ir)
             ∉ map (fun ir : nat * Row.t => Row.company_id (snd ir)) before).
Proof.
  unfold _extract_companies.
  destruct (require df ["company_id"; "name"]) as [[] |]; [| done].
  cbn [mbind outcome_bind]. intros [= <-].
  set (kept := drop_duplicates _ [] (rows df)).
  assert (Hids : map Company.company_id
                   (map (fun ir : nat * Row.t =>
                           Company.mk (Row.company_id (snd ir))
                                      (Row.name (snd ir)) now DNull) kept)
                 = map (fun ir : nat * Row.t => Row.company_id (snd ir)) kept)
    by (by rewrite map_map).
  split_and!.
  - rewrite Hids. apply drop_duplicates_NoDup.
  - intros ir Hin.
    destruct (drop_duplicates_covers
                (fun ir : nat * Row.t => Row.company_id (snd ir))
                (rows df) [] ir Hin)
      as [Hs | Hk]; [by apply elem_of_nil in Hs |].
    fold kept in Hk. rewrite <- Hids in Hk.
    apply list_elem_of_fmap in Hk as (c & Heq & Hc). by exists c.
  - intros c Hc. apply list_elem_of_fmap in Hc as (ir & -> & Hin).
    apply drop_duplicates_first in Hin as (before & after & Heq & Hfirst).
    by exists before, ir, after.
Qed.

End RulesOnAnyFrame.

Section RulesOnAnyFrameExamples.
Import Py PyDecimal Transformer Examples MoreExamples.

Lemma business_rules_leave_unique_ids_witness :
  exists df' issues,
    _apply_business_rules frame_with_duplicate = Returned (df', issues)
    /\ NoDup (map (fun ir : nat * Row.t => Row.id (snd ir)) (rows df')).
Proof.
  do 2 eexists. split; [vm_compute; reflexivity |].
  refine (proj1 (business_rules_leave_unique_ids frame_with_duplicate _ _ _)).
  vm_compute. reflexivity.
Defined.

Lemma business_rules_floor_amounts_witness :
  exists df' issues r',
    _apply_business_rules frame_with_duplicate = Returned (df', issues)
    /\ (0, r') ∈ rows df'
    /\ is_small_amount r' = false.
Proof.
  do 3 eexists. split; [vm_compute; reflexivity |].
  split; [apply list_elem_of_here |].
  refine (proj1 (business_rules_floor_amounts frame_with_duplicate _ _ 0 _ _ _)).
  - vm_compute. reflexivity.
  - apply list_elem_of_here.
Defined.

Lemma extract_companies_one_per_id_witness :
  exists companies_df,
    _extract_companies frame_with_duplicate (date 2024 1 1)
    = Returned companies_df
    /\ NoDup (map Company.company_id companies_df).
Proof.
  eexists. split; [vm_compute; reflexivity |].
  refine (proj1 (extract_companies_one_per_id frame_with_duplicate
                   (date 2024 1 1) _ _)).
  vm_compute. reflexivity.
Defined.

End RulesOnAnyFrameExamples.

(** ** The rows the transformer keeps *)

Section RowSchema.
Import Py PyDecimal Transformer.
Import Validation (ValidationResult, mkResult, is_valid, errors, warnings,
                   cleaned_value, add_error, add_warning, set_cleaned_value).

Variable strptime : string -> string -> option Datetime.datetime.
Variable to_datetime : string -> option Datetime.datetime.
Variable str_of_datetime : Datetime.datetime -> string.

Lemma take_all (n : nat) (s : string) :
  String.length s <= n -> take n s = s.
Proof.
  revert s. induction n as [| n IH]; intros [| c s] Hle; cbn in *;
    try done; try lia.
  rewrite IH; [done | lia].
Qed.

Lemma not_blank (o : option string) :
  blank o = false ->
  exists s, o = Some s /\ 1 <= String.length (strip s).
Proof.
  destruct o as [s |]; [| done]. cbn. intros H.
  exists s. split; [done |]. apply truthy_length.
  by destruct (truthy (strip s)).
Qed.

(** A text cut to [n] characters when it is longer. *)
Lemma cut_length (n : nat) (s : string) :
  0 < n -> 1 <= String.length s ->
  1 <= String.length (take n s) <= n.
Proof. intros. rewrite string_length_take. lia. Qed.

Lemma check_id_spec (row : Row.t) (st : vstate) :
  is_valid (fst (check_id row st)) = true ->
  is_valid (fst st) = true
  /\ exists s,
       Row.id row = Some s
       /\ snd (check_id row st) = Row.set_id (Some (take 24 (strip s))) (snd st)
       /\ 1 <= String.length (take 24 (strip s)) <= 24.
Proof.
  destruct st as [result cleaned]. unfold check_id.
  destruct (blank (Row.id row)) eqn:Hb; [done |].
  apply not_blank in Hb as (s & Hs & Hlen). rewrite Hs.
  change (default "" (Some s)) with s.
  unfold TARGET_SCHEMA_LENGTHS_id.
  destruct (Nat.ltb_spec 24 (String.length (strip s))) as [Hlong | Hshort];
    cbn [fst snd is_valid add_warning]; intros Hv; (split; [done |]);
    exists s; (split; [done |]).
  - split; [done |]. apply cut_length; lia.
  - rewrite take_all by done. split; [done | lia].
Qed.

Lemma check_company_id_spec (row : Row.t) (st : vstate) :
  is_valid (fst (check_company_id row st)) = true ->
  is_valid (fst st) = true
  /\ exists s,
       Row.company_id row = Some s
       /\ snd (check_company_id row st)
          = Row.set_company_id (Some (take 24 (strip s))) (snd st)
       /\ 1 <= String.length (take 24 (strip s)) <= 24.
Proof.
  destruct st as [result cleaned]. unfold check_company_id.
  destruct (blank (Row.company_id row)) eqn:Hb; [done |].
  apply not_blank in Hb as (s & Hs & Hlen). rewrite Hs.
  change (default "" (Some s)) with s.
  unfold TARGET_SCHEMA_LENGTHS_company_id.
  destruct (Nat.ltb_spec 24 (String.length (strip s))) as [Hlong | Hshort];
    cbn [fst snd is_valid add_warning]; intros Hv; (split; [done |]);
    exists s; (split; [done |]).
  - split; [done |]. apply cut_length; lia.
  - rewrite take_all by done. split; [done | lia].
Qed.

Lemma check_name_spec (row : Row.t) (st : vstate) :
  is_valid (fst (check_name row st)) = is_valid (fst st)
  /\ exists n,
       snd (check_name row st) = Row.set_name (Some n) (snd st)
       /\ 1 <= String.length n <= 130.
Proof.
  destruct st as [result cleaned]. unfold check_name.
  destruct (blank (Row.name row)) eqn:Hb.
  - cbn [fst snd is_valid add_warning]. split; [done |].
    eexists. split; [done |]. cbn. lia.
  - apply not_blank in Hb as (s & Hs & Hlen). rewrite Hs.
    change (default "" (Some s)) with s.
    unfold TARGET_SCHEMA_LENGTHS_company_name.
    destruct (Nat.ltb_spec 130 (String.length (strip s))) as [Hlong | Hshort];
      cbn [fst snd is_valid add_warning]; (split; [done |]);
      eexists; (split; [done |]).
    + apply cut_length; lia.
    + lia.
Qed.

Lemma check_amount_spec (row : Row.t) (st : vstate) :
  is_valid (fst (check_amount row st)) = true ->
  is_valid (fst st) = true
  /\ exists d,
       Row.amount row = Some d
       /\ snd (check_amount row st) = Row.set_amount (Some d) (snd st)
       /\ lt d zero <> Some true
       /\ forall b, d <> NaN b.
Proof.
  destruct st as [result cleaned]. unfold check_amount.
  destruct (Row.amount row) as [d |]; [| done].
  destruct d as [sg c e | sg | b]; [| | done];
    (destruct (lt _ zero) as [[|] |] eqn:Hlt; [done | |]);
    cbn [fst snd]; intros Hv; (split; [done |]);
    eexists; (split; [done |]); (split; [done |]);
    (split; [by rewrite Hlt | done]).
Qed.

Lemma check_status_spec (row : Row.t) (st : vstate) :
  is_valid (fst (check_status row st)) = true ->
  is_valid (fst st) = true
  /\ exists s,
       Row.status row = Some s
       /\ snd (check_status row st)
          = Row.set_status (Some (lower (strip s))) (snd st)
       /\ lower (strip s) ∈ VALID_STATUSES.
Proof.
  destruct st as [result cleaned]. unfold check_status.
  destruct (blank (Row.status row)) eqn:Hb; [done |].
  apply not_blank in Hb as (s & Hs & Hlen). rewrite Hs.
  change (default "" (Some s)) with s.
  destruct (str_in (lower (strip s)) VALID_STATUSES) eqn:Hin; [| done].
  cbn [negb].
  pose proof (valid_status_fixed _ Hin) as (_ & _ & Hshort).
  pose proof (valid_status_cases _ Hin) as Hcases.
  unfold TARGET_SCHEMA_LENGTHS_status.
  destruct (Nat.ltb_spec 30 (String.length (lower (strip s)))); [lia |].
  cbn [fst snd]. intros Hv. split; [done |].
  exists s. split; [done |]. split; [done |].
  unfold VALID_STATUSES. rewrite !elem_of_cons. tauto.
Qed.

Lemma parse_date_valid (c : DateCell) (field_name : string) :
  let r := _parse_and_validate_date strptime to_datetime str_of_datetime c
             field_name in
  is_valid r = true ->
  blank (date_text str_of_datetime c) = false ->
  exists t, cleaned_value r = Some t.
Proof.
  unfold _parse_and_validate_date. cbn zeta. intros Hv Hb. rewrite Hb in *.
  destruct (try_patterns strptime _ DATE_PATTERNS) as [t |]; [by exists t |].
  destruct (to_datetime _) as [t |]; [by exists t | done].
Qed.

Lemma check_created_at_spec (row : Row.t) (st : vstate) :
  is_valid (fst (check_created_at strptime to_datetime str_of_datetime row st))
  = is_valid (fst st)
  /\ (snd (check_created_at strptime to_datetime str_of_datetime row st)
      = snd st
      \/ exists t,
           snd (check_created_at strptime to_datetime str_of_datetime row st)
           = Row.set_created_at (DParsed t) (snd st)).
Proof.
  destruct st as [result cleaned]. unfold check_created_at.
  pose proof (parse_date_valid (Row.created_at row) "created_at") as Hp.
  cbn zeta in Hp.
  destruct (is_valid (_parse_and_validate_date strptime to_datetime
                        str_of_datetime (Row.created_at row) "created_at"))
    eqn:Hv; cbn [negb fst snd is_valid]; (split; [done |]); [| by left].
  right.
  destruct (blank (date_text str_of_datetime (Row.created_at row))) eqn:Hb.
  - exfalso. revert Hv. unfold _parse_and_validate_date. by rewrite Hb.
  - destruct (Hp eq_refl eq_refl) as [t ->]. by exists t.
Qed.

Lemma check_paid_at_spec (row : Row.t) (st : vstate) :
  is_valid (fst (check_paid_at strptime to_datetime str_of_datetime row st))
  = is_valid (fst st)
  /\ exists c,
       snd (check_paid_at strptime to_datetime str_of_datetime row st)
       = Row.set_paid_at c (snd st)
       /\ (c = DNull \/ exists t, c = DParsed t).
Proof.
  destruct st as [result cleaned]. unfold check_paid_at.
  destruct (blank (date_text str_of_datetime (Row.paid_at row))); cbn [negb].
  - split; [done |]. exists DNull. split; [done | by left].
  - destruct (is_valid (_parse_and_validate_date _ _ _ _ _));
      cbn [negb fst snd is_valid]; (split; [done |]).
    + eexists. split; [done |].
      destruct (cleaned_value _) as [t |]; cbn; [right; by exists t | by left].
    + exists DNull. split; [done | by left].
Qed.

(** What a valid result of [_validate_row_for_transformation] holds. *)
Lemma validated_row_shape (row : Row.t) (row_index : nat) :
  let result :=
    _validate_row_for_transformation strptime to_datetime str_of_datetime
      row row_index in
  is_valid result = true ->
  exists cleaned id company_id name amount status,
    cleaned_value result = Some cleaned
    /\ Row.id row = Some id
    /\ Row.id cleaned = Some (take 24 (strip id))
    /\ 1 <= String.length (take 24 (strip id)) <= 24
    /\ Row.company_id row = Some company_id
    /\ Row.company_id cleaned = Some (take 24 (strip company_id))
    /\ 1 <= String.length (take 24 (strip company_id)) <= 24
    /\ Row.name cleaned = Some name
    /\ 1 <= String.length name <= 130
    /\ Row.amount row = Some amount
    /\ Row.amount cleaned = Some amount
    /\ lt amount zero <> Some true
    /\ (forall b, amount <> NaN b)
    /\ Row.status row = Some status
    /\ Row.status cleaned = Some (lower (strip status))
    /\ lower (strip status) ∈ VALID_STATUSES
    /\ (Row.paid_at cleaned = DNull \/ exists t, Row.paid_at cleaned = DParsed t)
    /\ (Row.created_at cleaned = Row.created_at row
        \/ exists t, Row.created_at cleaned = DParsed t)
    /\ Row.updated_at cleaned = Row.updated_at row.
Proof.
  unfold _validate_row_for_transformation. cbn zeta.
  set (s0 := (Validation.new_result, row) : vstate).
  set (s1 := check_id row s0).
  set (s2 := check_company_id row s1).
  set (s3 := check_name row s2).
  set (s4 := check_amount row s3).
  set (s5 := check_status row s4).
  set (s6 := check_created_at strptime to_datetime str_of_datetime row s5).
  set (s7 := check_paid_at strptime to_datetime str_of_datetime row s6).
  destruct (check_paid_at_spec row s6) as (Hv7 & c7 & Hs7 & Hc7).
  destruct (check_created_at_spec row s5) as (Hv6 & Hs6).
  fold s7 in Hv7, Hs7. fold s6 in Hv6, Hs6, Hv7, Hs7.
  destruct s7 as [result cleaned] eqn:Es7. cbn [fst snd] in Hv7, Hs7.
  destruct (is_valid result) eqn:Hv; [| intros H; cbn in H; congruence].
  intros _. cbn [cleaned_value set_cleaned_value].
  rewrite Hv6 in Hv7. symmetry in Hv7.
  destruct (check_status_spec row s4 Hv7) as (Hv4 & st & Hst & Hs5 & Hin).
  fold s5 in Hs5.
  destruct (check_amount_spec row s3 Hv4) as (Hv3 & d & Hd & Hs4 & Hneg & Hnan).
  fold s4 in Hs4.
  destruct (check_name_spec row s2) as (Hv2 & n & Hs3 & Hnlen).
  fold s3 in Hv2, Hs3. rewrite Hv2 in Hv3.
  destruct (check_company_id_spec row s1 Hv3) as (Hv1 & k & Hk & Hs2 & Hklen).
  fold s2 in Hs2.
  destruct (check_id_spec row s0 Hv1) as (_ & i & Hi & Hs1 & Hilen).
  fold s1 in Hs1.
  exists cleaned, i, k, n, d, st.
  assert (H5 : snd s5
               = Row.set_status (Some (lower (strip st)))
                   (Row.set_amount (Some d)
                      (Row.set_name (Some n)
                         (Row.set_company_id (Some (take 24 (strip k)))
                            (Row.set_id (Some (take 24 (strip i))) row)))))
    by (by rewrite Hs5, Hs4, Hs3, Hs2, Hs1).
  subst cleaned.
  destruct Hs6 as [Hs6 | [t Hs6]]; rewrite Hs6, H5;
    cbn [Row.id Row.name Row.company_id Row.amount Row.status Row.created_at
         Row.paid_at Row.updated_at Row.set_id Row.set_name
         Row.set_company_id Row.set_amount Row.set_status Row.set_created_at
         Row.set_paid_at];
    split_and!; try done; try lia.
  - by left.
  - right. by exists t.
Qed.

(** A row that [_validate_row_for_transformation] returns valid has been
    cleaned to the target schema: its id and its company id are the
    stripped texts cut to 24 characters and are not empty, its name has 1
    to 130 characters, its amount is there, is not a NaN and is not
    negative, its status is the stripped, lowercased text and is one of
    the six statuses, and its paid_at is a date or null, never a text. *)
Theorem validated_row_fits_schema (row : Row.t) (row_index : nat) :
  let result :=
    _validate_row_for_transformation strptime to_datetime str_of_datetime
      row row_index in
  is_valid result = true ->
  exists cleaned id company_id name amount status,
    cleaned_value result = Some cleaned
    /\ Row.id row = Some id
    /\ Row.id cleaned = Some (take 24 (strip id))
    /\ 1 <= String.length (take 24 (strip id)) <= 24
    /\ Row.company_id row = Some company_id
    /\ Row.company_id cleaned = Some (take 24 (strip company_id))
    /\ 1 <= String.length (take 24 (strip company_id)) <= 24
    /\ Row.name cleaned = Some name
    /\ 1 <= String.length name <= 130
    /\ Row.amount row = Some amount
    /\ Row.amount cleaned = Some amount
    /\ lt amount zero <> Some true
    /\ (forall b, amount <> NaN b)
    /\ Row.status row = Some status
    /\ Row.status cleaned = Some (lower (strip status))
    /\ lower (strip status) ∈ VALID_STATUSES
    /\ (Row.paid_at cleaned = DNull \/ exists t, Row.paid_at cleaned = DParsed t)
    /\ (Row.created_at cleaned = Row.created_at row
        \/ exists t, Row.created_at cleaned = DParsed t)
    /\ Row.updated_at cleaned = Row.updated_at row.
Proof. apply validated_row_shape. Qed.

End RowSchema.

Section RowSchemaExamples.
Import Py PyDecimal Transformer Examples.
Import Validation (is_valid, cleaned_value).

Lemma validated_row_fits_schema_witness :
  exists cleaned id company_id name amount status,
    cleaned_value
      (_validate_row_for_transformation strptime_ymd no_fallback
         str_of_datetime
         (row_of_raw (raw "  a1 " (Some "2020-01-02") (Some "not-a-date"))) 0)
    = Some cleaned
    /\ Row.id (row_of_raw (raw "  a1 " (Some "2020-01-02") (Some "not-a-date")))
       = Some id
    /\ Row.id cleaned = Some (take 24 (strip id))
    /\ 1 <= String.length (take 24 (strip id)) <= 24
    /\ Row.company_id
         (row_of_raw (raw "  a1 " (Some "2020-01-02") (Some "not-a-date")))
       = Some company_id
    /\ Row.company_id cleaned = Some (take 24 (strip company_id))
    /\ 1 <= String.length (take 24 (strip company_id)) <= 24
    /\ Row.name cleaned = Some name
    /\ 1 <= String.length name <= 130
    /\ Row.amount
         (row_of_raw (raw "  a1 " (Some "2020-01-02") (Some "not-a-date")))
       = Some amount
    /\ Row.amount cleaned = Some amount
    /\ lt amount zero <> Some true
    /\ (forall b, amount <> NaN b)
    /\ Row.status
         (row_of_raw (raw "  a1 " (Some "2020-01-02") (Some "not-a-date")))
       = Some status
    /\ Row.status cleaned = Some (lower (strip status))
    /\ lower (strip status) ∈ VALID_STATUSES
    /\ (Row.paid_at cleaned = DNull \/ exists t, Row.paid_at cleaned = DParsed t)
    /\ (Row.created_at cleaned
        = Row.created_at
            (row_of_raw (raw "  a1 " (Some "2020-01-02") (Some "not-a-date")))
        \/ exists t, Row.created_at cleaned = DParsed t)
    /\ Row.updated_at cleaned
       = Row.updated_at
           (row_of_raw (raw "  a1 " (Some "2020-01-02") (Some "not-a-date"))).
Proof.
  apply (validated_row_fits_schema strptime_ymd no_fallback str_of_datetime
           (row_of_raw (raw "  a1 " (Some "2020-01-02") (Some "not-a-date")))
           0).
  vm_compute. reflexivity.
Defined.

End RowSchemaExamples.

(** ** Validation of a frame, and a transform without the business rules *)

Section FrameValidation.
Import Py PyDecimal Transformer.
Import Validation (ValidationResult, is_valid, errors, warnings,
                   cleaned_value).

Variable company_check : Company.t -> bool.
Variable charge_check : Charge.t -> bool.
Variable strptime : string -> string -> option Datetime.datetime.
Variable to_datetime : string -> option Datetime.datetime.
Variable str_of_datetime : Datetime.datetime -> string.

Lemma valid_has_cleaned_value (row : Row.t) (idx : nat) :
  is_valid (_validate_row_for_transformation strptime to_datetime str_of_datetime row idx) = true ->
  exists cleaned, cleaned_value (_validate_row_for_transformation strptime to_datetime str_of_datetime row idx) = Some cleaned.
Proof.
  intros H.
  destruct (validated_row_shape strptime to_datetime str_of_datetime row idx H)
    as (cleaned & _ & _ & _ & _ & _ & Hc & _).
  by exists cleaned.
Qed.

Lemma validate_loop_spec (rows : list (nat * Row.t)) :
  length (fst (validate_loop strptime to_datetime str_of_datetime rows))
  + length (snd (validate_loop strptime to_datetime str_of_datetime rows))
  = length rows
  /\ Forall
       (fun cleaned =>
          exists i r,
            (i, r) ∈ rows
            /\ is_valid (_validate_row_for_transformation strptime to_datetime
                           str_of_datetime r i) = true
            /\ cleaned_value (_validate_row_for_transformation strptime
                                to_datetime str_of_datetime r i)
               = Some cleaned)
       (fst (validate_loop strptime to_datetime str_of_datetime rows))
  /\ Forall
       (fun issue =>
          exists i r,
            (i, r) ∈ rows
            /\ is_valid (_validate_row_for_transformation strptime to_datetime
                           str_of_datetime r i) = false
            /\ issue
               = Issue.validation_error i
                   (errors (_validate_row_for_transformation strptime
                              to_datetime str_of_datetime r i))
                   (warnings (_validate_row_for_transformation strptime
                                to_datetime str_of_datetime r i))
                   r)
       (snd (validate_loop strptime to_datetime str_of_datetime rows)).
Proof.
  induction rows as [| [idx row] rest (Hlen & Hk & Hr)];
    [cbn; by repeat constructor |].
  cbn [validate_loop].
  destruct (validate_loop strptime to_datetime str_of_datetime rest)
    as [valid issues].
  cbn [fst snd] in *.
  assert (Hk' := Forall_impl _ _ _ Hk
                   (fun c H => match H with
                               | ex_intro _ i (ex_intro _ r (conj Hin H')) =>
                                   ex_intro _ i
                                     (ex_intro _ r
                                        (conj (list_elem_of_further
                                                 (i, r) (idx, row) rest Hin)
                                              H'))
                               end)).
  assert (Hr' := Forall_impl _ _ _ Hr
                   (fun c H => match H with
                               | ex_intro _ i (ex_intro _ r (conj Hin H')) =>
                                   ex_intro _ i
                                     (ex_intro _ r
                                        (conj (list_elem_of_further
                                                 (i, r) (idx, row) rest Hin)
                                              H'))
                               end)).
  cbn beta in Hk', Hr'.
  destruct (is_valid (_validate_row_for_transformation strptime to_datetime
                        str_of_datetime row idx)) eqn:Hv;
    cbn [fst snd length].
  - split; [lia |]. split; [| exact Hr']. constructor; [| exact Hk'].
    destruct (valid_has_cleaned_value row idx Hv) as [c Hc]. rewrite Hc.
    exists idx, row. split; [apply list_elem_of_here | done].
  - split; [lia |]. split; [exact Hk' |]. constructor; [| exact Hr'].
    exists idx, row. split; [apply list_elem_of_here | done].
Qed.

Lemma fst_reindex (l : list Row.t) :
  map fst (reindex l) = seq 0 (length l).
Proof.
  unfold reindex.
  change (fun i r => (i, r)) with (fun i (r : Row.t) => (0 + i, r)).
  generalize 0. induction l as [| r l IH]; intros k; [done |].
  cbn. f_equal; [lia |].
  rewrite <- (IH (S k)). f_equal. apply imap_ext. intros i x _. cbn.
  f_equal. lia.
Qed.

Lemma snd_reindex (l : list Row.t) : map snd (reindex l) = l.
Proof.
  unfold reindex.
  change (fun i r => (i, r)) with (fun i (r : Row.t) => (0 + i, r)).
  generalize 0. induction l as [| r l IH]; intros k; [done |].
  cbn. f_equal. rewrite <- (IH (S k)) at 2. f_equal. apply imap_ext.
  intros i x _. cbn. f_equal. lia.
Qed.

Lemma validate_frame_spec (df df' : DataFrame) (issues : list Issue.t) :
  _validate_transformed_data strptime to_datetime str_of_datetime df
  = Returned (df', issues) ->
  length (rows df') + length issues = length (rows df)
  /\ map fst (rows df') = seq 0 (length (rows df'))
  /\ Forall
       (fun cleaned =>
          exists i r,
            (i, r) ∈ rows df
            /\ is_valid (_validate_row_for_transformation strptime to_datetime
                           str_of_datetime r i) = true
            /\ cleaned_value (_validate_row_for_transformation strptime
                                to_datetime str_of_datetime r i)
               = Some cleaned)
       (map snd (rows df'))
  /\ Forall
       (fun issue =>
          exists i r,
            (i, r) ∈ rows df
            /\ is_valid (_validate_row_for_transformation strptime to_datetime
                           str_of_datetime r i) = false
            /\ issue
               = Issue.validation_error i
                   (errors (_validate_row_for_transformation strptime
                              to_datetime str_of_datetime r i))
                   (warnings (_validate_row_for_transformation strptime
                                to_datetime str_of_datetime r i))
                   r)
       issues
  /\ (columns df' = columns df \/ df' = empty_frame).
Proof.
  unfold _validate_transformed_data.
  destruct (rows df) as [| x l] eqn:Hrows.
  { intros [= <- <-]. cbn. split_and!; try done. by right. }
  rewrite <- Hrows. clear Hrows x l.
  destruct (require _ _) as [[] |]; [| done]. cbn [mbind outcome_bind].
  pose proof (validate_loop_spec (rows df)) as (Hlen & Hk & Hr).
  destruct (validate_loop strptime to_datetime str_of_datetime (rows df))
    as [valid validation_issues].
  cbn [fst snd] in *.
  destruct valid as [| v valid]; intros [= <- <-]; cbn [rows columns].
  - cbn. split_and!; try done. by right.
  - rewrite fst_reindex, snd_reindex.
    unfold reindex. rewrite length_imap. split_and!; try done. by left.
Qed.

(** [_validate_transformed_data] accounts for every row of the frame: a
    row is kept, cleaned, when [_validate_row_for_transformation] finds it
    valid, and is reported in a [validation_error] issue with its label,
    its errors, its warnings and its data otherwise; the rows kept are
    labelled again from 0. *)
Theorem validated_frame_accounts_for_every_row
    (df df' : DataFrame) (issues : list Issue.t) :
  _validate_transformed_data strptime to_datetime str_of_datetime df
  = Returned (df', issues) ->
  length (rows df') + length issues = length (rows df)
  /\ map fst (rows df') = seq 0 (length (rows df'))
  /\ Forall
       (fun cleaned =>
          exists i r,
            (i, r) ∈ rows df
            /\ is_valid (_validate_row_for_transformation strptime to_datetime
                           str_of_datetime r i) = true
            /\ cleaned_value (_validate_row_for_transformation strptime
                                to_datetime str_of_datetime r i)
               = Some cleaned)
       (map snd (rows df'))
  /\ Forall
       (fun issue =>
          exists i r,
            (i, r) ∈ rows df
            /\ is_valid (_validate_row_for_transformation strptime to_datetime
                           str_of_datetime r i) = false
            /\ issue
               = Issue.validation_error i
                   (errors (_validate_row_for_transformation strptime
                              to_datetime str_of_datetime r i))
                   (warnings (_validate_row_for_transformation strptime
                                to_datetime str_of_datetime r i))
                   r)
       issues.
Proof.
  intros H. destruct (validate_frame_spec df df' issues H) as (? & ? & ? & ? & _).
  done.
Qed.

Lemma raw_frame_nonempty (raw_data : list RawTransaction.t) :
  raw_data <> [] ->
  _raw_data_to_dataframe raw_data
  = mkFrame raw_columns (reindex (map row_of_raw raw_data))
  /\ rows (_raw_data_to_dataframe raw_data) <> [].
Proof.
  destruct raw_data as [| tx l]; [done |]. intros _. split; [done |].
  cbn. discriminate.
Qed.

Lemma length_nonempty {A : Type} (l : list A) :
  l <> [] -> Nat.eqb (length l) 0 = false.
Proof. by destruct l. Qed.

(** A frame of which no row is valid is validated to the empty frame. *)
Lemma validate_all_invalid (raw_data : list RawTransaction.t) :
  raw_data <> [] ->
  (forall tx i,
     tx ∈ raw_data ->
     is_valid (_validate_row_for_transformation strptime to_datetime
                 str_of_datetime (row_of_raw tx) i) = false) ->
  exists issues,
    _validate_transformed_data strptime to_datetime str_of_datetime
      (_raw_data_to_dataframe raw_data)
    = Returned (empty_frame, issues).
Proof.
  intros Hne Hall. destruct (raw_frame_nonempty raw_data Hne) as [-> _].
  unfold _validate_transformed_data. cbn [rows columns].
  destruct (reindex (map row_of_raw raw_data)) as [| x l] eqn:Hre.
  { apply (f_equal (map snd)) in Hre. rewrite snd_reindex in Hre.
    by destruct raw_data. }
  rewrite <- Hre. clear x l Hre.
  change (require _ _) with (Returned tt : outcome unit).
  cbn [mbind outcome_bind].
  pose proof (validate_loop_spec (reindex (map row_of_raw raw_data)))
    as (_ & Hk & _).
  destruct (validate_loop _ _ _ _) as [valid validation_issues].
  cbn [fst] in Hk. destruct valid as [| c valid]; [by eexists |].
  apply Forall_cons in Hk as [(i & r & Hin & Hv & _) _]. exfalso.
  assert (Hr : r ∈ map snd (reindex (map row_of_raw raw_data))).
  { apply list_elem_of_fmap. by exists (i, r). }
  rewrite snd_reindex in Hr. apply list_elem_of_fmap in Hr as (tx & -> & Htx).
  by rewrite (Hall tx i Htx) in Hv.
Qed.

Lemma transform_without_rules_outcome (db : Database) (validate_data : bool)
    (now : Datetime.datetime) :
  raw_transactions db <> [] ->
  exists e,
    transform_to_schema company_check charge_check strptime to_datetime
      str_of_datetime db validate_data false now
    = Raised e.
Proof.
  intros Hne. exists DatabaseTransactionError. unfold transform_to_schema.
  apply get_transaction_raised.
  rewrite length_nonempty by done.
  destruct (raw_frame_nonempty _ Hne) as [Hdf _].
  set (df := _raw_data_to_dataframe (raw_transactions db)) in *.
  assert (H1 : exists o : outcome (DataFrame * list Issue.t),
             (if validate_data
              then _validate_transformed_data strptime to_datetime
                     str_of_datetime df
              else Returned (df, [])) = o
             /\ match o with
                | Returned (df1, _) => has_column df1 "updated_at" = false
                | Raised _ => True
                end).
  { eexists. split; [reflexivity |]. destruct validate_data.
    - destruct (_validate_transformed_data _ _ _ df) as [[df1 issues] |] eqn:Hv;
        [| done].
      apply validate_frame_spec in Hv as (_ & _ & _ & _ & [Hc | ->]);
        [| done].
      unfold has_column. rewrite Hc, Hdf. done.
    - unfold has_column. rewrite Hdf. done. }
  destruct H1 as (o & -> & Ho). destruct o as [[df1 issues] | e]; [| by eexists].
  cbn [mbind outcome_bind].
  destruct (_extract_companies df1 now) as [companies_df | e]; [| by eexists].
  cbn [mbind outcome_bind].
  destruct (_load_companies company_check db companies_df)
    as [[companies_created db1] | e]; [| by eexists].
  cbn [mbind outcome_bind].
  unfold _transform_charges.
  destruct (require_missing df1
              ["id"; "company_id"; "amount"; "status"; "created_at";
               "updated_at"] "updated_at") as [k ->]; [| done | by eexists].
  rewrite !elem_of_cons. tauto.
Qed.

(** With [apply_business_rules=False] a transform of a staging table that
    is not empty always raises, for no step then adds the column
    [updated_at] that [_transform_charges] reads: nothing is committed. *)
Theorem transform_without_business_rules_raises (db : Database)
    (validate_data : bool) (now : Datetime.datetime) :
  raw_transactions db <> [] ->
  exists e,
    transform_to_schema company_check charge_check strptime to_datetime
      str_of_datetime db validate_data false now
    = Raised e.
Proof. apply transform_without_rules_outcome. Qed.

(** When validation finds no valid row in a staging table that is not
    empty, the transform does not return a report of the rows it
    skipped. The validated frame is then an empty frame without columns,
    on which the business rules raise [KeyError] for the column [name]
    (the removal of duplicates returns an empty frame as it is), and the
    transform raises the [DatabaseTransactionError] of its transaction,
    also when the rules are off. *)
Theorem transform_with_no_valid_row_raises (db : Database)
    (apply_business_rules : bool) (now : Datetime.datetime) :
  raw_transactions db <> [] ->
  (forall tx i,
     tx ∈ raw_transactions db ->
     is_valid (_validate_row_for_transformation strptime to_datetime
                 str_of_datetime (row_of_raw tx) i) = false) ->
  (exists issues,
     _validate_transformed_data strptime to_datetime str_of_datetime
       (_raw_data_to_dataframe (raw_transactions db))
     = Returned (empty_frame, issues))
  /\ _apply_business_rules empty_frame = Raised (KeyError "name")
  /\ transform_to_schema company_check charge_check strptime to_datetime
       str_of_datetime db true apply_business_rules now
     = Raised DatabaseTransactionError.
Proof.
  intros Hne Hall. split; [by apply validate_all_invalid |].
  split; [reflexivity |].
  unfold transform_to_schema. apply get_transaction_raised.
  rewrite length_nonempty by done.
  destruct (validate_all_invalid _ Hne Hall) as [issues ->].
  cbn [mbind outcome_bind]. destruct apply_business_rules; by eexists.
Qed.

Lemma date_issues_type (df : DataFrame) (date_issues : list Issue.t) :
  _validate_date_consistency df = Returned date_issues ->
  date_issues = []
  \/ exists n, date_issues = [Issue.business_rule "date_consistency_error" n].
Proof.
  unfold _validate_date_consistency.
  destruct (require df ["status"]) as [[] |]; [| done].
  cbn [mbind outcome_bind].
  destruct (List.filter _ (rows df)) as [| x paid_df]; [intros [= <-]; by left |].
  destruct (require df _) as [[] |]; [| done]. cbn [mbind outcome_bind].
  destruct (List.filter _ (x :: paid_df)) as [| y both_dates];
    [intros [= <-]; by left |].
  destruct (compare_dates _) as [inconsistent |]; [| done].
  cbn [mbind outcome_bind].
  destruct (existsb _ inconsistent); intros [= <-]; [right; by eexists | by left].
Qed.

Lemma validation_issues_count (rows : list (nat * Row.t))
    (issues : list Issue.t) :
  Forall
    (fun issue =>
       exists i r,
         (i, r) ∈ rows
         /\ is_valid (_validate_row_for_transformation strptime to_datetime
                        str_of_datetime r i) = false
         /\ issue
            = Issue.validation_error i
                (errors (_validate_row_for_transformation strptime
                           to_datetime str_of_datetime r i))
                (warnings (_validate_row_for_transformation strptime
                             to_datetime str_of_datetime r i))
                r)
    issues ->
  length (List.filter
            (fun issue => String.eqb (Issue.type issue) "validation_error")
            issues)
  = length issues
  /\ list_sum
       (map (fun issue =>
               match issue with
               | Issue.business_rule type count =>
                   if String.eqb type "duplicates_removed" then count else 0
               | _ => 0
               end)
            issues)
     = 0.
Proof.
  induction 1 as [| issue issues (i & r & _ & _ & ->) _ [IH1 IH2]]; [done |].
  split.
  - cbn [List.filter Issue.type].
    change (String.eqb "validation_error" "validation_error") with true.
    cbn [length]. by rewrite IH1.
  - unfold list_sum in *. cbn [map fold_right]. by rewrite IH2.
Qed.

Lemma transform_report_accounting (db db' : Database)
    (now : Datetime.datetime) (report : TransformationReport) :
  transform_to_schema company_check charge_check strptime to_datetime
    str_of_datetime db true true now
  = Returned (report, db') ->
  total_raw_rows report = length (raw_transactions db)
  /\ transformed_rows report + skipped_rows report = total_raw_rows report
  /\ skipped_rows report
     = length (List.filter
                 (fun issue => String.eqb (Issue.type issue) "validation_error")
                 (data_quality_issues report))
       + list_sum
           (map (fun issue =>
                   match issue with
                   | Issue.business_rule type count =>
                       if String.eqb type "duplicates_removed" then count
                       else 0
                   | _ => 0
                   end)
                (data_quality_issues report)).
Proof.
  unfold transform_to_schema. rewrite get_transaction_returned.
  destruct (raw_transactions db) as [| tx raw_data] eqn:Hraw.
  { intros [= <- <-]. done. }
  rewrite <- Hraw.
  assert (Hne : raw_transactions db <> []) by (by rewrite Hraw).
  clear Hraw tx raw_data.
  rewrite length_nonempty by done.
  destruct (raw_frame_nonempty _ Hne) as [Hdf _].
  destruct (_validate_transformed_data _ _ _ _) as [[df1 issues1] |] eqn:Hv;
    [| done].
  cbn [mbind outcome_bind].
  apply validate_frame_spec in Hv as (Hlen1 & _ & _ & Hrep & _).
  rewrite Hdf in Hlen1. cbn [rows] in Hlen1. unfold reindex in Hlen1.
  rewrite length_imap, length_map in Hlen1.
  destruct (validation_issues_count _ _ Hrep) as [Hc1 Hd1].
  destruct (_apply_business_rules df1) as [[df2 issues2] |] eqn:Hb; [| done].
  cbn [mbind outcome_bind].
  apply business_rules_rows in Hb as (source & date_issues & Hrows2 & -> & Hd).
  apply date_issues_type in Hd.
  pose proof (drop_duplicates_length
                (fun ir : nat * Row.t => Row.id (snd ir)) (rows df1) [])
    as Hkept.
  set (kept := drop_duplicates _ [] (rows df1)) in *.
  destruct (_extract_companies df2 now) as [companies_df |]; [| done].
  cbn [mbind outcome_bind].
  destruct (_load_companies company_check db companies_df)
    as [[companies_created db1] |]; [| done].
  cbn [mbind outcome_bind].
  destruct (_transform_charges df2) as [charges_df |] eqn:Ht; [| done].
  cbn [mbind outcome_bind].
  assert (Hlen2 : length charges_df = length kept).
  { revert Ht. unfold _transform_charges.
    destruct (require df2 _) as [[] |]; [| done]. cbn [mbind outcome_bind].
    intros [= <-]. by rewrite length_map, Hrows2, length_map. }
  destruct (_load_charges charge_check db1 charges_df)
    as [[charges_created db2] |]; [| done].
  cbn [mbind outcome_bind]. intros [= <- <-].
  cbn [total_raw_rows transformed_rows skipped_rows data_quality_issues].
  rewrite !List.filter_app, !map_app, !list_sum_app, !length_app.
  rewrite Hc1, Hd1, Hlen2.
  split; [done |]. split; [lia |].
  assert (Hrules :
    length (List.filter
              (fun issue => String.eqb (Issue.type issue) "validation_error")
              (if (0 <? length (rows df1) - length kept)%nat
               then [Issue.business_rule "duplicates_removed"
                       (length (rows df1) - length kept)]
               else []))
    = 0
    /\ list_sum
         (map (fun issue =>
                 match issue with
                 | Issue.business_rule type count =>
                     if String.eqb type "duplicates_removed" then count else 0
                 | _ => 0
                 end)
              (if (0 <? length (rows df1) - length kept)%nat
               then [Issue.business_rule "duplicates_removed"
                       (length (rows df1) - length kept)]
               else []))
       = length (rows df1) - length kept).
  { destruct (Nat.ltb_spec 0 (length (rows df1) - length kept)); cbn;
      split; lia. }
  destruct Hrules as [-> ->].
  destruct (0 <? length (List.filter _ kept))%nat;
    destruct Hd as [-> | [n ->]]; cbn; lia.
Qed.

(** The report of a transform with validation and business rules
    accounts for every staged row: a row is transformed or skipped, and
    the rows skipped are the ones reported in a [validation_error] issue
    and the ones counted by the [duplicates_removed] issue. *)
Theorem skipped_rows_are_reported (db db' : Database)
    (now : Datetime.datetime) (report : TransformationReport) :
  transform_to_schema company_check charge_check strptime to_datetime
    str_of_datetime db true true now
  = Returned (report, db') ->
  total_raw_rows report = length (raw_transactions db)
  /\ transformed_rows report + skipped_rows report = total_raw_rows report
  /\ skipped_rows report
     = length (List.filter
                 (fun issue => String.eqb (Issue.type issue) "validation_error")
                 (data_quality_issues report))
       + list_sum
           (map (fun issue =>
                   match issue with
                   | Issue.business_rule type count =>
                       if String.eqb type "duplicates_removed" then count
                       else 0
                   | _ => 0
                   end)
                (data_quality_issues report)).
Proof. apply transform_report_accounting. Qed.

End FrameValidation.

Section FrameValidationExamples.
Import Py PyDecimal Transformer Examples.
Import Validation (is_valid).

Lemma validated_frame_accounts_for_every_row_witness :
  exists df' issues,
    _validate_transformed_data strptime_ymd no_fallback str_of_datetime
      (frame_of [row_of_raw (raw "a1" (Some "2020-01-02") None);
                 row_of_raw (raw " " (Some "2020-01-02") None)])
    = Returned (df', issues)
    /\ length (rows df') + length issues = 2.
Proof.
  eexists _, _. split; [vm_compute; reflexivity |].
  refine (proj1 (validated_frame_accounts_for_every_row strptime_ymd
                   no_fallback str_of_datetime
                   (frame_of [row_of_raw (raw "a1" (Some "2020-01-02") None);
                              row_of_raw (raw " " (Some "2020-01-02") None)])
                   _ _ _)).
  vm_compute. reflexivity.
Defined.

Lemma transform_without_business_rules_raises_witness :
  raw_transactions db_one_early <> []
  /\ exists e,
       transform_to_schema any_company any_charge strptime_ymd no_fallback
         str_of_datetime db_one_early true false (date 2024 1 1)
       = Raised e.
Proof.
  split; [discriminate |].
  apply (transform_without_business_rules_raises any_company any_charge
           strptime_ymd no_fallback str_of_datetime db_one_early true
           (date 2024 1 1)).
  discriminate.
Defined.

Lemma transform_with_no_valid_row_raises_witness :
  transform_to_schema any_company any_charge strptime_ymd no_fallback
    str_of_datetime (db_of [raw " " (Some "2020-01-02") None]) true true
    (date 2024 1 1)
  = Raised DatabaseTransactionError.
Proof.
  refine (proj2 (proj2 (transform_with_no_valid_row_raises any_company
                          any_charge strptime_ymd no_fallback str_of_datetime
                          (db_of [raw " " (Some "2020-01-02") None]) true
                          (date 2024 1 1) _ _))).
  - discriminate.
  - intros tx i Htx. apply list_elem_of_singleton in Htx as ->.
    reflexivity.
Defined.

Lemma skipped_rows_are_reported_witness :
  exists report db',
    transform db_same_clean_id = Returned (report, db')
    /\ total_raw_rows report = 2
    /\ transformed_rows report + skipped_rows report = total_raw_rows report.
Proof.
  eexists _, _. split; [vm_compute; reflexivity |].
  refine ((fun H => conj (proj1 H) (proj1 (proj2 H)))
            (skipped_rows_are_reported any_company any_charge strptime_ymd
               no_fallback str_of_datetime db_same_clean_id _ (date 2024 1 1)
               _ _)).
  vm_compute. reflexivity.
Defined.

End FrameValidationExamples.

(** ** Standardised company names *)

Section CompanyNames.
Import Py Transformer.

Lemma title_char_space (b : bool) (c : ascii) :
  isspace (if b then lower_char c else upper_char c) = isspace c.
Proof.
  destruct b, c as [[] [] [] [] [] [] [] []]; reflexivity.
Qed.

Lemma title_char_alpha (b : bool) (c : ascii) :
  isalpha (if b then lower_char c else upper_char c) = isalpha c.
Proof.
  destruct b, c as [[] [] [] [] [] [] [] []]; reflexivity.
Qed.

Lemma title_char_twice (b : bool) (c : ascii) :
  (if b then lower_char (if b then lower_char c else upper_char c)
   else upper_char (if b then lower_char c else upper_char c))
  = (if b then lower_char c else upper_char c).
Proof.
  destruct b, c as [[] [] [] [] [] [] [] []]; reflexivity.
Qed.

Lemma title_char_blank (b : bool) (c : ascii) :
  c = " "%char -> (if b then lower_char c else upper_char c) = " "%char.
Proof. intros ->. by destruct b. Qed.

Lemma space_not_alpha (c : ascii) : isspace c = true -> isalpha c = false.
Proof.
  destruct c as [[] [] [] [] [] [] [] []]; (reflexivity || discriminate).
Qed.

Lemma title_from_twice (b : bool) (s : string) :
  title_from b (title_from b s) = title_from b s.
Proof.
  revert b. induction s as [| c s IH]; intros b; [done |].
  cbn [title_from]. by rewrite title_char_twice, title_char_alpha, IH.
Qed.

Lemma lstrip_title (s : string) :
  lstrip (title_from false s) = title_from false (lstrip s).
Proof.
  induction s as [| c s IH]; [done |].
  cbn [title_from lstrip]. rewrite (title_char_space false).
  destruct (isspace c) eqn:Hc; [| done].
  by rewrite (space_not_alpha c Hc).
Qed.

Lemma rstrip_title (b : bool) (s : string) :
  rstrip (title_from b s) = title_from b (rstrip s).
Proof.
  revert b. induction s as [| c s IH]; intros b; [done |].
  cbn [title_from rstrip]. rewrite IH, title_char_space.
  destruct (rstrip s) as [| d r]; [by destruct (isspace c) | done].
Qed.

Lemma strip_title (s : string) : strip (title s) = title (strip s).
Proof. unfold strip, title. by rewrite lstrip_title, rstrip_title. Qed.

Lemma collapse_title (in_run prev_cased : bool) (s : string) :
  (in_run = true -> prev_cased = false) ->
  collapse_ws in_run (title_from prev_cased s)
  = title_from prev_cased (collapse_ws in_run s).
Proof.
  revert in_run prev_cased.
  induction s as [| c s IH]; intros in_run prev_cased Hrun; [done |].
  cbn [title_from collapse_ws]. rewrite title_char_space.
  destruct (isspace c) eqn:Hc.
  - rewrite (space_not_alpha c Hc). destruct in_run.
    + rewrite (Hrun eq_refl). by apply IH.
    + cbn [title_from]. rewrite (title_char_blank prev_cased " ") by done.
      f_equal. by apply IH.
  - cbn [title_from]. f_equal. by apply IH.
Qed.

Lemma collapse_twice (in_run : bool) (s : string) :
  collapse_ws in_run (collapse_ws in_run s) = collapse_ws in_run s.
Proof.
  revert in_run. induction s as [| c s IH]; intros in_run; [done |].
  cbn [collapse_ws]. destruct (isspace c) eqn:Hc.
  - destruct in_run; [apply IH |]. cbn [collapse_ws].
    change (isspace " ") with true. cbn iota. f_equal. apply IH.
  - cbn [collapse_ws]. rewrite Hc. f_equal. apply IH.
Qed.

(** A stripped text does not start with whitespace. *)
Lemma lstrip_head (s : string) (c : ascii) (r : string) :
  lstrip s = String c r -> isspace c = false.
Proof.
  induction s as [| d s IH]; [done |]. cbn [lstrip].
  destruct (isspace d) eqn:Hd; [done |]. by intros [= <- _].
Qed.

Lemma rstrip_head (s : string) (c : ascii) (r : string) :
  rstrip s = String c r -> exists r', s = String c r'.
Proof.
  destruct s as [| d s]; [done |]. cbn [rstrip].
  destruct (rstrip s); [destruct (isspace d) |]; intros [= <- _]; by eexists.
Qed.

Lemma strip_head (s : string) (c : ascii) (r : string) :
  strip s = String c r -> isspace c = false.
Proof.
  unfold strip. intros H. apply rstrip_head in H as [r' H].
  by apply lstrip_head in H.
Qed.

(** A text stripped on the right is empty or holds a character that is
    not whitespace, so that collapsing its whitespace does not empty it. *)
Lemma collapse_rstrip_nonempty (in_run : bool) (s : string) :
  rstrip s <> EmptyString -> collapse_ws in_run (rstrip s) <> EmptyString.
Proof.
  revert in_run. induction s as [| c s IH]; intros in_run; [done |].
  cbn [rstrip]. destruct (rstrip s) as [| d r] eqn:Hr.
  - destruct (isspace c) eqn:Hc; [done |]. intros _. cbn [collapse_ws].
    by rewrite Hc.
  - intros _. remember (String d r) as w eqn:Hw. cbn [collapse_ws].
    destruct (isspace c); [destruct in_run |]; try done.
    apply IH. by subst w.
Qed.

Lemma rstrip_collapse (in_run : bool) (s : string) :
  rstrip (collapse_ws in_run (rstrip s)) = collapse_ws in_run (rstrip s).
Proof.
  revert in_run. induction s as [| c s IH]; intros in_run; [done |].
  cbn [rstrip]. destruct (rstrip s) as [| d r] eqn:Hr.
  - destruct (isspace c) eqn:Hc; [done |]. cbn [collapse_ws].
    rewrite Hc. cbn [rstrip]. by rewrite Hc.
  - pose proof (collapse_rstrip_nonempty true s) as Hne.
    rewrite Hr in Hne. remember (String d r) as w eqn:Hw.
    cbn [collapse_ws].
    destruct (isspace c) eqn:Hc; [destruct in_run |].
    + apply IH.
    + cbn [rstrip]. rewrite IH.
      destruct (collapse_ws true w); [| done].
      exfalso. apply Hne; [by subst w | done].
    + cbn [rstrip]. rewrite IH, Hc.
      by destruct (collapse_ws false w).
Qed.

Lemma strip_collapse (s : string) :
  strip (collapse_ws false (strip s)) = collapse_ws false (strip s).
Proof.
  unfold strip at 1.
  assert (H : lstrip (collapse_ws false (strip s))
              = collapse_ws false (strip s)).
  { destruct (strip s) as [| c r] eqn:Hs; [done |].
    apply strip_head in Hs. cbn [collapse_ws]. rewrite Hs. cbn [lstrip].
    by rewrite Hs. }
  rewrite H. unfold strip. apply rstrip_collapse.
Qed.

Lemma collapse_nonempty (s : string) :
  s <> EmptyString -> collapse_ws false s <> EmptyString.
Proof.
  destruct s as [| c r]; [done |]. intros _. cbn [collapse_ws].
  by destruct (isspace c).
Qed.

Lemma title_nonempty (s : string) :
  s <> EmptyString -> title s <> EmptyString.
Proof. by destruct s. Qed.

(** The name that [_standardize_company_name] computes from a name that
    is not blank is stripped, single-spaced and in title case. *)
Lemma standardized_fixed (s : string) :
  strip s <> EmptyString ->
  strip (title (collapse_ws false (strip s)))
  = title (collapse_ws false (strip s))
  /\ collapse_ws false (title (collapse_ws false (strip s)))
     = title (collapse_ws false (strip s))
  /\ title (title (collapse_ws false (strip s)))
     = title (collapse_ws false (strip s))
  /\ title (collapse_ws false (strip s)) <> EmptyString.
Proof.
  intros Hne. split_and!.
  - by rewrite strip_title, strip_collapse.
  - unfold title. rewrite collapse_title by done. by rewrite collapse_twice.
  - apply title_from_twice.
  - by apply title_nonempty, collapse_nonempty.
Qed.

(** [_standardize_company_name] is idempotent: a name it returned is
    returned unchanged when it is standardised again, so that the second
    business rule changes nothing on names it has already cleaned. *)
Theorem standardize_company_name_idempotent (company_name : option string) :
  _standardize_company_name (_standardize_company_name company_name)
  = _standardize_company_name company_name.
Proof.
  destruct (blank company_name) eqn:Hb.
  - assert (E : _standardize_company_name company_name
                = Some "Unknown Company")
      by (unfold _standardize_company_name; by rewrite Hb).
    rewrite E. reflexivity.
  - assert (E : _standardize_company_name company_name
                = Some (title (collapse_ws false
                                 (strip (default "" company_name)))))
      by (unfold _standardize_company_name; by rewrite Hb).
    rewrite E. clear E.
    apply not_blank in Hb as (s & -> & Hlen).
    change (default "" (Some s)) with s.
    assert (Hne : strip s <> EmptyString)
      by (intros H; rewrite H in Hlen; cbn in Hlen; lia).
    destruct (standardized_fixed s Hne) as (Hstrip & Hcollapse & Htitle & Hx).
    unfold _standardize_company_name, blank.
    change (default "" (Some (title (collapse_ws false (strip s)))))
      with (title (collapse_ws false (strip s))).
    rewrite Hstrip, Hcollapse, Htitle.
    by destruct (title (collapse_ws false (strip s))).
Qed.

End CompanyNames.

(** ** The Missing Number API *)

Section ApiProperties.
Import NumberSetError NumberSet Api.

Local Open Scope Z_scope.

Lemma validate_extract_number_input_spec (number : Z) :
  validate_extract_number_input number
  = if (number <? 1) || (100 <? number)
    then Raised (NumberOutOfRangeError number 1 100)
    else Returned (Some number).
Proof.
  unfold validate_extract_number_input, InputValidator.validate_number_range.
  by destruct ((number <? 1) || (100 <? number)).
Qed.

Lemma number_set_well_formed :
  well_formed number_set /\ max_number number_set = 100.
Proof. by apply init_well_formed. Qed.

Lemma serve_well_formed (s : NumberSet.t) (req : request) :
  well_formed s -> max_number s = 100 ->
  well_formed (snd (serve s req)) /\ max_number (snd (serve s req)) = 100.
Proof.
  intros Hwf Hmax. destruct req as [number | | |]; cbn [serve snd]; try done.
  - unfold extract_number. rewrite validate_extract_number_input_spec.
    destruct ((number <? 1) || (100 <? number)); [done |].
    cbn [Api.extract].
    destruct (NumberSet.extract s number) as [[b s'] | e] eqn:He; [| done].
    cbn [snd]. split; [by eapply extract_well_formed |].
    by apply extract_inv in He as (_ & _ & _ & ->).
  - split; [| done]. apply reset_well_formed. lia.
Qed.

Lemma served_well_formed (requests : list request) :
  well_formed (served requests) /\ max_number (served requests) = 100.
Proof.
  unfold served. generalize number_set_well_formed.
  generalize number_set as s. 
  induction requests as [| req requests IH]; intros s [Hwf Hmax]; [done |].
  cbn [foldl]. apply IH. by apply serve_well_formed.
Qed.

Lemma well_formed_count (s : NumberSet.t) :
  well_formed s ->
  Z.of_nat (count_remaining s) + Z.of_nat (count_extracted s) = max_number s.
Proof.
  intros (Hmax & Hdisj & Hall). unfold count_remaining, count_extracted.
  rewrite <- Nat2Z.inj_add, <- size_union by done. rewrite Hall.
  unfold initial_numbers. rewrite size_list_to_set by apply NoDup_seqZ.
  rewrite length_seqZ. lia.
Qed.

Lemma well_formed_extracted (s : NumberSet.t) (number : Z) :
  well_formed s -> 1 <= number <= max_number s ->
  number ∉ numbers s <-> number ∈ extracted_numbers s.
Proof.
  intros (Hmax & Hdisj & Hall) Hrange.
  assert (Hin : number ∈ numbers s ∪ extracted_numbers s)
    by (rewrite Hall; by apply elem_of_initial_numbers).
  apply elem_of_union in Hin. split.
  - intros Hn. by destruct Hin.
  - intros He Hn. by apply (Hdisj number).
Qed.

Lemma find_missing_number_single (s : NumberSet.t) (k : Z) :
  well_formed s -> extracted_numbers s = {[k]} ->
  find_missing_number s = Returned k.
Proof.
  intros (Hmax & Hdisj & Hall) Hone.
  unfold find_missing_number. rewrite Hone in *. rewrite size_singleton. cbn.
  f_equal. rewrite <- (sum_initial_numbers (max_number s)) by lia.
  rewrite <- Hall, sum_disj_union, sum_singleton by done. lia.
Qed.

(** After any sequence of requests, [POST /extract/{number}] answers 400
    with the error [NUMBER_OUT_OF_RANGE] when the number is not between 1
    and 100, 409 with [NUMBER_ALREADY_EXTRACTED] when it was extracted
    since the last reset, and in both cases leaves the set as it is;
    otherwise it answers 200 with the number and the count of the
    numbers left, and moves the number to the extracted ones. It never
    answers with a [TYPE_ERROR]. *)
Theorem extract_endpoint_answers (requests : list request) (number : Z) :
  let s := served requests in
  serve s (PostExtract number)
  = if (number <? 1) || (100 <? number)
    then (JSONResponse 400 "NUMBER_OUT_OF_RANGE", s)
    else if bool_decide (number ∈ extracted_numbers s)
    then (JSONResponse 409 "NUMBER_ALREADY_EXTRACTED", s)
    else (ExtractResponse true (Some number) (99 - count_extracted s),
          mk 100 (numbers s ∖ {[number]}) ({[number]} ∪ extracted_numbers s)).
Proof.
  intros s. destruct (served_well_formed requests) as [Hwf Hmax].
  fold s in Hwf, Hmax. cbn [serve]. unfold extract_number.
  rewrite validate_extract_number_input_spec.
  destruct ((number <? 1) || (100 <? number)) eqn:Hr; [done |].
  apply orb_false_iff in Hr as [H1 H2]. apply Z.ltb_ge in H1, H2.
  cbn [Api.extract]. unfold NumberSet.extract.
  unfold InputValidator.validate_number_range. rewrite Hmax.
  replace ((number <? 1) || (100 <? number)) with false
    by (symmetry; apply orb_false_iff; split; apply Z.ltb_ge; lia).
  cbn [mbind number_set_bind].
  pose proof (well_formed_extracted s number Hwf ltac:(lia)) as Hiff.
  case_bool_decide as Hn; case_bool_decide as He; try tauto; try done.
  f_equal. f_equal. unfold count_remaining. cbn [numbers].
  pose proof (well_formed_count s Hwf) as Hc. rewrite Hmax in Hc.
  unfold count_remaining in Hc.
  assert (Hs : size (numbers s)
               = (size (numbers s ∖ {[number]}) + 1)%nat).
  { rewrite (union_difference_L {[number]} (numbers s)) at 1
      by (by apply singleton_subseteq_l).
    rewrite size_union, size_singleton; [lia |].
    intros k Hk1 Hk2. apply elem_of_difference in Hk2. tauto. }
  lia.
Qed.

(** After any sequence of requests, [GET /missing] answers 200 with the
    extracted number when exactly one number is extracted, and 422
    otherwise: with the error [NO_NUMBERS_EXTRACTED] when none is, with
    [MULTIPLE_NUMBERS_EXTRACTED] when several are. *)
Theorem missing_endpoint_answers (requests : list request) :
  get_missing_number (served requests)
  = match elements (extracted_numbers (served requests)) with
    | [] => JSONResponse 422 "NO_NUMBERS_EXTRACTED"
    | [k] => MissingNumberResponse k "mathematical_sum" [k]
    | _ => JSONResponse 422 "MULTIPLE_NUMBERS_EXTRACTED"
    end.
Proof.
  destruct (served_well_formed requests) as [Hwf Hmax].
  set (s := served requests) in *. unfold get_missing_number.
  destruct (elements (extracted_numbers s)) as [| k [| k' l]] eqn:He.
  - apply elements_empty_inv in He. apply leibniz_equiv in He.
    unfold find_missing_number. by rewrite He, size_empty.
  - assert (Hone : extracted_numbers s = {[k]}).
    { rewrite <- (list_to_set_elements_L (extracted_numbers s)), He.
      cbn. apply (right_id_L ∅ (∪)). }
    rewrite (find_missing_number_single s k Hwf Hone).
    unfold get_extracted_numbers. by rewrite He.
  - unfold find_missing_number, size, set_size. cbn [compose].
    by rewrite He.
Qed.

End ApiProperties.
